(** * Al Muslim Engineers solar application (app.py): estimator and intake

    A shallow embedding of the two pieces of [app.py] that carry decision
    logic: the sizing estimator [get_solar_recommendation] and the
    metering-application workflow ([apply_metering], [apply_solar_setup],
    [admin_application_detail], [api_application_status]).

    Numbers.  A Python [int] is a [Z].  A Python [float] is modelled by the
    rational it denotes ([Q]): decimal literals are read at face value
    ([5.5] is [11/2], [0.8] is [4/5]) and the arithmetic is exact, so the
    binary64 rounding of each operation is abstracted and the non-finite
    floats ([inf], [nan]) are outside the model.  Every [/] of the source
    goes through [py_truediv], which raises [ZeroDivisionError] on a zero
    divisor as Python does.  Module [Binary64] transcribes the estimator's
    arithmetic a second time on IEEE 754 binary64 floats, and
    [Binary64Checks] runs it: on the inputs evaluated below and on every
    capacity the estimator can return, the rounding changes nothing.  It
    does change the ladder choice for a bill just above a threshold of the
    ladder ([Binary64Facts.just_above_9900]), so the claim about that choice
    (C1) is stated on the binary64 sizing.

    Effects.  A handler is a function of the request, of what the request
    sees of the outside ([Env]: clock, random generator, library functions)
    and of the table of applications; it returns its flashed messages, its
    response and the new table, or raises.  A view reads the user of the
    session from its request ([session_user_id]), as it does behind
    [login_required]; the storage of uploaded files is outside the model.

    The later modules add the shop ([Shop]: cart, checkout, catalog), the
    accounts and the two decorators ([Accounts]), the feedback ([Reviews])
    and two more views ([Views]), each over the tables it reads and
    writes. *)

From Stdlib Require Import ZArith QArith Qround Qabs List String Ascii Bool Lia Lqa.
From Stdlib Require Import Floats Uint63.
Import ListNotations.

(** ** Exceptions and the error monad *)

Inductive exn : Type :=
| ZeroDivisionError
| TypeError
| ValueError
| IntegrityError.

Inductive result (A : Type) : Type :=
| Ok (a : A)
| Raise (e : exn).

Arguments Ok {A} a.
Arguments Raise {A} e.

Definition bind {A B : Type} (m : result A) (k : A -> result B) : result B :=
  match m with
  | Ok a => k a
  | Raise e => Raise e
  end.

Declare Scope py_scope.
Delimit Scope py_scope with py.
Notation "x <- m ;; k" := (bind m (fun x => k))
  (at level 61, m at next level, right associativity) : py_scope.

(** ** Python numbers *)

Module PyNum.

Local Open Scope Q_scope.

(** [x / y] on floats (true division). *)
Definition py_truediv (x y : Q) : result Q :=
  if Qeq_bool y 0 then Raise ZeroDivisionError else Ok (x / y).

(** [x < y] and [x > y], decided. *)
Definition Qltb (x y : Q) : bool :=
  match Qcompare x y with
  | Lt => true
  | _ => false
  end.

(** [int(x)] on a float: truncation toward zero. *)
Definition py_int (x : Q) : Z := Z.quot (Qnum x) (Zpos (Qden x)).

(** Nearest integer, ties to the even one. *)
Definition round_half_even (x : Q) : Z :=
  let f := Qfloor x in
  match Qcompare (x - inject_Z f) (1 # 2) with
  | Lt => f
  | Gt => (f + 1)%Z
  | Eq => if Z.even f then f else (f + 1)%Z
  end.

(** [round(x, ndigits)]: [x] rounded to [ndigits] decimal places, ties to
    even. *)
Definition py_round (x : Q) (ndigits : nat) : Q :=
  let scale := inject_Z (10 ^ Z.of_nat ndigits) in
  inject_Z (round_half_even (x * scale)) / scale.

(** [min(l, default=d)] on a list of ints. *)
Definition py_min (l : list Z) (default : Z) : Z :=
  match l with
  | [] => default
  | c :: l' => fold_left Z.min l' c
  end.

End PyNum.

(** ** The sizing estimator *)

Module Estimator.

Import PyNum.
Local Open Scope Q_scope.
Local Open Scope py_scope.

(** The dictionary returned by [get_solar_recommendation]. *)
Record recommendation : Type := {
  recommended_capacity : Z;
  monthly_consumption : Q;
  estimated_cost : Z;
  monthly_savings : Q;
  annual_savings : Q;
  payback_period : Q;
  carbon_offset : Q;
  net_metering_eligible : bool;
  required_area : Z;
  monthly_generation : Q
}.

Definition standard_capacities : list Z :=
  [1; 2; 3; 5; 7; 10; 15; 20; 25; 30; 40; 50]%Z.

(** Line 215: [total_cost / annual_savings if annual_savings > 0 else 0]. *)
Definition payback_years (total_cost : Z) (annual_savings : Q) : result Q :=
  if Qltb 0 annual_savings
  then py_truediv (inject_Z total_cost) annual_savings
  else Ok 0.

Definition get_solar_recommendation
    (monthly_bill roof_area : Q) (property_type : string)
  : result recommendation :=
  let electricity_rate := 25%Z in
  monthly_units <- py_truediv monthly_bill (inject_Z electricity_rate) ;;
  let peak_sun_hours := 55 # 10 in
  let system_loss_factor := 8 # 10 in
  daily_units <- py_truediv monthly_units 30 ;;
  required_capacity <-
    py_truediv daily_units (peak_sun_hours * system_loss_factor) ;;
  let recommended_capacity :=
    py_min (filter (fun c => Qle_bool required_capacity (inject_Z c))
                   standard_capacities) 50 in
  let required_area := (recommended_capacity * 100)%Z in
  recommended_capacity <-
    (if Qltb roof_area (inject_Z required_area)
     then
       q <- py_truediv roof_area 100 ;;
       let recommended_capacity := py_int q in
       Ok (Z.max 1 recommended_capacity)
     else Ok recommended_capacity) ;;
  let cost_per_kw := 80000%Z in
  let total_cost := (recommended_capacity * cost_per_kw)%Z in
  let monthly_generation :=
    inject_Z recommended_capacity * peak_sun_hours * 30 * system_loss_factor in
  let monthly_savings := monthly_generation * inject_Z electricity_rate in
  let annual_savings := monthly_savings * 12 in
  payback_years <- payback_years total_cost annual_savings ;;
  annual_carbon_offset <-
    py_truediv (monthly_generation * 12 * (453592 # 1000000)) 1000 ;;
  let net_metering_eligible := (5 <=? recommended_capacity)%Z in
  Ok {| recommended_capacity := recommended_capacity;
        monthly_consumption := py_round monthly_units 2;
        estimated_cost := total_cost;
        monthly_savings := py_round monthly_savings 2;
        annual_savings := py_round annual_savings 2;
        payback_period := py_round payback_years 1;
        carbon_offset := py_round annual_carbon_offset 2;
        net_metering_eligible := net_metering_eligible;
        required_area := required_area;
        monthly_generation := py_round monthly_generation 2 |}.

(** *** Views of the estimator's intermediate variables

    The values the variables [required_capacity] (line 193), the first
    [recommended_capacity] (line 197) and the final [recommended_capacity]
    (after lines 201-203) hold, as functions of the inputs. *)

Definition required_capacity_of (monthly_bill : Q) : Q :=
  monthly_bill / 25 / 30 / ((55 # 10) * (8 # 10)).

Definition ladder_capacity (required_capacity : Q) : Z :=
  py_min (filter (fun c => Qle_bool required_capacity (inject_Z c))
                 standard_capacities) 50.

Definition final_capacity (monthly_bill roof_area : Q) : Z :=
  let ladder := ladder_capacity (required_capacity_of monthly_bill) in
  if Qltb roof_area (inject_Z (ladder * 100))
  then Z.max 1 (py_int (roof_area / 100))
  else ladder.

(** What the claims call "the smallest standard-ladder value that is at
    least [req]". *)
Definition smallest_ladder_value_ge (req : Q) (c : Z) : Prop :=
  In c standard_capacities /\
  req <= inject_Z c /\
  forall c', In c' standard_capacities -> req <= inject_Z c' -> (c <= c')%Z.

End Estimator.

(** ** The metering-application workflow *)

Module Intake.

Import PyNum.
Local Open Scope Z_scope.
Local Open Scope string_scope.
Local Open Scope py_scope.

(** *** Strings

    A Python [str] is held as the bytes of its UTF-8 encoding. *)

(** The white space of [str.strip()]: the code points U+0009 to U+000D,
    U+001C to U+0020, U+0085, U+00A0, U+1680, U+2000 to U+200A, U+2028,
    U+2029, U+202F, U+205F and U+3000.  [is_space] knows those of one byte,
    [is_space2] and [is_space3] the encodings on two and three bytes. *)
Definition is_space (c : ascii) : bool :=
  let n := nat_of_ascii c in
  ((n =? 32) || ((9 <=? n) && (n <=? 13)) || ((28 <=? n) && (n <=? 31)))%nat.

Definition is_space2 (a b : ascii) : bool :=
  let a := nat_of_ascii a in
  let b := nat_of_ascii b in
  ((a =? 194) && ((b =? 133) || (b =? 160)))%nat.

Definition is_space3 (a b c : ascii) : bool :=
  let a := nat_of_ascii a in
  let b := nat_of_ascii b in
  let c := nat_of_ascii c in
  (((a =? 225) && (b =? 154) && (c =? 128))
   || ((a =? 226) && (b =? 128)
       && (((128 <=? c) && (c <=? 138)) || (c =? 168) || (c =? 169) || (c =? 175)))
   || ((a =? 226) && (b =? 129) && (c =? 159))
   || ((a =? 227) && (b =? 128) && (c =? 128)))%nat.

Definition is_lower (c : ascii) : bool :=
  let n := nat_of_ascii c in ((97 <=? n) && (n <=? 122))%nat.

Definition is_upper (c : ascii) : bool :=
  let n := nat_of_ascii c in ((65 <=? n) && (n <=? 90))%nat.

Definition to_upper (c : ascii) : ascii :=
  if is_lower c then ascii_of_nat (nat_of_ascii c - 32) else c.

Definition to_lower (c : ascii) : ascii :=
  if is_upper c then ascii_of_nat (nat_of_ascii c + 32) else c.

Fixpoint lstrip (s : list ascii) : list ascii :=
  match s with
  | a :: s1 =>
      if is_space a then lstrip s1
      else
        match s1 with
        | b :: s2 =>
            if is_space2 a b then lstrip s2
            else
              match s2 with
              | c :: s3 => if is_space3 a b c then lstrip s3 else s
              | [] => s
              end
        | [] => s
        end
  | [] => []
  end.

(** The same from the right, on the bytes in reverse order. *)
Fixpoint rstrip_reversed (s : list ascii) : list ascii :=
  match s with
  | c :: s1 =>
      if is_space c then rstrip_reversed s1
      else
        match s1 with
        | b :: s2 =>
            if is_space2 b c then rstrip_reversed s2
            else
              match s2 with
              | a :: s3 => if is_space3 a b c then rstrip_reversed s3 else s
              | [] => s
              end
        | [] => s
        end
  | [] => []
  end.

(** [s.strip()] *)
Definition py_strip (s : string) : string :=
  string_of_list_ascii
    (rev (rstrip_reversed (rev (lstrip (list_ascii_of_string s))))).

(** [s.replace(a, b)] for one-character [a] and [b]. *)
Fixpoint py_replace (a b : ascii) (s : string) : string :=
  match s with
  | EmptyString => EmptyString
  | String c s' => String (if Ascii.eqb c a then b else c) (py_replace a b s')
  end.

Fixpoint title_from (previous_is_cased : bool) (s : string) : string :=
  match s with
  | EmptyString => EmptyString
  | String c s' =>
      if is_lower c
      then String (if previous_is_cased then c else to_upper c) (title_from true s')
      else if is_upper c
      then String (if previous_is_cased then to_lower c else c) (title_from true s')
      else String c (title_from false s')
  end.

(** [s.title()] *)
Definition py_title (s : string) : string := title_from false s.

(** Truth value of a string that may be [None]. *)
Definition truthy (v : option string) : bool :=
  match v with
  | Some s => negb (s =? "")
  | None => false
  end.

(** [v == s] for [v] a string or [None]. *)
Definition is_str (v : option string) (s : string) : bool :=
  match v with
  | Some s' => s' =? s
  | None => false
  end.

(** [n] in decimal on [width] digits, zero padded. *)
Fixpoint zero_pad (width : nat) (n : Z) : string :=
  match width with
  | O => ""
  | S w =>
      zero_pad w (n / 10)
      ++ String (ascii_of_nat (48 + Z.to_nat (n mod 10))) ""
  end.

(** *** Dictionaries with string keys, in insertion order *)

Fixpoint dict_get {V : Type} (d : list (string * V)) (k : string) : option V :=
  match d with
  | [] => None
  | (k', v) :: d' => if k' =? k then Some v else dict_get d' k
  end.

Definition dict_mem {V : Type} (k : string) (d : list (string * V)) : bool :=
  match dict_get d k with
  | Some _ => true
  | None => false
  end.

(** [d[k] = v] *)
Fixpoint dict_set {V : Type} (d : list (string * V)) (k : string) (v : V)
  : list (string * V) :=
  match d with
  | [] => [(k, v)]
  | (k', v') :: d' =>
      if k' =? k then (k, v) :: d' else (k', v') :: dict_set d' k v
  end.

(** *** Dates *)

Record datetime : Type := {
  year : Z; month : Z; day : Z; hour : Z; minute : Z; second : Z
}.

(** [strftime('%Y%m%d')], [strftime('%Y-%m-%d')] and
    [strftime('%Y%m%d%H%M%S')], for years of four digits. *)
Definition strftime_Ymd (t : datetime) : string :=
  zero_pad 4 (year t) ++ zero_pad 2 (month t) ++ zero_pad 2 (day t).

Definition strftime_Y_m_d (t : datetime) : string :=
  zero_pad 4 (year t) ++ "-" ++ zero_pad 2 (month t) ++ "-" ++ zero_pad 2 (day t).

Definition strftime_YmdHMS (t : datetime) : string :=
  strftime_Ymd t ++ zero_pad 2 (hour t) ++ zero_pad 2 (minute t)
  ++ zero_pad 2 (second t).

(** *** What a request sees of the outside

    The library functions the handlers call and the readings one request
    takes of the clock and of the random generator.  [float_of_string] and
    [int_of_string] stand for [float(s)] and [int(s)] on a string ([None]:
    the string does not parse, a [ValueError]); [secure_filename] is
    werkzeug's.  A request is served at one clock reading; [random_draws k]
    is the raw value behind the [k]-th call of [random.randint]. *)
Record Env : Type := {
  float_of_string : string -> option Q;
  int_of_string : string -> option Z;
  secure_filename : string -> string;
  now : datetime;
  utcnow : datetime;
  random_draws : nat -> Z
}.

(** [random.randint(a, b)], [k]-th call of the request. *)
Definition randint (env : Env) (k : nat) (a b : Z) : Z :=
  a + random_draws env k mod (b - a + 1).

(** [float(v)] and [int(v)] for [v] a string or [None]. *)
Definition py_float (env : Env) (v : option string) : result Q :=
  match v with
  | None => Raise TypeError
  | Some s =>
      match float_of_string env s with
      | Some x => Ok x
      | None => Raise ValueError
      end
  end.

Definition py_int_of (env : Env) (v : option string) : result Z :=
  match v with
  | None => Raise TypeError
  | Some s =>
      match int_of_string env s with
      | Some n => Ok n
      | None => Raise ValueError
      end
  end.

(** *** Requests and responses *)

Inductive http_method : Type := GET | POST.

(** [form] is [request.form]; [files] maps a field of [request.files] to the
    file name of its upload (an upload is true when its file name is not
    empty); [session_user_id] is [session['user_id']], which the
    [login_required] decorator guarantees. *)
Record Request : Type := {
  method : http_method;
  form : list (string * string);
  files : list (string * string);
  session_user_id : Z
}.

(** [request.form.get(k)] and [request.form.get(k, default)]. *)
Definition form_get (req : Request) (k : string) : option string :=
  dict_get (form req) k.

Definition form_get_default (req : Request) (k default : string) : string :=
  match dict_get (form req) k with
  | Some v => v
  | None => default
  end.

(** [int(request.form.get(k, default))] and
    [float(request.form.get(k, default))] for a default that is an int. *)
Definition form_int_default (env : Env) (req : Request) (k : string) (default : Z)
  : result Z :=
  match form_get req k with
  | Some s => py_int_of env (Some s)
  | None => Ok default
  end.

Definition form_float_default
    (env : Env) (req : Request) (k : string) (default : Z)
  : result Q :=
  match form_get req k with
  | Some s => py_float env (Some s)
  | None => Ok (inject_Z default)
  end.

Inductive json : Type :=
| JNull
| JString (s : string)
| JNumber (x : Q).

Inductive Response : Type :=
| redirect (endpoint : string)
| render_template (name : string)
| abort (code : Z)
| jsonify (body : list (string * json)) (code : Z).

(** What a handler leaves behind: the messages it flashed, each with its
    category, and its response. *)
Record Outcome : Type := {
  flashed : list (string * string);
  response : Response
}.

Definition flash_and_redirect (message category endpoint : string) : Outcome :=
  {| flashed := [(message, category)]; response := redirect endpoint |}.

(** *** The table of applications *)

(** A row of [MeteringApplication].  A column holds [None] for NULL;
    [documents] is the mapping whose JSON text the column stores. *)
Record MeteringApplication : Type := {
  id : Z;
  user_id : Z;
  application_type : option string;
  system_capacity : Q;
  consumption_units : Z;
  property_type : option string;
  property_address : option string;
  ownership_type : string;
  reference_number : option string;
  status : option string;
  submitted_at : datetime;
  updated_at : datetime;
  documents : list (string * string);
  noc_message : option string;
  admin_notes : option string;
  estimated_cost : Q
}.

Definition Database : Type := list MeteringApplication.

(** [generate_reference] *)
Definition generate_reference
    (env : Env) (k : nat) (application_type : option string) : string :=
  let prefixes := [("net", "NET"); ("gross", "GROSS"); ("simple_solar", "SOL")] in
  let prefix :=
    match application_type with
    | Some t =>
        match dict_get prefixes t with
        | Some p => p
        | None => "APP"
        end
    | None => "APP"
    end in
  let timestamp := strftime_Ymd (now env) in
  let random_num := randint env k 1000 9999 in
  prefix ++ "-" ++ timestamp ++ "-" ++ zero_pad 4 random_num.

Definition next_id (db : Database) : Z :=
  fold_left Z.max (map id db) 0 + 1.

(** The row with its primary key assigned. *)
Definition with_id (application : MeteringApplication) (n : Z)
  : MeteringApplication :=
  {| id := n;
     user_id := user_id application;
     application_type := application_type application;
     system_capacity := system_capacity application;
     consumption_units := consumption_units application;
     property_type := property_type application;
     property_address := property_address application;
     ownership_type := ownership_type application;
     reference_number := reference_number application;
     status := status application;
     submitted_at := submitted_at application;
     updated_at := updated_at application;
     documents := documents application;
     noc_message := noc_message application;
     admin_notes := admin_notes application;
     estimated_cost := estimated_cost application |}.

(** [db.session.add(application); db.session.commit()]: the row gets the
    next primary key; the commit fails on a NULL in a [nullable=False]
    column and on a [reference_number] already in the table ([unique=True]). *)
Definition db_add_commit (application : MeteringApplication) (db : Database)
  : result Database :=
  match application_type application, property_address application with
  | Some _, Some _ =>
      if existsb (fun a =>
                    match reference_number a, reference_number application with
                    | Some r, Some r' => r =? r'
                    | _, _ => false
                    end) db
      then Raise IntegrityError
      else Ok (db ++ [with_id application (next_id db)])%list
  | _, _ => Raise IntegrityError
  end.

(** [MeteringApplication.query.filter_by(reference_number=ref).first()] *)
Definition query_by_reference (db : Database) (ref_number : string)
  : option MeteringApplication :=
  find (fun a => is_str (reference_number a) ref_number) db.

(** [MeteringApplication.query.get(app_id)] *)
Definition query_get (db : Database) (app_id : Z) : option MeteringApplication :=
  find (fun a => id a =? app_id)%Z db.

(** *** The two application forms *)

Definition base_documents : list string :=
  ["electricity_bill"; "cnic_front"; "cnic_back"].

(** One turn of the upload loop (lines 444-454 and 533-543): the documents
    stored so far and the number of random draws taken, before and after
    [field]. *)
Definition save_upload (env : Env) (req : Request)
    (state : list (string * string) * nat) (field : string)
  : list (string * string) * nat :=
  let '(uploaded_docs, draws) := state in
  match dict_get (files req) field with
  | Some file_filename =>
      if negb (file_filename =? "")
      then
        let filename := secure_filename env file_filename in
        let timestamp := strftime_YmdHMS (now env) in
        let rand := randint env draws 1000 9999 in
        let filename :=
          field ++ "_" ++ timestamp ++ "_" ++ zero_pad 4 rand ++ "_" ++ filename in
        (dict_set uploaded_docs field ("uploads/" ++ filename), S draws)
      else state
  | None => state
  end.

(** [[d.replace('_', ' ').title() for d in required if d not in uploaded]] *)
Definition missing_documents
    (required_docs : list string) (uploaded_docs : list (string * string))
  : list string :=
  map (fun d => py_title (py_replace "_"%char " "%char d))
      (filter (fun d => negb (dict_mem d uploaded_docs)) required_docs).

(** The row built by [MeteringApplication(...)] with [reference_number]
    assigned; [status], [submitted_at] and [updated_at] take their column
    defaults at the insert. *)
Definition new_application
    (env : Env) (req : Request)
    (application_type : option string) (system_capacity : Q)
    (consumption_units : Z) (property_type property_address : option string)
    (ownership_type : string) (uploaded_docs : list (string * string))
    (noc_message : option string) (reference_number : string)
  : MeteringApplication :=
  {| id := 0;
     user_id := session_user_id req;
     application_type := application_type;
     system_capacity := system_capacity;
     consumption_units := consumption_units;
     property_type := property_type;
     property_address := property_address;
     ownership_type := ownership_type;
     reference_number := Some reference_number;
     status := Some "pending";
     submitted_at := utcnow env;
     updated_at := utcnow env;
     documents := uploaded_docs;
     noc_message := noc_message;
     admin_notes := None;
     estimated_cost := (system_capacity * 80000)%Q |}.

Definition apply_metering (env : Env) (req : Request) (db : Database)
  : result (Outcome * Database) :=
  match method req with
  | POST =>
      let application_type := form_get req "application_type" in
      system_capacity <- py_float env (form_get req "system_capacity") ;;
      consumption_units <- form_int_default env req "consumption_units" 0 ;;
      let property_type := form_get req "property_type" in
      let property_address := form_get req "property_address" in
      let ownership_type := form_get_default req "ownership_type" "owner" in
      let noc_message := form_get_default req "noc_message" "" in
      if negb (truthy application_type
               && negb (Qeq_bool system_capacity 0)
               && truthy property_address)
      then
        Ok (flash_and_redirect "All required fields must be filled"
                               "danger" "apply_metering", db)
      else if Qltb system_capacity 1 || Qltb 50 system_capacity
      then
        Ok (flash_and_redirect "System capacity must be between 1kW and 50kW"
                               "danger" "apply_metering", db)
      else if is_str application_type "net" && Qltb system_capacity 5
      then
        Ok (flash_and_redirect
              "Net metering requires system capacity of 5kW or greater"
              "danger" "apply_metering", db)
      else
        let doc_fields :=
          (base_documents
           ++ [if ownership_type =? "owner"
               then "land_ownership" else "noc_document"])%list in
        let '(uploaded_docs, draws) :=
          fold_left (save_upload env req) doc_fields ([], O) in
        let required_docs :=
          (base_documents
           ++ (if ownership_type =? "owner" then ["land_ownership"] else []))%list in
        if negb (ownership_type =? "owner")
           && (ownership_type =? "tenant")
           && negb (dict_mem "noc_document" uploaded_docs)
           && negb (truthy (Some (py_strip noc_message)))
        then
          Ok (flash_and_redirect
                "Tenants must provide either a NOC document (stamp paper) or a NOC message"
                "danger" "apply_metering", db)
        else
          let missing := missing_documents required_docs uploaded_docs in
          match missing with
          | _ :: _ =>
              Ok (flash_and_redirect
                    ("Please upload required documents: "
                     ++ String.concat ", " missing)
                    "danger" "apply_metering", db)
          | [] =>
              let reference_number :=
                generate_reference env draws application_type in
              let application :=
                new_application env req application_type system_capacity
                  consumption_units property_type property_address
                  ownership_type uploaded_docs
                  (if ownership_type =? "tenant" then Some noc_message else None)
                  reference_number in
              db' <- db_add_commit application db ;;
              Ok (flash_and_redirect
                    ("Application submitted successfully! Reference: "
                     ++ reference_number)
                    "success" "client_dashboard", db')
          end
  | GET =>
      Ok ({| flashed := []; response := render_template "apply_metering.html" |},
          db)
  end.

Definition apply_solar_setup (env : Env) (req : Request) (db : Database)
  : result (Outcome * Database) :=
  match method req with
  | POST =>
      system_capacity <- form_float_default env req "system_capacity" 0 ;;
      let property_address := form_get_default req "property_address" "" in
      let property_type := form_get_default req "property_type" "residential" in
      consumption_units <- form_int_default env req "consumption_units" 0 ;;
      if negb (negb (Qeq_bool system_capacity 0)
               && truthy (Some property_address))
      then
        Ok (flash_and_redirect "All required fields must be filled"
                               "danger" "apply_solar_setup", db)
      else if Qltb system_capacity 1 || Qltb 50 system_capacity
      then
        Ok (flash_and_redirect "System capacity must be between 1kW and 50kW"
                               "danger" "apply_solar_setup", db)
      else
        let '(uploaded_docs, draws) :=
          fold_left (save_upload env req) base_documents ([], O) in
        let missing := missing_documents base_documents uploaded_docs in
        match missing with
        | _ :: _ =>
            Ok (flash_and_redirect
                  ("Please upload required documents: "
                   ++ String.concat ", " missing)
                  "danger" "apply_solar_setup", db)
        | [] =>
            let reference_number :=
              generate_reference env draws (Some "simple_solar") in
            let application :=
              new_application env req (Some "simple_solar") system_capacity
                consumption_units (Some property_type) (Some property_address)
                "owner" uploaded_docs None reference_number in
            db' <- db_add_commit application db ;;
            Ok (flash_and_redirect
                  ("Solar setup application submitted! Reference: "
                   ++ reference_number)
                  "success" "client_dashboard", db')
        end
  | GET =>
      Ok ({| flashed := [];
             response := render_template "apply_solar_setup.html" |}, db)
  end.

(** *** The admin update and the status lookup *)

(** The row with [status], [admin_notes] and [updated_at] assigned (lines
    982-984). *)
Definition with_admin_update
    (application : MeteringApplication)
    (new_status new_admin_notes : option string) (t : datetime)
  : MeteringApplication :=
  {| id := id application;
     user_id := user_id application;
     application_type := application_type application;
     system_capacity := system_capacity application;
     consumption_units := consumption_units application;
     property_type := property_type application;
     property_address := property_address application;
     ownership_type := ownership_type application;
     reference_number := reference_number application;
     status := new_status;
     submitted_at := submitted_at application;
     updated_at := t;
     documents := documents application;
     noc_message := noc_message application;
     admin_notes := new_admin_notes;
     estimated_cost := estimated_cost application |}.

(** The commit of a change to the row of primary key [app_id]. *)
Fixpoint db_update (db : Database) (app_id : Z) (application : MeteringApplication)
  : Database :=
  match db with
  | [] => []
  | a :: db' =>
      if (id a =? app_id)%Z
      then application :: db'
      else a :: db_update db' app_id application
  end.

Definition admin_application_detail
    (env : Env) (req : Request) (app_id : Z) (db : Database)
  : Outcome * Database :=
  match query_get db app_id with
  | None => ({| flashed := []; response := abort 404 |}, db)
  | Some application =>
      match method req with
      | POST =>
          let application :=
            with_admin_update application
              (form_get req "status") (form_get req "admin_notes")
              (utcnow env) in
          (flash_and_redirect "Application updated successfully"
                              "success" "admin_applications",
           db_update db app_id application)
      | GET =>
          ({| flashed := [];
              response := render_template "admin_application_detail.html" |},
           db)
      end
  end.

Definition json_of_column (v : option string) : json :=
  match v with
  | Some s => JString s
  | None => JNull
  end.

Definition api_application_status (ref_number : string) (db : Database)
  : Response :=
  match query_by_reference db ref_number with
  | None => jsonify [("error", JString "Application not found")] 404
  | Some application =>
      jsonify
        [("reference_number", json_of_column (reference_number application));
         ("type", json_of_column (application_type application));
         ("capacity", JNumber (system_capacity application));
         ("status", json_of_column (status application));
         ("submitted_at", JString (strftime_Y_m_d (submitted_at application)));
         ("updated_at", JString (strftime_Y_m_d (updated_at application)))]
        200
  end.

(** *** Notions used by the statements *)

(** The request carries an upload for [field]. *)
Definition has_upload (req : Request) (field : string) : bool :=
  match dict_get (files req) field with
  | Some file_filename => negb (file_filename =? "")
  | None => false
  end.

(** The documents the metering form requires, by ownership, and the ones
    the simple-solar form requires. *)
Definition metering_required_documents (ownership_type : string) : list string :=
  if ownership_type =? "owner"
  then ["electricity_bill"; "cnic_front"; "cnic_back"; "land_ownership"]
  else ["electricity_bill"; "cnic_front"; "cnic_back"].

Definition solar_required_documents : list string :=
  ["electricity_bill"; "cnic_front"; "cnic_back"].

(** The required documents the request does not carry, and the name a
    document is listed under. *)
Definition not_uploaded (req : Request) (required : list string) : list string :=
  filter (fun d => negb (has_upload req d)) required.

Definition display_name (d : string) : string :=
  py_title (py_replace "_"%char " "%char d).

(** A NOC is supplied: an uploaded [noc_document], or a [noc_message] that
    is not blank. *)
Definition noc_supplied (req : Request) : bool :=
  has_upload req "noc_document"
  || negb (py_strip (form_get_default req "noc_message" "") =? "").

(** The handler rejected the request: it flashed [message] as an error,
    sent the user back to [endpoint] and left the table as it was. *)
Definition rejected
    (r : result (Outcome * Database)) (message endpoint : string) (db : Database)
  : Prop :=
  r = Ok ({| flashed := [(message, "danger")]; response := redirect endpoint |}, db).

(** The handler created an application: it flashed a success message. *)
Definition succeeded (out : Outcome) : bool :=
  match flashed out with
  | [(_, category)] => category =? "success"
  | _ => false
  end.

(** Two rows that agree on every column but [updated_at]. *)
Definition same_but_updated_at (a b : MeteringApplication) : Prop :=
  id a = id b /\ user_id a = user_id b /\
  application_type a = application_type b /\
  system_capacity a = system_capacity b /\
  consumption_units a = consumption_units b /\
  property_type a = property_type b /\
  property_address a = property_address b /\
  ownership_type a = ownership_type b /\
  reference_number a = reference_number b /\
  status a = status b /\
  submitted_at a = submitted_at b /\
  documents a = documents b /\
  noc_message a = noc_message b /\
  admin_notes a = admin_notes b /\
  estimated_cost a = estimated_cost b.

(** Two rows that agree on every column but [status], [admin_notes] and
    [updated_at]. *)
Definition same_but_admin_columns (a b : MeteringApplication) : Prop :=
  id a = id b /\ user_id a = user_id b /\
  application_type a = application_type b /\
  system_capacity a = system_capacity b /\
  consumption_units a = consumption_units b /\
  property_type a = property_type b /\
  property_address a = property_address b /\
  ownership_type a = ownership_type b /\
  reference_number a = reference_number b /\
  submitted_at a = submitted_at b /\
  documents a = documents b /\
  noc_message a = noc_message b /\
  estimated_cost a = estimated_cost b.

End Intake.

(** ** A concrete environment, to run the handlers *)

Module Sample.

Import Intake.
Local Open Scope Z_scope.
Local Open Scope string_scope.

Definition digit_value (c : ascii) : option Z :=
  let n := nat_of_ascii c in
  if ((48 <=? n) && (n <=? 57))%nat then Some (Z.of_nat n - 48) else None.

(** The number written by a string of decimal digits, after [acc]. *)
Fixpoint digits_value (acc : Z) (s : string) : option Z :=
  match s with
  | EmptyString => Some acc
  | String c s' =>
      match digit_value c with
      | Some d => digits_value (10 * acc + d) s'
      | None => None
      end
  end.

(** Unsigned decimal integers. *)
Definition decimal_int (s : string) : option Z :=
  match s with
  | EmptyString => None
  | _ => digits_value 0 s
  end.

(** Unsigned decimal integers, read as floats. *)
Definition decimal_float (s : string) : option Q :=
  match decimal_int s with
  | Some n => Some (inject_Z n)
  | None => None
  end.

Definition sample_env : Env :=
  {| float_of_string := decimal_float;
     int_of_string := decimal_int;
     secure_filename := fun s => s;
     now := {| year := 2024; month := 3; day := 9;
               hour := 14; minute := 5; second := 7 |};
     utcnow := {| year := 2024; month := 3; day := 9;
                  hour := 9; minute := 5; second := 7 |};
     random_draws := fun k => 4321 + Z.of_nat k |}.

Definition post (fields uploads : list (string * string)) : Request :=
  {| method := POST; form := fields; files := uploads; session_user_id := 7 |}.

Definition three_documents : list (string * string) :=
  [("electricity_bill", "bill.pdf"); ("cnic_front", "front.png");
   ("cnic_back", "back.png")].

(** A complete net-metering request of an owner. *)
Definition net_request : Request :=
  post [("application_type", "net"); ("system_capacity", "10");
        ("property_type", "residential"); ("property_address", "12 Mall Road")]
       (("land_ownership", "deed.pdf") :: three_documents).

(** The same request without its [system_capacity] field. *)
Definition net_request_without_capacity : Request :=
  post [("application_type", "net"); ("property_address", "12 Mall Road")]
       (("land_ownership", "deed.pdf") :: three_documents).

(** Simple-solar requests sent to the metering form, by an owner and by a
    tenant, each with the three base documents and nothing else. *)
Definition solar_on_metering_form_owner : Request :=
  post [("application_type", "simple_solar"); ("system_capacity", "3");
        ("property_address", "12 Mall Road")]
       three_documents.

Definition solar_on_metering_form_tenant : Request :=
  post [("application_type", "simple_solar"); ("system_capacity", "3");
        ("property_address", "12 Mall Road"); ("ownership_type", "tenant")]
       three_documents.

(** The same tenant request sent to the simple-solar form. *)
Definition solar_request_tenant : Request :=
  post [("system_capacity", "3"); ("property_address", "12 Mall Road");
        ("ownership_type", "tenant")]
       three_documents.

(** An admin decision. *)
Definition approve_request : Request :=
  post [("status", "approved"); ("admin_notes", "site visit done")] [].

(** The table after [net_request] was accepted on an empty table. *)
Definition sample_table : Database :=
  Eval vm_compute in
    match apply_metering sample_env net_request [] with
    | Ok (_, db) => db
    | Raise _ => []
    end.

Definition later_env : Env :=
  {| float_of_string := decimal_float;
     int_of_string := decimal_int;
     secure_filename := fun s => s;
     now := {| year := 2024; month := 3; day := 12;
               hour := 10; minute := 0; second := 0 |};
     utcnow := {| year := 2024; month := 3; day := 12;
                  hour := 5; minute := 0; second := 0 |};
     random_draws := fun k => 17 + Z.of_nat k |}.

End Sample.

(** ** The estimator's arithmetic in binary64

    The same lines of [get_solar_recommendation] on the kernel's IEEE 754
    binary64 floats, to run the estimator with the rounding Python applies.
    The ints that meet a float here are at most 4000000 in absolute value,
    so turning them into floats is exact, as Python's mixed comparisons and
    products are.  [None] stands for the exception [int] raises on a float
    that is not finite. *)

Module Binary64.

Import PyNum Estimator.
#[local] Set Warnings "-inexact-float".
Local Open Scope float_scope.

Definition float_of_int (z : Z) : float :=
  if (z <? 0)%Z then - of_uint63 (Uint63.of_Z (- z)) else of_uint63 (Uint63.of_Z z).

(** The rational a finite float denotes. *)
Definition exact_value (x : float) : option Q :=
  match Prim2SF x with
  | S754_zero _ => Some 0%Q
  | S754_finite s m e =>
      let v := if (0 <=? e)%Z
               then inject_Z (Zpos m * 2 ^ e)
               else Qmake (Zpos m) (Z.to_pos (2 ^ (- e))) in
      Some (if s then Qopp v else v)
  | S754_infinity _ => None
  | S754_nan => None
  end.

(** [int(x)] on a float. *)
Definition int_of_float (x : float) : option Z :=
  match exact_value x with
  | Some q => Some (py_int q)
  | None => None
  end.

(** Lines 182-203: the ladder capacity, [required_area] and the final
    capacity. *)
Definition sizing (monthly_bill roof_area : float) : option (Z * Z * Z) :=
  let electricity_rate := 25%Z in
  let monthly_units := monthly_bill / float_of_int electricity_rate in
  let peak_sun_hours := 5.5 in
  let system_loss_factor := 0.8 in
  let daily_units := monthly_units / 30 in
  let required_capacity := daily_units / (peak_sun_hours * system_loss_factor) in
  let ladder :=
    py_min (filter (fun c => required_capacity <=? float_of_int c)
                   standard_capacities) 50 in
  let required_area := (ladder * 100)%Z in
  if roof_area <? float_of_int required_area
  then
    match int_of_float (roof_area / 100) with
    | Some recommended_capacity =>
        Some (ladder, required_area, Z.max 1 recommended_capacity)
    | None => None
    end
  else Some (ladder, required_area, ladder).

(** Lines 205-215 and 229: [annual_savings] and the rounded
    [payback_period] of a final capacity. *)
Definition annual_savings_of (recommended_capacity : Z) : float :=
  let peak_sun_hours := 5.5 in
  let system_loss_factor := 0.8 in
  let electricity_rate := 25%Z in
  let monthly_generation :=
    float_of_int recommended_capacity * peak_sun_hours * 30 * system_loss_factor in
  let monthly_savings := monthly_generation * float_of_int electricity_rate in
  monthly_savings * 12.

Definition payback_period_of (recommended_capacity : Z) : option Q :=
  let cost_per_kw := 80000%Z in
  let total_cost := (recommended_capacity * cost_per_kw)%Z in
  let annual_savings := annual_savings_of recommended_capacity in
  let payback_years :=
    if 0 <? annual_savings
    then exact_value (float_of_int total_cost / annual_savings)
    else Some 0%Q in
  match payback_years with
  | Some p => Some (py_round p 1)
  | None => None
  end.

(** The binary64 run and the rational model give the same ladder capacity,
    [required_area] and final capacity. *)
Definition agrees (monthly_bill roof_area : Q) (bill64 roof64 : float) : Prop :=
  sizing bill64 roof64
  = Some (ladder_capacity (required_capacity_of monthly_bill),
          (ladder_capacity (required_capacity_of monthly_bill) * 100)%Z,
          final_capacity monthly_bill roof_area).

(** In binary64 the savings of capacity [c] are positive and its payback
    rounds to 2.0. *)
Definition payback_rounds_to_2 (c : Z) : bool :=
  (0 <? annual_savings_of c)
  && match payback_period_of c with
     | Some p => Qeq_bool p 2
     | None => false
     end.

End Binary64.

(** ** The ladder choice in binary64 *)

Module Binary64Ladder.

Import PyNum Estimator Binary64.
#[local] Set Warnings "-inexact-float".
Local Open Scope float_scope.

(** The value of [required_capacity] (lines 185-193). *)
Definition required_capacity_of (monthly_bill : float) : float :=
  let electricity_rate := 25%Z in
  let monthly_units := monthly_bill / float_of_int electricity_rate in
  let peak_sun_hours := 5.5 in
  let system_loss_factor := 0.8 in
  let daily_units := monthly_units / 30 in
  daily_units / (peak_sun_hours * system_loss_factor).

(** The first value of [recommended_capacity] (line 197). *)
Definition ladder_of (required_capacity : float) : Z :=
  py_min (filter (fun c => required_capacity <=? float_of_int c)
                 standard_capacities) 50.

(** [c >= x] for an [int] of the ladder and a float. *)
Definition at_least (c : Z) (x : float) : Prop := (x <=? float_of_int c) = true.

(** What the claims call "the smallest standard-ladder value that is at
    least [required_capacity]", for the float the code computes. *)
Definition smallest_ladder_value_at_least (x : float) (c : Z) : Prop :=
  In c standard_capacities /\
  at_least c x /\
  forall c', In c' standard_capacities -> at_least c' x -> (c <= c')%Z.

(** A float of the specification that is a zero or a finite number of
    sign [s]. *)
Definition finite_of_sign (s : bool) (x : spec_float) : Prop :=
  match x with
  | S754_zero _ => True
  | S754_finite s' _ _ => s' = s
  | _ => False
  end.

End Binary64Ladder.

(** ** Keys of the table of applications *)

Module IntakeKeys.

Import Intake.

(** The primary keys and the reference numbers (the NULLs left out) a table
    holds, in row order. *)
Definition ids (db : Database) : list Z := map id db.

Fixpoint references (db : Database) : list string :=
  match db with
  | [] => []
  | a :: db' =>
      match reference_number a with
      | Some r => r :: references db'
      | None => references db'
      end
  end.

(** What the primary key and the [unique=True] of [reference_number]
    promise: no key and no reference twice. *)
Definition well_keyed (db : Database) : Prop :=
  NoDup (ids db) /\ NoDup (references db).

(** The documents offered by the metering form for an ownership: the loop
    of lines 436-454 visits no other field. *)
Definition metering_document_fields (ownership_type : string) : list string :=
  if String.eqb ownership_type "owner"
  then ["electricity_bill"; "cnic_front"; "cnic_back"; "land_ownership"]%string
  else ["electricity_bill"; "cnic_front"; "cnic_back"; "noc_document"]%string.

End IntakeKeys.

(** ** Failures of the later modules *)

Module Failure.

Local Open Scope Z_scope.

(** The exceptions of the first part, the [AttributeError] of reading an
    attribute that is not there, and [OverflowError]. *)
Inductive error : Type :=
| PythonError (e : exn)
| AttributeError
| OverflowError.

Inductive attempt (A : Type) : Type :=
| Done (a : A)
| Fail (e : error).

Arguments Done {A} a.
Arguments Fail {A} e.

Definition and_then {A B : Type} (m : attempt A) (k : A -> attempt B) : attempt B :=
  match m with
  | Done a => k a
  | Fail e => Fail e
  end.

Definition python {A : Type} (r : result A) : attempt A :=
  match r with
  | Ok a => Done a
  | Raise e => Fail (PythonError e)
  end.

Declare Scope attempt_scope.
Delimit Scope attempt_scope with attempt.
Notation "x <-- m ;; k" := (and_then m (fun x => k))
  (at level 61, m at next level, right associativity) : attempt_scope.

(** The database is SQLite (line 22): an INTEGER holds 64 bits, and the
    driver raises [OverflowError] when it is handed a Python [int] outside
    them, as the parameter of a query or as the value of a column. *)
Definition sqlite_integer (n : Z) : bool :=
  (- 2 ^ 63 <=? n) && (n <=? 2 ^ 63 - 1).

Definition bind_integer (n : Z) : attempt Z :=
  if sqlite_integer n then Done n else Fail OverflowError.

End Failure.

(** ** The two callers of the estimator *)

Module Calculator.

Import PyNum Estimator Intake Failure.
Local Open Scope string_scope.
Local Open Scope py_scope.

(** A value of the JSON object of a request: an integer, a finite float,
    [true] or [false], a string, [null], or a list or an object.  The floats
    that are not finite ([NaN], [Infinity]) are outside the model, as they
    are for the estimator. *)
Inductive json_value : Type :=
| JInteger (n : Z)
| JFloat (x : Q)
| JBoolean (b : bool)
| JText (s : string)
| JNone
| JCompound.

(** [float(n)] for an [int]: the float nearest to [n], and [OverflowError]
    when that is beyond the largest float, [2^1024 - 2^971]. *)
Definition float_of_integer (n : Z) : attempt Q :=
  if (Z.abs n <? 2 ^ 1024 - 2 ^ 970)%Z
  then Done (inject_Z n)
  else Fail OverflowError.

(** [float(data.get(k, 0))] *)
Definition json_float_default
    (env : Env) (data : list (string * json_value)) (k : string) : attempt Q :=
  match dict_get data k with
  | None => float_of_integer 0
  | Some (JInteger n) => float_of_integer n
  | Some (JFloat x) => Done x
  | Some (JBoolean b) => Done (if b then 1 else 0)%Q
  | Some (JText s) => python (py_float env (Some s))
  | Some JNone => Fail (PythonError TypeError)
  | Some JCompound => Fail (PythonError TypeError)
  end.

(** [data.get('property_type', 'residential')], which the estimator never
    reads; a value that is not a string is passed on as the empty string. *)
Definition json_property_type (data : list (string * json_value)) : string :=
  match dict_get data "property_type" with
  | None => "residential"
  | Some (JText s) => s
  | Some _ => ""
  end.

(** [solar_calculator] (lines 822-836): the recommendation handed to the
    template, [None] when there is none to show. *)
Definition solar_calculator (env : Env) (req : Request)
  : result (option recommendation) :=
  let recommendation := None in
  match method req with
  | POST =>
      monthly_bill <- form_float_default env req "monthly_bill" 0 ;;
      roof_area <- form_float_default env req "roof_area" 0 ;;
      let property_type := form_get_default req "property_type" "residential" in
      if Qltb 0 monthly_bill && Qltb 0 roof_area
      then
        recommendation <-
          get_solar_recommendation monthly_bill roof_area property_type ;;
        Ok (Some recommendation)
      else Ok recommendation
  | GET => Ok recommendation
  end.

(** [api_solar_calculator] (lines 1196-1206): the dictionary it returns as
    JSON, for a request whose body is a JSON object. *)
Definition api_solar_calculator (env : Env) (data : list (string * json_value))
  : attempt recommendation :=
  and_then (json_float_default env data "monthly_bill") (fun monthly_bill =>
  and_then (json_float_default env data "roof_area") (fun roof_area =>
  let property_type := json_property_type data in
  python (get_solar_recommendation monthly_bill roof_area property_type))).

End Calculator.

(** ** The shop: cart and checkout *)

Module Product.
Record t : Type := {
  id : Z;
  name : option string;
  description : option string;
  category : option string;
  price : Q;
  stock_quantity : Z;
  image : option string;
  specifications : option string;
  wattage : option Z;
  is_active : bool;
  created_at : Intake.datetime
}.
End Product.

Module Cart.
Record t : Type := {
  id : Z;
  user_id : Z;
  product_id : Z;
  quantity : Z;
  added_at : Intake.datetime
}.
End Cart.

Module Order.
Record t : Type := {
  id : Z;
  user_id : Z;
  order_number : option string;
  total_amount : Q;
  status : option string;
  payment_status : option string;
  shipping_address : option string;
  created_at : Intake.datetime
}.
End Order.

Module OrderItem.
Record t : Type := {
  id : Z;
  order_id : Z;
  product_id : Z;
  quantity : Z;
  unit_price : Q
}.
End OrderItem.

Module Shop.

Import Intake.
Export Failure.
Local Open Scope string_scope.
Local Open Scope Z_scope.
Local Open Scope attempt_scope.

(** The four tables the shop reads and writes.  The database is SQLite
    (line 22), which the application does not ask to enforce foreign keys:
    a cart row may name a product that does not exist. *)
Record Store : Type := {
  products : list Product.t;
  carts : list Cart.t;
  orders : list Order.t;
  order_items : list OrderItem.t
}.

Inductive Page : Type :=
| redirect_to (endpoint : string) (order_id : option Z)
| cart_page (cart_items : list Cart.t) (total : Q)
| checkout_page (cart_items : list Cart.t) (total : Q)
| catalog_page (listed : list Product.t) (category : string)
| not_found.

Record Reply : Type := {
  flashes : list (string * string);
  page : Page
}.

Definition flash_then (message category : string) (p : Page) : Reply :=
  {| flashes := [(message, category)]; page := p |}.

Definition silently (p : Page) : Reply := {| flashes := []; page := p |}.

(** *** Queries *)

(** [Product.query.get(id)] *)
Definition get_product (st : Store) (product_id : Z) : option Product.t :=
  find (fun p => Product.id p =? product_id) (products st).

(** [Cart.query.get(cart_id)] *)
Definition get_cart (st : Store) (cart_id : Z) : option Cart.t :=
  find (fun c => Cart.id c =? cart_id) (carts st).

(** [Cart.query.filter_by(user_id=user).all()] *)
Definition cart_items_of (st : Store) (user : Z) : list Cart.t :=
  filter (fun c => Cart.user_id c =? user) (carts st).

(** [cart_item.product]: class [Cart] (lines 166-172) declares no
    relationship and no [backref] gives it one (lines 60-63, 80, 121), so a
    cart row has no such attribute and reading it raises. *)
Definition cart_product (st : Store) (item : Cart.t) : attempt Product.t :=
  Fail AttributeError.

(** [cart_item.product.price * cart_item.quantity] *)
Definition line_amount (st : Store) (item : Cart.t) : attempt Q :=
  product <-- cart_product st item ;;
  Done (Product.price product * inject_Z (Cart.quantity item))%Q.

(** The loop of lines 624-626 and the [sum] of line 675: the running total
    after [cart_items], from [total]. *)
Fixpoint add_lines (st : Store) (cart_items : list Cart.t) (total : Q) : attempt Q :=
  match cart_items with
  | [] => Done total
  | item :: rest =>
      amount <-- line_amount st item ;;
      add_lines st rest (total + amount)%Q
  end.

Definition next_key (keys : list Z) : Z := fold_left Z.max keys 0 + 1.

(** *** Writes *)

Definition set_quantity (item : Cart.t) (quantity : Z) : Cart.t :=
  {| Cart.id := Cart.id item;
     Cart.user_id := Cart.user_id item;
     Cart.product_id := Cart.product_id item;
     Cart.quantity := quantity;
     Cart.added_at := Cart.added_at item |}.

(** The cart table with the row of primary key [cart_id] rewritten, and
    with it deleted. *)
Fixpoint update_cart_row (rows : list Cart.t) (cart_id : Z) (item : Cart.t)
  : list Cart.t :=
  match rows with
  | [] => []
  | c :: rows' =>
      if Cart.id c =? cart_id
      then item :: rows'
      else c :: update_cart_row rows' cart_id item
  end.

Definition delete_cart_row (rows : list Cart.t) (cart_id : Z) : list Cart.t :=
  filter (fun c => negb (Cart.id c =? cart_id)) rows.

Definition with_carts (st : Store) (rows : list Cart.t) : Store :=
  {| products := products st;
     carts := rows;
     orders := orders st;
     order_items := order_items st |}.

Definition take_from_stock (product : Product.t) (quantity : Z) : Product.t :=
  {| Product.id := Product.id product;
     Product.name := Product.name product;
     Product.description := Product.description product;
     Product.category := Product.category product;
     Product.price := Product.price product;
     Product.stock_quantity := Product.stock_quantity product - quantity;
     Product.image := Product.image product;
     Product.specifications := Product.specifications product;
     Product.wattage := Product.wattage product;
     Product.is_active := Product.is_active product;
     Product.created_at := Product.created_at product |}.

Fixpoint update_product_row (rows : list Product.t) (product_id : Z)
    (product : Product.t) : list Product.t :=
  match rows with
  | [] => []
  | p :: rows' =>
      if Product.id p =? product_id
      then product :: rows'
      else p :: update_product_row rows' product_id product
  end.

(** *** Handlers *)

(** [add_to_cart] (lines 599-616).  The query of line 606 binds
    [product_id]; the commit binds the quantity it writes. *)
Definition add_to_cart (env : Env) (req : Request) (product_id : Z) (st : Store)
  : attempt (Reply * Store) :=
  quantity <-- python (form_int_default env req "quantity" 1) ;;
  product_id <-- bind_integer product_id ;;
  let cart_item :=
    find (fun c => (Cart.user_id c =? session_user_id req)
                   && (Cart.product_id c =? product_id)) (carts st) in
  rows <--
    match cart_item with
    | Some cart_item =>
        quantity <-- bind_integer (Cart.quantity cart_item + quantity) ;;
        Done (update_cart_row (carts st) (Cart.id cart_item)
                (set_quantity cart_item quantity))
    | None =>
        quantity <-- bind_integer quantity ;;
        Done (carts st
              ++ [{| Cart.id := next_key (map Cart.id (carts st));
                     Cart.user_id := session_user_id req;
                     Cart.product_id := product_id;
                     Cart.quantity := quantity;
                     Cart.added_at := utcnow env |}])%list
    end ;;
  Done (flash_then "Product added to cart" "success" (redirect_to "cart" None),
        with_carts st rows).

(** [cart] (lines 618-628) *)
Definition cart (req : Request) (st : Store) : attempt Reply :=
  let cart_items := cart_items_of st (session_user_id req) in
  total <-- add_lines st cart_items 0%Q ;;
  Done (silently (cart_page cart_items total)).

(** [update_cart] (lines 630-647).  The query of line 635 binds
    [cart_id]; the commit binds the quantity of line 644. *)
Definition update_cart (env : Env) (req : Request) (cart_id : Z) (st : Store)
  : attempt (Reply * Store) :=
  quantity <-- python (form_int_default env req "quantity" 1) ;;
  cart_id <-- bind_integer cart_id ;;
  match get_cart st cart_id with
  | None => Done (silently not_found, st)
  | Some cart_item =>
      if negb (Cart.user_id cart_item =? session_user_id req)
      then Done (flash_then "Access denied" "danger" (redirect_to "cart" None), st)
      else
        rows <--
          (if quantity <=? 0
           then Done (delete_cart_row (carts st) (Cart.id cart_item))
           else
             quantity <-- bind_integer quantity ;;
             Done (update_cart_row (carts st) (Cart.id cart_item)
                     (set_quantity cart_item quantity))) ;;
        Done (silently (redirect_to "cart" None), with_carts st rows)
  end.

(** [remove_from_cart] (lines 649-662) *)
Definition remove_from_cart (req : Request) (cart_id : Z) (st : Store)
  : attempt (Reply * Store) :=
  cart_id <-- bind_integer cart_id ;;
  match get_cart st cart_id with
  | None => Done (silently not_found, st)
  | Some cart_item =>
      if negb (Cart.user_id cart_item =? session_user_id req)
      then Done (flash_then "Access denied" "danger" (redirect_to "cart" None), st)
      else
        Done (flash_then "Item removed from cart" "info" (redirect_to "cart" None),
              with_carts st (delete_cart_row (carts st) (Cart.id cart_item)))
  end.

(** [generate_order_number] (lines 264-269), [k]-th random draw. *)
Definition generate_order_number (env : Env) (k : nat) : string :=
  let prefix := "AME" in
  let timestamp := strftime_Ymd (now env) in
  let random_num := randint env k 10000 99999 in
  prefix ++ "-" ++ timestamp ++ "-" ++ zero_pad 5 random_num.

(** One turn of the loop of lines 696-709: the order item is added, the
    stock of the product lowered, the cart row deleted. *)
Definition check_out_item (order_id : Z) (st : Store) (cart_item : Cart.t)
  : attempt Store :=
  product <-- cart_product st cart_item ;;
  let order_item :=
    {| OrderItem.id := next_key (map OrderItem.id (order_items st));
       OrderItem.order_id := order_id;
       OrderItem.product_id := Cart.product_id cart_item;
       OrderItem.quantity := Cart.quantity cart_item;
       OrderItem.unit_price := Product.price product |} in
  Done {| products :=
            update_product_row (products st) (Product.id product)
              (take_from_stock product (Cart.quantity cart_item));
          carts := delete_cart_row (carts st) (Cart.id cart_item);
          orders := orders st;
          order_items := (order_items st ++ [order_item])%list |}.

Fixpoint check_out_items (order_id : Z) (st : Store) (cart_items : list Cart.t)
  : attempt Store :=
  match cart_items with
  | [] => Done st
  | cart_item :: rest =>
      st' <-- check_out_item order_id st cart_item ;;
      check_out_items order_id st' rest
  end.

(** [db.session.add(order); db.session.flush()]: the order gets its primary
    key; an [order_number] already in the table fails ([unique=True]). *)
Definition add_order (order : Order.t) (st : Store) : attempt (Z * Store) :=
  if existsb (fun o =>
                match Order.order_number o, Order.order_number order with
                | Some n, Some n' => (n =? n')%string
                | _, _ => false
                end) (orders st)
  then Fail (PythonError IntegrityError)
  else
    let order_id := next_key (map Order.id (orders st)) in
    Done (order_id,
          {| products := products st;
             carts := carts st;
             orders :=
               (orders st
                ++ [{| Order.id := order_id;
                       Order.user_id := Order.user_id order;
                       Order.order_number := Order.order_number order;
                       Order.total_amount := Order.total_amount order;
                       Order.status := Order.status order;
                       Order.payment_status := Order.payment_status order;
                       Order.shipping_address := Order.shipping_address order;
                       Order.created_at := Order.created_at order |}])%list;
             order_items := order_items st |}).

(** [checkout] (lines 664-717) *)
Definition checkout (env : Env) (req : Request) (st : Store)
  : attempt (Reply * Store) :=
  let cart_items := cart_items_of st (session_user_id req) in
  match cart_items with
  | [] =>
      Done (flash_then "Your cart is empty" "warning" (redirect_to "products" None),
            st)
  | _ :: _ =>
      total <-- add_lines st cart_items 0%Q ;;
      match method req with
      | POST =>
          let shipping_address := form_get req "shipping_address" in
          if negb (truthy shipping_address)
          then
            Done (flash_then "Please provide shipping address" "danger"
                             (redirect_to "checkout" None), st)
          else
            let order_number := generate_order_number env O in
            let order :=
              {| Order.id := 0;
                 Order.user_id := session_user_id req;
                 Order.order_number := Some order_number;
                 Order.total_amount := total;
                 Order.status := Some "pending";
                 Order.payment_status := Some "pending";
                 Order.shipping_address := shipping_address;
                 Order.created_at := utcnow env |} in
            added <-- add_order order st ;;
            let '(order_id, st1) := added in
            st2 <-- check_out_items order_id st1 cart_items ;;
            Done (flash_then
                    ("Order placed successfully! Order number: " ++ order_number)
                    "success"
                    (redirect_to "order_confirmation" (Some order_id)),
                  st2)
      | GET => Done (silently (checkout_page cart_items total), st)
      end
  end.

(** [products] (lines 576-586) *)
Definition products_page (category : string) (st : Store) : Reply :=
  let listed :=
    if (category =? "all")%string
    then filter Product.is_active (products st)
    else filter (fun p => is_str (Product.category p) category
                          && Product.is_active p) (products st) in
  silently (catalog_page listed category).

(** [admin_delete_product] (lines 950-958) *)
Definition admin_delete_product (product_id : Z) (st : Store)
  : attempt (Reply * Store) :=
  product_id <-- bind_integer product_id ;;
  match get_product st product_id with
  | None => Done (silently not_found, st)
  | Some product =>
      let product :=
        {| Product.id := Product.id product;
           Product.name := Product.name product;
           Product.description := Product.description product;
           Product.category := Product.category product;
           Product.price := Product.price product;
           Product.stock_quantity := Product.stock_quantity product;
           Product.image := Product.image product;
           Product.specifications := Product.specifications product;
           Product.wattage := Product.wattage product;
           Product.is_active := false;
           Product.created_at := Product.created_at product |} in
      Done (flash_then "Product deleted successfully" "success"
                       (redirect_to "admin_products" None),
            {| products := update_product_row (products st) product_id product;
               carts := carts st;
               orders := orders st;
               order_items := order_items st |})
  end.

(** *** Notions used by the statements *)

(** The quantity user [user] holds of product [product_id], over all the
    rows of the cart table. *)
Definition cart_quantity (rows : list Cart.t) (user product_id : Z) : Z :=
  fold_right Z.add 0
    (map Cart.quantity
       (filter (fun c => (Cart.user_id c =? user)
                         && (Cart.product_id c =? product_id)) rows)).

(** The quantity [add_to_cart] writes when user [user] adds [quantity] of
    product [product_id]: the sum of line 609 when the user has a row for
    the product, [quantity] itself in a new row otherwise. *)
Definition written_quantity (st : Store) (user product_id quantity : Z) : Z :=
  match find (fun c => (Cart.user_id c =? user)
                       && (Cart.product_id c =? product_id)) (carts st) with
  | Some cart_item => Cart.quantity cart_item + quantity
  | None => quantity
  end.

(** The stock of a product, [None] when there is no such product. *)
Definition stock_of (st : Store) (product_id : Z) : option Z :=
  match get_product st product_id with
  | Some p => Some (Product.stock_quantity p)
  | None => None
  end.

(** The price of a product, [None] when there is no such product. *)
Definition price_of (st : Store) (product_id : Z) : option Q :=
  match get_product st product_id with
  | Some p => Some (Product.price p)
  | None => None
  end.

End Shop.

(** ** Accounts: signup, login and the two decorators *)

Module User.
Record t : Type := {
  id : Z;
  full_name : string;
  email : string;
  phone : string;
  password_hash : string;
  user_type : option string;
  address : option string;
  city : option string;
  created_at : Intake.datetime;
  is_active : bool
}.
End User.

Module Accounts.

Import Intake.
Local Open Scope Z_scope.
Local Open Scope string_scope.
Local Open Scope py_scope.

(** [werkzeug.security]: the two functions are the library's, their results
    are what the handlers see.  [check_password_hash] gets the form field as
    it is, [None] when the field is absent. *)
Record Hasher : Type := {
  generate_password_hash : string -> string;
  check_password_hash : string -> option string -> result bool
}.

(** The Flask session: the three keys [login] writes, [None] for a key that
    is absent. *)
Record Session : Type := {
  user_id : option Z;
  user_type : option (option string);
  user_name : option string
}.

(** [session.clear()] *)
Definition cleared : Session :=
  {| user_id := None; user_type := None; user_name := None |}.

(** [a != b] on form fields. *)
Definition differ (a b : option string) : bool :=
  match a, b with
  | Some x, Some y => negb (x =? y)
  | None, None => false
  | _, _ => true
  end.

(** [User.query.filter_by(email=email).first()] *)
Definition user_by_email (users : list User.t) (email : option string)
  : option User.t :=
  match email with
  | Some e => find (fun u => User.email u =? e) users
  | None => None
  end.

(** [User.query.get(id)] *)
Definition get_user (users : list User.t) (user : Z) : option User.t :=
  find (fun u => (User.id u =? user)%Z) users.

(** [signup] (lines 301-342) *)
Definition signup (h : Hasher) (env : Env) (req : Request) (users : list User.t)
  : Outcome * list User.t :=
  match method req with
  | POST =>
      let full_name := form_get req "full_name" in
      let email := form_get req "email" in
      let phone := form_get req "phone" in
      let password := form_get req "password" in
      let confirm_password := form_get req "confirm_password" in
      let address := form_get req "address" in
      if negb (forallb truthy [full_name; email; phone; password])
      then (flash_and_redirect "All required fields must be filled" "danger" "signup",
            users)
      else if differ password confirm_password
      then (flash_and_redirect "Passwords do not match" "danger" "signup", users)
      else
        match user_by_email users email with
        | Some _ =>
            (flash_and_redirect "Email already registered" "danger" "signup", users)
        | None =>
            match full_name, email, phone, password with
            | Some full_name, Some email, Some phone, Some password =>
                let user :=
                  {| User.id := Shop.next_key (map User.id users);
                     User.full_name := full_name;
                     User.email := email;
                     User.phone := phone;
                     User.password_hash := generate_password_hash h password;
                     User.user_type := Some "client";
                     User.address := address;
                     User.city := Some "Rawalpindi";
                     User.created_at := utcnow env;
                     User.is_active := true |} in
                (flash_and_redirect "Account created successfully! Please login."
                                    "success" "login",
                 (users ++ [user])%list)
            | _, _, _, _ =>
                (* not reached: the four fields are true *)
                (flash_and_redirect "All required fields must be filled" "danger"
                                    "signup", users)
            end
        end
  | GET => ({| flashed := []; response := render_template "signup.html" |}, users)
  end.

(** [login] (lines 344-367) *)
Definition login (h : Hasher) (req : Request) (users : list User.t)
    (session : Session) : result (Outcome * Session) :=
  match method req with
  | POST =>
      let email := form_get req "email" in
      let password := form_get req "password" in
      let invalid :=
        ({| flashed := [("Invalid email or password", "danger")];
            response := render_template "login.html" |}, session) in
      match user_by_email users email with
      | Some user =>
          matches <- check_password_hash h (User.password_hash user) password ;;
          if matches : bool
          then
            Ok ({| flashed :=
                     [("Welcome back, " ++ User.full_name user ++ "!", "success")];
                   response :=
                     if is_str (User.user_type user) "admin"
                     then redirect "admin_dashboard"
                     else redirect "client_dashboard" |},
                {| user_id := Some (User.id user);
                   user_type := Some (User.user_type user);
                   user_name := Some (User.full_name user) |})
          else Ok invalid
      | None => Ok invalid
      end
  | GET => Ok ({| flashed := []; response := render_template "login.html" |}, session)
  end.

(** [logout] (lines 369-374) *)
Definition logout : Outcome * Session :=
  (flash_and_redirect "You have been logged out" "info" "index", cleared).

(** What a decorated view does: it answers itself, or it runs the view. *)
Inductive Guarded (R : Type) : Type :=
| Refused (answer : Outcome)
| Entered (result : R).

Arguments Refused {R} answer.
Arguments Entered {R} result.

(** [login_required] (lines 238-247); [f] is the view on its arguments. *)
Definition login_required {R : Type} (session : Session) (f : R) : Guarded R :=
  match user_id session with
  | None =>
      Refused (flash_and_redirect "Please login to access this page" "warning" "login")
  | Some _ => Entered f
  end.

(** [admin_required] (lines 249-262) *)
Definition admin_required {R : Type} (users : list User.t) (session : Session)
    (f : R) : Guarded R :=
  match user_id session with
  | None =>
      Refused (flash_and_redirect "Please login to access this page" "warning" "login")
  | Some uid =>
      let user := get_user users uid in
      let allowed :=
        match user with
        | Some user => is_str (User.user_type user) "admin"
        | None => false
        end in
      if negb allowed
      then Refused (flash_and_redirect "Admin access required" "danger" "index")
      else Entered f
  end.

(** *** Notions used by the statements *)

Definition is_admin (u : User.t) : bool := is_str (User.user_type u) "admin".

End Accounts.

(** ** Feedback and its approval *)

Module Feedback.
Record t : Type := {
  id : Z;
  user_id : Z;
  rating : Z;
  comment : string;
  service_type : option string;
  is_approved : bool;
  created_at : Intake.datetime
}.
End Feedback.

Module Reviews.

Import Intake Failure.
Local Open Scope string_scope.
Local Open Scope Z_scope.
Local Open Scope attempt_scope.

(** [feedback] (lines 767-793); the commit binds the rating. *)
Definition feedback (env : Env) (req : Request) (table : list Feedback.t)
  : attempt (Outcome * list Feedback.t) :=
  match method req with
  | POST =>
      rating <-- python (py_int_of env (form_get req "rating")) ;;
      let comment := form_get req "comment" in
      let service_type := form_get req "service_type" in
      if negb (negb (rating =? 0) && truthy comment)
      then Done (flash_and_redirect "Please provide rating and comment" "danger"
                                    "feedback", table)
      else
        match comment with
        | Some text =>
            rating <-- bind_integer rating ;;
            let feedback_item :=
              {| Feedback.id := Shop.next_key (map Feedback.id table);
                 Feedback.user_id := session_user_id req;
                 Feedback.rating := rating;
                 Feedback.comment := text;
                 Feedback.service_type := service_type;
                 Feedback.is_approved := false;
                 Feedback.created_at := utcnow env |} in
            Done (flash_and_redirect "Thank you for your feedback!" "success" "index",
                  (table ++ [feedback_item])%list)
        | None =>
            (* not reached: the comment is true *)
            Done (flash_and_redirect "Please provide rating and comment" "danger"
                                     "feedback", table)
        end
  | GET =>
      Done ({| flashed := []; response := render_template "feedback.html" |}, table)
  end.

Definition set_approved (item : Feedback.t) : Feedback.t :=
  {| Feedback.id := Feedback.id item;
     Feedback.user_id := Feedback.user_id item;
     Feedback.rating := Feedback.rating item;
     Feedback.comment := Feedback.comment item;
     Feedback.service_type := Feedback.service_type item;
     Feedback.is_approved := true;
     Feedback.created_at := Feedback.created_at item |}.

Fixpoint update_feedback_row (rows : list Feedback.t) (feedback_id : Z)
    (item : Feedback.t) : list Feedback.t :=
  match rows with
  | [] => []
  | x :: rows' =>
      if Feedback.id x =? feedback_id
      then item :: rows'
      else x :: update_feedback_row rows' feedback_id item
  end.

(** [admin_approve_feedback] (lines 1167-1175); the query binds
    [feedback_id]. *)
Definition admin_approve_feedback (feedback_id : Z) (table : list Feedback.t)
  : attempt (Outcome * list Feedback.t) :=
  feedback_id <-- bind_integer feedback_id ;;
  match find (fun x => Feedback.id x =? feedback_id) table with
  | None => Done ({| flashed := []; response := abort 404 |}, table)
  | Some item =>
      Done (flash_and_redirect "Feedback approved" "success" "admin_feedback",
            update_feedback_row table feedback_id (set_approved item))
  end.

(** The feedback the landing page shows (line 278 of [index]):
    [Feedback.query.filter_by(is_approved=True).limit(6).all()].  The query
    has no [order_by]; the rows come in the order of the table, as SQLite
    scans it. *)
Definition approved_feedbacks (table : list Feedback.t) : list Feedback.t :=
  firstn 6 (filter Feedback.is_approved table).

End Reviews.

(** ** A small shop, to run its handlers *)

Module ShopSample.

Import Intake Shop Sample.
Local Open Scope string_scope.
Local Open Scope Z_scope.

Definition opening : datetime :=
  {| year := 2024; month := 1; day := 2; hour := 8; minute := 0; second := 0 |}.

Definition panel : Product.t :=
  {| Product.id := 1; Product.name := Some "Mono panel 550W";
     Product.description := Some "Monocrystalline panel";
     Product.category := Some "panel"; Product.price := 45000;
     Product.stock_quantity := 20; Product.image := None;
     Product.specifications := None; Product.wattage := Some 550;
     Product.is_active := true; Product.created_at := opening |}.

Definition inverter : Product.t :=
  {| Product.id := 2; Product.name := Some "Hybrid inverter 5kW";
     Product.description := Some "Hybrid inverter";
     Product.category := Some "inverter"; Product.price := 185000;
     Product.stock_quantity := 1; Product.image := None;
     Product.specifications := None; Product.wattage := None;
     Product.is_active := true; Product.created_at := opening |}.

(** User 7 holds four panels and two inverters, one more than the stock;
    user 8 holds one panel. *)
Definition shop : Store :=
  {| products := [panel; inverter];
     carts :=
       [{| Cart.id := 1; Cart.user_id := 7; Cart.product_id := 1;
           Cart.quantity := 4; Cart.added_at := opening |};
        {| Cart.id := 2; Cart.user_id := 8; Cart.product_id := 1;
           Cart.quantity := 1; Cart.added_at := opening |};
        {| Cart.id := 3; Cart.user_id := 7; Cart.product_id := 2;
           Cart.quantity := 2; Cart.added_at := opening |}];
     orders := [];
     order_items := [] |}.

Definition add_three : Request := post [("quantity", "3")] [].

Definition place_order : Request :=
  post [("shipping_address", "12 Mall Road, Rawalpindi")] [].

(** A user with no cart row yet. *)
Definition first_visit : Request :=
  {| method := POST; form := [("quantity", "2")]; files := [];
     session_user_id := 9 |}.

End ShopSample.

(** ** Two more views: the status page and the order desk *)

Module Views.

Import Intake Accounts Shop.
Local Open Scope string_scope.
Local Open Scope Z_scope.

(** [session.get('user_type') != 'admin'] *)
Definition session_is_not_admin (session : Session) : bool :=
  match user_type session with
  | Some (Some t) => negb (t =? "admin")%string
  | Some None => true
  | None => true
  end.

(** [application_status] (lines 494-508); [session['user_id']] is
    [session_user_id req]. *)
Definition application_status (req : Request) (session : Session) (app_id : Z)
    (db : Database) : Outcome :=
  match query_get db app_id with
  | None => {| flashed := []; response := abort 404 |}
  | Some application =>
      if negb (Intake.user_id application =? session_user_id req)
         && session_is_not_admin session
      then flash_and_redirect "Access denied" "danger" "client_dashboard"
      else {| flashed := []; response := render_template "application_status.html" |}
  end.

Definition with_order_status (order : Order.t) (status payment_status : option string)
  : Order.t :=
  {| Order.id := Order.id order;
     Order.user_id := Order.user_id order;
     Order.order_number := Order.order_number order;
     Order.total_amount := Order.total_amount order;
     Order.status := status;
     Order.payment_status := payment_status;
     Order.shipping_address := Order.shipping_address order;
     Order.created_at := Order.created_at order |}.

Fixpoint update_order_row (rows : list Order.t) (order_id : Z) (order : Order.t)
  : list Order.t :=
  match rows with
  | [] => []
  | o :: rows' =>
      if Order.id o =? order_id
      then order :: rows'
      else o :: update_order_row rows' order_id order
  end.

(** [Order.query.get(order_id)] *)
Definition get_order (st : Store) (order_id : Z) : option Order.t :=
  find (fun o => Order.id o =? order_id) (orders st).

(** [admin_order_detail] (lines 1010-1024) *)
Definition admin_order_detail (req : Request) (order_id : Z) (st : Store)
  : Outcome * Store :=
  match get_order st order_id with
  | None => ({| flashed := []; response := abort 404 |}, st)
  | Some order =>
      match method req with
      | POST =>
          let order :=
            with_order_status order (form_get req "status")
                              (form_get req "payment_status") in
          (flash_and_redirect "Order updated successfully" "success" "admin_orders",
           {| products := products st;
              carts := carts st;
              orders := update_order_row (orders st) order_id order;
              order_items := order_items st |})
      | GET =>
          ({| flashed := []; response := render_template "admin_order_detail.html" |},
           st)
      end
  end.

End Views.

(** ** An account, a feedback and an order page, to run the handlers *)

Module ShopPages.

Import Intake Shop.
Local Open Scope string_scope.
Local Open Scope Z_scope.
Local Open Scope attempt_scope.

Inductive OrderPage : Type :=
| order_not_found
| order_denied (answer : Outcome)
| order_shown (order : Order.t).

(** [order_confirmation] (lines 719-729); the query binds [order_id]. *)
Definition order_confirmation (req : Request) (order_id : Z) (st : Store)
  : attempt OrderPage :=
  order_id <-- bind_integer order_id ;;
  match find (fun o => Order.id o =? order_id) (orders st) with
  | None => Done order_not_found
  | Some order =>
      if negb (Order.user_id order =? session_user_id req)
      then Done (order_denied
                   (flash_and_redirect "Access denied" "danger" "client_dashboard"))
      else Done (order_shown order)
  end.

End ShopPages.

Module AccountsSample.

Import Intake Accounts Sample.
Local Open Scope string_scope.
Local Open Scope Z_scope.

(** A stand-in for the library's hash: the password behind a fixed prefix. *)
Definition plain_hasher : Hasher :=
  {| generate_password_hash := fun password => "plain$" ++ password;
     check_password_hash := fun pwhash password =>
       match password with
       | Some p => Ok (pwhash =? "plain$" ++ p)%string
       | None => Raise TypeError
       end |}.

Definition register : Request :=
  post [("full_name", "Ayesha Khan"); ("email", "ayesha@example.com");
        ("phone", "0300-1234567"); ("password", "s3cret");
        ("confirm_password", "s3cret")] [].

Definition sign_in : Request :=
  post [("email", "ayesha@example.com"); ("password", "s3cret")] [].

Definition five_stars : Request :=
  post [("rating", "5"); ("comment", "Clean installation")] [].

(** The table after the signup, and a page request of the new account. *)
Definition accounts : list User.t :=
  Eval vm_compute in snd (signup plain_hasher sample_env register []).

Definition as_ayesha : Request :=
  {| method := GET; form := []; files := []; session_user_id := 1 |}.

(** The administrator cancels an order; the form has no [payment_status]. *)
Definition cancel_order : Request := post [("status", "cancelled")] [].

(** A shop with one order of user 7, of four panels and two inverters, the
    stock lowered by hand; user 8 holds one panel. *)
Definition shop_with_order : Shop.Store :=
  {| Shop.products :=
       [{| Product.id := 1; Product.name := Some "Mono panel 550W";
           Product.description := Some "Monocrystalline panel";
           Product.category := Some "panel"; Product.price := 45000;
           Product.stock_quantity := 16; Product.image := None;
           Product.specifications := None; Product.wattage := Some 550;
           Product.is_active := true; Product.created_at := ShopSample.opening |};
        {| Product.id := 2; Product.name := Some "Hybrid inverter 5kW";
           Product.description := Some "Hybrid inverter";
           Product.category := Some "inverter"; Product.price := 185000;
           Product.stock_quantity := -1; Product.image := None;
           Product.specifications := None; Product.wattage := None;
           Product.is_active := true; Product.created_at := ShopSample.opening |}];
     Shop.carts :=
       [{| Cart.id := 2; Cart.user_id := 8; Cart.product_id := 1;
           Cart.quantity := 1; Cart.added_at := ShopSample.opening |}];
     Shop.orders :=
       [{| Order.id := 1; Order.user_id := 7;
           Order.order_number := Some "AME-20240309-14321";
           Order.total_amount := 550000;
           Order.status := Some "pending";
           Order.payment_status := Some "pending";
           Order.shipping_address := Some "12 Mall Road, Rawalpindi";
           Order.created_at :=
             {| year := 2024; month := 3; day := 9;
                hour := 9; minute := 5; second := 7 |} |}];
     Shop.order_items :=
       [{| OrderItem.id := 1; OrderItem.order_id := 1; OrderItem.product_id := 1;
           OrderItem.quantity := 4; OrderItem.unit_price := 45000 |};
        {| OrderItem.id := 2; OrderItem.order_id := 1; OrderItem.product_id := 2;
           OrderItem.quantity := 2; OrderItem.unit_price := 185000 |}] |}.

End AccountsSample.

(** * Facts about the numeric helpers *)

Module PyNumFacts.

Import PyNum.
Local Open Scope Q_scope.

Lemma py_truediv_ok (x y : Q) : ~ y == 0 -> py_truediv x y = Ok (x / y).
Proof.
  intros Hy. unfold py_truediv.
  destruct (Qeq_bool y 0) eqn:E; [|reflexivity].
  apply Qeq_bool_iff in E. contradiction.
Qed.

Lemma py_truediv_zero (x y : Q) : y == 0 -> py_truediv x y = Raise ZeroDivisionError.
Proof.
  intros Hy. unfold py_truediv.
  apply Qeq_bool_iff in Hy. now rewrite Hy.
Qed.

Lemma Qltb_lt (x y : Q) : Qltb x y = true <-> x < y.
Proof.
  unfold Qltb. rewrite Qlt_alt.
  destruct (x ?= y); split; congruence.
Qed.

Lemma Qltb_ge (x y : Q) : Qltb x y = false <-> y <= x.
Proof.
  split; intros H.
  - apply Qnot_lt_le. intros Hlt. apply Qltb_lt in Hlt. congruence.
  - destruct (Qltb x y) eqn:E; [|reflexivity].
    apply Qltb_lt in E. exfalso. now apply (Qlt_not_le x y).
Qed.

(** On a non-negative float [int] is the floor. *)
Lemma py_int_nonneg (x : Q) : 0 <= x -> py_int x = Qfloor x.
Proof.
  destruct x as [n d]. unfold Qle, py_int, Qfloor. simpl. intros H.
  apply Z.quot_div_nonneg; lia.
Qed.

(** On a float that is not positive [int] is not positive either. *)
Lemma py_int_nonpos (x : Q) : x <= 0 -> (py_int x <= 0)%Z.
Proof.
  destruct x as [n d]. unfold Qle, py_int. simpl. intros H.
  rewrite <- (Z.opp_involutive n), Z.quot_opp_l by lia.
  assert (0 <= Z.quot (- n) (Z.pos d))%Z by (apply Z.quot_pos; lia).
  lia.
Qed.

Lemma Qfloor_lt_Z (x : Q) (n : Z) : x < inject_Z n -> (Qfloor x < n)%Z.
Proof.
  intros H. rewrite Zlt_Qlt.
  eapply Qle_lt_trans; [apply Qfloor_le | exact H].
Qed.

Lemma Qfloor_ge_Z (x : Q) (n : Z) : inject_Z n <= x -> (n <= Qfloor x)%Z.
Proof.
  intros H. rewrite <- (Qfloor_Z n). now apply Qfloor_resp_le.
Qed.

(** A number within a half of [n] rounds to [n]. *)
Lemma round_half_even_near (x : Q) (n : Z) :
  inject_Z n - (1 # 2) < x -> x < inject_Z n + (1 # 2) ->
  round_half_even x = n.
Proof.
  intros Hlo Hhi. unfold round_half_even.
  pose proof (Qfloor_le x) as Hfl. pose proof (Qlt_floor x) as Hfu.
  set (f := Qfloor x) in *.
  rewrite inject_Z_plus in Hfu.
  assert (Hcase : (f = n - 1 \/ f = n)%Z).
  { assert (Hl : (n - 1 < f + 1)%Z).
    { rewrite Zlt_Qlt. unfold Z.sub. rewrite !inject_Z_plus.
      rewrite inject_Z_opp. change (inject_Z 1) with 1 in *. lra. }
    assert (Hu : (f < n + 1)%Z).
    { rewrite Zlt_Qlt. rewrite inject_Z_plus.
      change (inject_Z 1) with 1 in *. lra. }
    lia. }
  destruct Hcase as [-> | ->].
  - replace (n - 1 + 1)%Z with n by lia.
    assert (Hgt : (x - inject_Z (n - 1) ?= 1 # 2) = Gt).
    { apply -> Qgt_alt. unfold Z.sub. rewrite inject_Z_plus.
      rewrite inject_Z_opp. change (inject_Z 1) with 1 in *. lra. }
    now rewrite Hgt.
  - assert (Hlt : (x - inject_Z n ?= 1 # 2) = Lt).
    { apply -> Qlt_alt. lra. }
    now rewrite Hlt.
Qed.

(** Hence [round] leaves a number with at most [ndigits] decimals alone. *)
Lemma py_round_exact (x : Q) (ndigits : nat) (n : Z) :
  x * inject_Z (10 ^ Z.of_nat ndigits) == inject_Z n ->
  py_round x ndigits == x.
Proof.
  intros H. unfold py_round.
  assert (Hs : 0 < inject_Z (10 ^ Z.of_nat ndigits)).
  { change 0 with (inject_Z 0). rewrite <- Zlt_Qlt. apply Z.pow_pos_nonneg; lia. }
  set (s := inject_Z (10 ^ Z.of_nat ndigits)) in *.
  rewrite (round_half_even_near (x * s) n) by (rewrite H; lra).
  rewrite <- H. field. lra.
Qed.

End PyNumFacts.

(** * Facts about the estimator *)

Module EstimatorFacts.

Import PyNum PyNumFacts Estimator.
Local Open Scope Q_scope.

(** ** The ladder choice *)

Lemma fold_left_min_lower (l : list Z) (c : Z) :
  (fold_left Z.min l c <= c)%Z /\
  forall x, In x l -> (fold_left Z.min l c <= x)%Z.
Proof.
  revert c. induction l as [|a l IH]; intros c; simpl.
  - split; [lia | tauto].
  - destruct (IH (Z.min c a)) as [H1 H2]. split; [lia|].
    intros x [<- | Hx]; [lia | auto].
Qed.

Lemma fold_left_min_mem (l : list Z) (c : Z) :
  fold_left Z.min l c = c \/ In (fold_left Z.min l c) l.
Proof.
  revert c. induction l as [|a l IH]; intros c; simpl; [now left|].
  destruct (IH (Z.min c a)) as [H | H]; [|now right; right].
  rewrite H. destruct (Z.min_spec c a) as [[_ ->] | [_ ->]]; auto.
Qed.

Lemma py_min_mem (l : list Z) (d : Z) : l <> [] -> In (py_min l d) l.
Proof.
  destruct l as [|c l]; [congruence | intros _; simpl].
  destruct (fold_left_min_mem l c) as [-> | H]; auto.
Qed.

Lemma py_min_lower (l : list Z) (d x : Z) : In x l -> (py_min l d <= x)%Z.
Proof.
  destruct l as [|c l]; simpl; [tauto|].
  destruct (fold_left_min_lower l c) as [H1 H2].
  intros [<- | Hx]; auto.
Qed.

Lemma standard_capacities_range (c : Z) :
  In c standard_capacities -> (1 <= c <= 50)%Z.
Proof. unfold standard_capacities. simpl. intuition lia. Qed.

Lemma top_of_ladder : In 50%Z standard_capacities.
Proof. unfold standard_capacities. repeat first [left; reflexivity | right]. Qed.

Lemma ladder_capacity_mem (req : Q) :
  In (ladder_capacity req) standard_capacities.
Proof.
  unfold ladder_capacity.
  destruct (filter (fun c => Qle_bool req (inject_Z c)) standard_capacities)
    as [|c l] eqn:E.
  - exact top_of_ladder.
  - assert (H : In (py_min (c :: l) 50) (c :: l)) by (apply py_min_mem; congruence).
    rewrite <- E in H. apply filter_In in H. rewrite E in H. tauto.
Qed.

Lemma ladder_capacity_range (req : Q) : (1 <= ladder_capacity req <= 50)%Z.
Proof. apply standard_capacities_range, ladder_capacity_mem. Qed.

(** Below the top of the ladder the choice is the smallest value that
    covers the requirement. *)
Lemma ladder_capacity_smallest (req : Q) :
  req <= 50 -> smallest_ladder_value_ge req (ladder_capacity req).
Proof.
  intros Hreq. unfold ladder_capacity.
  set (l := filter (fun c => Qle_bool req (inject_Z c)) standard_capacities).
  assert (H50 : In 50%Z l).
  { apply filter_In. split.
    - exact top_of_ladder.
    - now apply Qle_bool_iff. }
  assert (Hne : l <> []) by (intros E; rewrite E in H50; exact H50).
  pose proof (py_min_mem l 50 Hne) as Hmem.
  apply filter_In in Hmem. destruct Hmem as [Hstd Hge].
  repeat split.
  - exact Hstd.
  - now apply Qle_bool_iff.
  - intros c' Hc' Hle. apply py_min_lower.
    apply filter_In. split; [exact Hc' | now apply Qle_bool_iff].
Qed.

(** Above the top of the ladder no value qualifies and the default is
    taken. *)
Lemma ladder_capacity_capped (req : Q) : 50 < req -> ladder_capacity req = 50%Z.
Proof.
  intros Hreq. unfold ladder_capacity.
  destruct (filter (fun c => Qle_bool req (inject_Z c)) standard_capacities)
    as [|c l] eqn:E; [reflexivity|].
  assert (H : In c (c :: l)) by now left.
  rewrite <- E in H. apply filter_In in H. destruct H as [Hstd Hge].
  apply Qle_bool_iff in Hge. apply standard_capacities_range in Hstd.
  assert (inject_Z c <= 50) by (change 50 with (inject_Z 50); rewrite <- Zle_Qle; lia).
  lra.
Qed.

(** ** The roof constraint *)

Lemma final_capacity_range (monthly_bill roof_area : Q) :
  (1 <= final_capacity monthly_bill roof_area <= 50)%Z.
Proof.
  unfold final_capacity.
  pose proof (ladder_capacity_range (required_capacity_of monthly_bill)) as Hl.
  set (ladder := ladder_capacity (required_capacity_of monthly_bill)) in *.
  destruct (Qltb roof_area (inject_Z (ladder * 100))) eqn:E; [|exact Hl].
  apply Qltb_lt in E. split; [lia|].
  apply Z.max_lub; [lia|].
  destruct (Qlt_le_dec roof_area 0) as [Hneg | Hpos].
  - assert (py_int (roof_area / 100) <= 0)%Z; [|lia].
    apply py_int_nonpos.
    setoid_replace (roof_area / 100) with (roof_area * (1 # 100)) by field. lra.
  - rewrite py_int_nonneg
      by (setoid_replace (roof_area / 100) with (roof_area * (1 # 100)) by field; lra).
    assert (Qfloor (roof_area / 100) < 50)%Z; [|lia].
    apply Qfloor_lt_Z.
    assert (inject_Z (ladder * 100) <= 5000)
      by (change 5000 with (inject_Z 5000); rewrite <- Zle_Qle; lia).
    setoid_replace (roof_area / 100) with (roof_area * (1 # 100)) by field.
    change (inject_Z 50) with 50. lra.
Qed.

(** ** The estimator, unfolded

    No division of the estimator can raise: every divisor is a non-zero
    constant, except [annual_savings], whose division is guarded. *)

Lemma payback_years_total (total_cost : Z) (annual_savings : Q) :
  payback_years total_cost annual_savings =
  Ok (if Qltb 0 annual_savings then inject_Z total_cost / annual_savings else 0).
Proof.
  unfold payback_years. destruct (Qltb 0 annual_savings) eqn:E; [|reflexivity].
  apply Qltb_lt in E. apply py_truediv_ok. lra.
Qed.

Lemma get_solar_recommendation_eq (monthly_bill roof_area : Q) (property_type : string) :
  get_solar_recommendation monthly_bill roof_area property_type =
  Ok (let c := final_capacity monthly_bill roof_area in
      let generation := inject_Z c * (55 # 10) * 30 * (8 # 10) in
      let savings := generation * inject_Z 25 * 12 in
      {| recommended_capacity := c;
         monthly_consumption := py_round (monthly_bill / inject_Z 25) 2;
         estimated_cost := (c * 80000)%Z;
         monthly_savings := py_round (generation * inject_Z 25) 2;
         annual_savings := py_round savings 2;
         payback_period :=
           py_round (if Qltb 0 savings
                     then inject_Z (c * 80000) / savings else 0) 1;
         carbon_offset :=
           py_round (generation * 12 * (453592 # 1000000) / 1000) 2;
         net_metering_eligible := (5 <=? c)%Z;
         required_area :=
           (ladder_capacity (required_capacity_of monthly_bill) * 100)%Z;
         monthly_generation := py_round generation 2 |}).
Proof.
  unfold get_solar_recommendation, final_capacity, required_capacity_of.
  cbv zeta.
  rewrite !py_truediv_ok by (intros H; discriminate H).
  cbn [bind].
  rewrite !py_truediv_ok by (intros H; discriminate H).
  cbn [bind].
  rewrite !py_truediv_ok by (intros H; discriminate H).
  cbn [bind].
  destruct (Qltb roof_area _) eqn:E;
    cbn [bind]; rewrite payback_years_total; cbn [bind];
    rewrite py_truediv_ok by (intros H; discriminate H); reflexivity.
Qed.

(** ** Savings and payback of a capacity *)

Lemma savings_value (c : Z) :
  inject_Z c * (55 # 10) * 30 * (8 # 10) * inject_Z 25 * 12 == inject_Z (c * 39600).
Proof.
  rewrite inject_Z_mult. change (inject_Z 25) with 25.
  change (inject_Z 39600) with 39600. ring.
Qed.

Lemma savings_positive (c : Z) :
  (1 <= c)%Z -> 0 < inject_Z c * (55 # 10) * 30 * (8 # 10) * inject_Z 25 * 12.
Proof.
  intros Hc. rewrite savings_value. change 0 with (inject_Z 0).
  rewrite <- Zlt_Qlt. lia.
Qed.

Lemma payback_value (c : Z) :
  (1 <= c)%Z ->
  inject_Z (c * 80000) / (inject_Z c * (55 # 10) * 30 * (8 # 10) * inject_Z 25 * 12)
  == 200 # 99.
Proof.
  intros Hc. rewrite inject_Z_mult. change (inject_Z 25) with 25.
  change (inject_Z 80000) with 80000.
  assert (0 < inject_Z c) by (change 0 with (inject_Z 0); rewrite <- Zlt_Qlt; lia).
  field. lra.
Qed.

Lemma py_round_payback (p : Q) : p == 200 # 99 -> py_round p 1 == 2.
Proof.
  intros Hp. unfold py_round.
  change (inject_Z (10 ^ Z.of_nat 1)) with 10.
  rewrite (round_half_even_near (p * 10) 20).
  - reflexivity.
  - rewrite Hp. reflexivity.
  - rewrite Hp. reflexivity.
Qed.

Lemma py_int_small (roof_area : Q) : roof_area < 100 -> (py_int (roof_area / 100) <= 0)%Z.
Proof.
  intros H.
  assert (E : roof_area / 100 == roof_area * (1 # 100)) by field.
  destruct (Qlt_le_dec roof_area 0) as [Hneg | Hpos].
  - apply py_int_nonpos. rewrite E. lra.
  - rewrite py_int_nonneg by (rewrite E; lra).
    assert (Qfloor (roof_area / 100) < 1)%Z; [|lia].
    apply Qfloor_lt_Z. rewrite E. change (inject_Z 1) with 1. lra.
Qed.

End EstimatorFacts.

(** * Binary64: what the estimator's divisions and comparisons give *)

Module Binary64Facts.

Import PyNum PyNumFacts Estimator EstimatorFacts Binary64 Binary64Ladder.
#[local] Set Warnings "-inexact-float".
Local Open Scope Z_scope.

(** ** Rounding to the format keeps a small quotient finite *)

Lemma digits2_pos_size (p : positive) : digits2_pos p = Pos.size p.
Proof. induction p; simpl; congruence. Qed.

Lemma pos_lt_pow_size (p : positive) : Zpos p < 2 ^ Zpos (digits2_pos p).
Proof.
  rewrite digits2_pos_size.
  pose proof (Pos.size_gt p) as H.
  apply Pos2Z.pos_lt_pos in H. now rewrite Pos2Z.inj_pow in H.
Qed.

Lemma pow_size_le (p : positive) : 2 ^ Zpos (digits2_pos p) <= 2 * Zpos p.
Proof.
  rewrite digits2_pos_size.
  pose proof (Pos.size_le p) as H.
  apply Pos2Z.pos_le_pos in H. rewrite Pos2Z.inj_pow in H. exact H.
Qed.

(** digits of a number below [2^k] *)
Lemma Zdigits2_le (q k : Z) : 0 <= k -> 0 <= q < 2 ^ k -> 0 <= Zdigits2 q <= k.
Proof.
  intros Hk [Hq Hlt]. destruct q as [|p|p]; simpl; [lia| |lia].
  split; [lia|].
  pose proof (pow_size_le p) as H.
  assert (H2 : 2 ^ Zpos (digits2_pos p) < 2 ^ (k + 1)).
  { rewrite Z.pow_add_r by lia. lia. }
  apply Z.pow_lt_mono_r_iff in H2; lia.
Qed.

Lemma shr_1_bound (mrs : shr_record) :
  0 <= shr_m mrs -> 0 <= shr_m (shr_1 mrs) <= shr_m mrs.
Proof.
  destruct mrs as [m r s]. simpl. destruct m as [|[p|p|]|p]; simpl; lia.
Qed.

Lemma iter_pos_shr_bound (p : positive) :
  forall mrs, 0 <= shr_m mrs -> 0 <= shr_m (iter_pos shr_1 p mrs) <= shr_m mrs.
Proof.
  induction p as [p IH|p IH|]; intros mrs H; simpl.
  - pose proof (shr_1_bound mrs H) as H1.
    pose proof (IH _ (proj1 H1)) as H2.
    pose proof (IH _ (proj1 H2)) as H3. lia.
  - pose proof (IH _ H) as H2.
    pose proof (IH _ (proj1 H2)) as H3. lia.
  - now apply shr_1_bound.
Qed.

Lemma shr_record_of_loc_m (m : Z) (l : location) : shr_m (shr_record_of_loc m l) = m.
Proof. destruct l as [|[]]; reflexivity. Qed.

Lemma shr_fexp_bound (m e : Z) (l : location) :
  0 <= m ->
  0 <= shr_m (fst (shr_fexp prec emax m e l)) <= m /\
  snd (shr_fexp prec emax m e l)
  = Z.max e (fexp prec emax (Zdigits2 m + e)).
Proof.
  intros Hm. unfold shr_fexp, shr.
  destruct (fexp prec emax (Zdigits2 m + e) - e) as [|p|p] eqn:En; cbn [fst snd].
  - rewrite shr_record_of_loc_m. split; [lia|]. lia.
  - split.
    + pose proof (iter_pos_shr_bound p (shr_record_of_loc m l)) as H.
      rewrite shr_record_of_loc_m in H. now apply H.
    + lia.
  - rewrite shr_record_of_loc_m. split; lia.
Qed.

Lemma round_nearest_even_bound (m : Z) (l : location) :
  0 <= m -> m <= round_nearest_even m l <= m + 1.
Proof.
  intros Hm. destruct l as [|[]]; simpl; try lia.
  destruct (Z.even m); lia.
Qed.

Lemma fexp_le (x : Z) : fexp prec emax x = Z.max (x - 53) (-1074).
Proof. reflexivity. Qed.

Lemma binary_round_aux_finite (s : bool) (m e : Z) (l : location) (k : Z) :
  0 <= k -> 0 <= m < 2 ^ k ->
  e <= 965 -> k + e <= 1018 -> k <= 54 ->
  finite_of_sign s (binary_round_aux prec emax s m e l).
Proof.
  intros Hk Hm He Hke Hk54. unfold binary_round_aux.
  destruct (shr_fexp_bound m e l (proj1 Hm)) as [Hb1 He1].
  destruct (shr_fexp prec emax m e l) as [mrs1 e1]. cbn [fst snd] in Hb1, He1.
  set (m1 := round_nearest_even (shr_m mrs1) (loc_of_shr_record mrs1)).
  pose proof (round_nearest_even_bound (shr_m mrs1) (loc_of_shr_record mrs1)
                (proj1 Hb1)) as Hr. fold m1 in Hr.
  assert (Hm1 : 0 <= m1) by lia.
  destruct (shr_fexp_bound m1 e1 loc_Exact Hm1) as [Hb2 He2].
  destruct (shr_fexp prec emax m1 e1 loc_Exact) as [mrs2 e2].
  cbn [fst snd] in Hb2, He2.
  destruct (shr_m mrs2) as [|p|p]; [exact I| |lia].
  assert (Hd : 0 <= Zdigits2 m <= k) by (apply Zdigits2_le; lia).
  assert (Hd1 : 0 <= Zdigits2 m1 <= k + 1).
  { apply Zdigits2_le; [lia|]. split; [lia|].
    rewrite Z.pow_add_r by lia. lia. }
  rewrite fexp_le in He1, He2.
  assert (Hle : (e2 <=? emax - prec) = true).
  { apply Z.leb_le. change (emax - prec) with 971. lia. }
  rewrite Hle. reflexivity.
Qed.

Lemma bounded_digits (m : positive) (e : Z) :
  bounded prec emax m e = true ->
  1 <= Zpos (digits2_pos m) <= 53 /\ -1074 <= e <= 971.
Proof.
  unfold bounded, canonical_mantissa. intros H.
  apply andb_prop in H. destruct H as [Hc He].
  apply Z.eqb_eq in Hc. apply Z.leb_le in He.
  rewrite fexp_le in Hc. change (emax - prec) with 971 in He. lia.
Qed.

(** Dividing a finite float by 100 gives a finite float. *)
Lemma SFdiv_100_finite (s : bool) (m : positive) (e : Z) :
  bounded prec emax m e = true ->
  finite_of_sign s
    (SFdiv prec emax (S754_finite s m e) (S754_finite false 7036874417766400 (-46))).
Proof.
  intros Hb. destruct (bounded_digits m e Hb) as [Hd He].
  assert (Hm : Zpos m < 2 ^ Zpos (digits2_pos m)) by apply pos_lt_pow_size.
  set (d1 := Zpos (digits2_pos m)) in *.
  unfold SFdiv, SFdiv_core_binary.
  change (Zdigits2 (Zpos m)) with d1.
  change (Zdigits2 7036874417766400) with 53.
  rewrite fexp_le.
  set (e' := Z.min (Z.max (d1 + e - (53 + -46) - 53) (-1074)) (e - -46)).
  set (sh := e - -46 - e').
  set (m' := match sh with
             | 0 => Zpos m
             | Zpos _ => Z.shiftl (Zpos m) sh
             | Zneg _ => 0
             end).
  assert (Hsh : 0 <= sh) by (unfold sh, e'; lia).
  assert (Hm' : 0 <= m' < 2 ^ (d1 + sh)).
  { unfold m'. destruct sh as [|p|p] eqn:Es.
    - rewrite Z.add_0_r. lia.
    - rewrite Z.shiftl_mul_pow2 by lia. rewrite Z.pow_add_r by lia.
      assert (0 < 2 ^ Zpos p) by (apply Z.pow_pos_nonneg; lia).
      split; [lia|]. apply Z.mul_lt_mono_pos_r; lia.
    - lia. }
  pose proof (Z_div_mod m' 7036874417766400 eq_refl) as Hdiv.
  destruct (Z.div_eucl m' 7036874417766400) as [q r].
  destruct Hdiv as [Heq Hr].
  assert (Hq0 : 0 <= q) by nia.
  set (k := Z.max 0 (d1 + sh - 52)).
  assert (Hqk : q < 2 ^ k).
  { assert (H52 : q * 2 ^ 52 < 2 ^ (d1 + sh)).
    { change (2 ^ 52) with 4503599627370496. nia. }
    unfold k. destruct (Z.max_spec 0 (d1 + sh - 52)) as [[Hlt ->] | [Hge ->]].
    - replace (d1 + sh) with (d1 + sh - 52 + 52) in H52 by lia.
      rewrite Z.pow_add_r in H52 by lia.
      apply Z.mul_lt_mono_pos_r in H52; [exact H52|reflexivity].
    - assert (2 ^ (d1 + sh) <= 2 ^ 52) by (apply Z.pow_le_mono_r; lia).
      change (2 ^ 0) with 1. nia. }
  rewrite Bool.xorb_false_r. apply (binary_round_aux_finite _ q e' _ k).
  - unfold k. lia.
  - split; assumption.
  - unfold e'. lia.
  - unfold k, sh, e'. lia.
  - unfold k, sh, e'. lia.
Qed.


Local Open Scope float_scope.

(** ** Comparisons *)

(** A float above 0 and below another float is finite and positive. *)
Lemma positive_below_finite (x y : float) :
  (0 <? x) = true -> (x <? y) = true ->
  exists m e, Prim2SF x = S754_finite false m e.
Proof.
  rewrite !FloatAxioms.ltb_spec.
  change (Prim2SF 0) with (S754_zero false).
  destruct (Prim2SF x) as [s|s| |s m e]; destruct (Prim2SF y) as [s'|s'| |s' m' e'];
    try destruct s; try destruct s'; cbn; try discriminate; intros _ _;
    eexists; eexists; reflexivity.
Qed.

(** [a < x] and [x <= b] give [a < b], for finite positive [a] and [b]. *)
Lemma SFltb_SFleb_trans (ma mb : positive) (ea eb : Z) (x : spec_float) :
  SFltb (S754_finite false ma ea) x = true ->
  SFleb x (S754_finite false mb eb) = true ->
  SFltb (S754_finite false ma ea) (S754_finite false mb eb) = true.
Proof.
  unfold SFltb, SFleb.
  destruct x as [s|s| |s m e]; try destruct s; cbn; try discriminate.
  change (Pos.compare_cont Eq) with Pos.compare.
  destruct (Z.compare_spec ea e); destruct (Z.compare_spec e eb);
    destruct (Pos.compare_spec ma m); destruct (Pos.compare_spec m mb);
    try discriminate; intros _ _;
    destruct (Z.compare_spec ea eb); try lia;
    destruct (Pos.compare_spec ma mb); try lia; reflexivity.
Qed.

(** ** The sizing of lines 185-203 *)

Lemma sizing_eq (monthly_bill roof_area : float) :
  sizing monthly_bill roof_area
  = let ladder := ladder_of (required_capacity_of monthly_bill) in
    if roof_area <? float_of_int (ladder * 100)
    then
      match int_of_float (roof_area / 100) with
      | Some recommended_capacity =>
          Some (ladder, (ladder * 100)%Z, Z.max 1 recommended_capacity)
      | None => None
      end
    else Some (ladder, (ladder * 100)%Z, ladder).
Proof. reflexivity. Qed.

Lemma ladder_of_mem (x : float) : In (ladder_of x) standard_capacities.
Proof.
  unfold ladder_of.
  destruct (filter (fun c => x <=? float_of_int c) standard_capacities)
    as [|c l] eqn:E.
  - exact top_of_ladder.
  - assert (H : In (py_min (c :: l) 50) (c :: l)) by (apply py_min_mem; congruence).
    rewrite <- E in H. apply filter_In in H. rewrite E in H. tauto.
Qed.

(** When 50 covers the requirement the choice is the smallest value of the
    ladder that covers it. *)
Lemma ladder_of_smallest (x : float) :
  at_least 50 x -> smallest_ladder_value_at_least x (ladder_of x).
Proof.
  intros H50. unfold ladder_of.
  set (l := filter (fun c => x <=? float_of_int c) standard_capacities).
  assert (Hin : In 50%Z l).
  { apply filter_In. split; [exact top_of_ladder | exact H50]. }
  assert (Hne : l <> nil) by (intros E; rewrite E in Hin; exact Hin).
  pose proof (py_min_mem l 50 Hne) as Hmem.
  apply filter_In in Hmem. destruct Hmem as [Hstd Hge].
  repeat split.
  - exact Hstd.
  - exact Hge.
  - intros c' Hc' Hle. apply py_min_lower.
    apply filter_In. split; [exact Hc' | exact Hle].
Qed.

(** Above 50 no value of the ladder covers the requirement and the default
    is taken. *)
Lemma ladder_of_capped (x : float) : (50 <? x) = true -> ladder_of x = 50%Z.
Proof.
  intros Hx. unfold ladder_of.
  destruct (filter (fun c => x <=? float_of_int c) standard_capacities)
    as [|c l] eqn:E; [reflexivity|].
  exfalso.
  assert (H : In c (c :: l)) by now left.
  rewrite <- E in H. apply filter_In in H. destruct H as [Hstd Hge].
  rewrite FloatAxioms.ltb_spec in Hx. rewrite FloatAxioms.leb_spec in Hge.
  change (Prim2SF 50) with (S754_finite false 7036874417766400 (-47)) in Hx.
  assert (Hc : exists mc ec,
             Prim2SF (float_of_int c) = S754_finite false mc ec /\
             SFltb (S754_finite false 7036874417766400 (-47))
                   (S754_finite false mc ec) = false).
  { unfold standard_capacities in Hstd. simpl in Hstd.
    repeat (destruct Hstd as [<- | Hstd];
            [vm_compute; eexists; eexists; split; reflexivity|]).
    contradiction. }
  destruct Hc as (mc & ec & Hc & Hlt). rewrite Hc in Hge.
  rewrite (SFltb_SFleb_trans _ _ _ _ _ Hx Hge) in Hlt. discriminate Hlt.
Qed.

(** ** The roof override *)

Lemma exact_value_nonneg (m : positive) (e : Z) :
  (0 <= (if (0 <=? e)%Z
         then inject_Z (Zpos m * 2 ^ e)
         else Qmake (Zpos m) (Z.to_pos (2 ^ (- e)))))%Q.
Proof.
  destruct (0 <=? e)%Z eqn:He.
  - apply Z.leb_le in He. change 0%Q with (inject_Z 0). rewrite <- Zle_Qle.
    assert (0 <= 2 ^ e)%Z by (apply Z.pow_nonneg; lia). lia.
  - unfold Qle. simpl. lia.
Qed.

(** Below a required area, a positive roof area divided by 100 is a finite
    float that is not negative, and [int] of it is its floor. *)
Lemma roof_quotient (roof_area required_area : float) :
  (0 <? roof_area) = true ->
  (roof_area <? required_area) = true ->
  exists q,
    exact_value (roof_area / 100) = Some q /\
    int_of_float (roof_area / 100) = Some (Qfloor q).
Proof.
  intros Hpos Hlt.
  destruct (positive_below_finite roof_area required_area Hpos Hlt)
    as (m & e & Hx).
  pose proof (Prim2SF_valid roof_area) as Hv. rewrite Hx in Hv.
  pose proof (SFdiv_100_finite false m e Hv) as Hq.
  unfold int_of_float, exact_value.
  rewrite FloatAxioms.div_spec, Hx.
  change (Prim2SF 100) with (S754_finite false 7036874417766400 (-46)).
  unfold SF64div.
  destruct (SFdiv prec emax (S754_finite false m e)
              (S754_finite false 7036874417766400 (-46)))
    as [s'|s'| |s' m' e']; cbn in Hq; try contradiction.
  - exists 0%Q. split; reflexivity.
  - subst s'. eexists. split; [reflexivity|].
    f_equal. apply py_int_nonneg. apply exact_value_nonneg.
Qed.

(** ** A bill just above a threshold of the ladder

    9900 is the bill whose exact requirement is 3 kW.  For the float next
    above 9900 the three rounded divisions give 3.0 itself, so the code
    recommends 3 kW where exact arithmetic gives 5 kW. *)
Lemma just_above_9900 :
  (9900 <? 0x1.3560000000001p+13) = true /\
  (required_capacity_of 0x1.3560000000001p+13 =? 3) = true /\
  sizing 0x1.3560000000001p+13 1000000 = Some (3, 300, 3)%Z /\
  ladder_capacity (Estimator.required_capacity_of (9900 + (1 # 549755813888)))
  = 5%Z.
Proof. repeat split; vm_compute; reflexivity. Qed.

End Binary64Facts.

(** * The estimator against its specification *)

Module EstimatorSpec.

Import PyNum PyNumFacts Estimator EstimatorFacts.
Local Open Scope Q_scope.

(** C1.  In binary64, as the code computes.  For a positive bill and a
    positive roof area the sizing returns.  Its bill-derived size [ladder]
    is the smallest value of the standard ladder that is at least the
    [required_capacity] the code computed, and 50 when [required_capacity]
    is above the ladder.  When [ladder * 100] exceeds the roof area the
    recommended capacity is [max(1, floor(roof_area / 100))], the division
    being the code's, otherwise it is [ladder]; it is always at least 1.  A
    bill of 100000 with a roof of 250 gives 2. *)
Theorem C1_recommended_capacity (monthly_bill roof_area : float) :
  (0 <? monthly_bill)%float = true ->
  (0 <? roof_area)%float = true ->
  exists ladder recommended_capacity,
    Binary64.sizing monthly_bill roof_area
    = Some (ladder, (ladder * 100)%Z, recommended_capacity) /\
    (let required_capacity := Binary64Ladder.required_capacity_of monthly_bill in
     ((required_capacity <=? 50)%float = true ->
      Binary64Ladder.smallest_ladder_value_at_least required_capacity ladder) /\
     ((50 <? required_capacity)%float = true -> ladder = 50%Z)) /\
    ((roof_area <? Binary64.float_of_int (ladder * 100))%float = true ->
     exists q,
       Binary64.exact_value (roof_area / 100)%float = Some q /\
       recommended_capacity = Z.max 1 (Qfloor q)) /\
    ((roof_area <? Binary64.float_of_int (ladder * 100))%float = false ->
     recommended_capacity = ladder) /\
    (1 <= recommended_capacity)%Z /\
    Binary64.sizing 100000 250 = Some (40, 4000, 2)%Z.
Proof.
  intros Hbill Hroof.
  set (ladder :=
         Binary64Ladder.ladder_of (Binary64Ladder.required_capacity_of monthly_bill)).
  pose proof (standard_capacities_range ladder
                (Binary64Facts.ladder_of_mem _)) as Hrange.
  assert (Htail : Binary64.sizing 100000 250 = Some (40, 4000, 2)%Z)
    by (vm_compute; reflexivity).
  assert (Hladder :
            let required_capacity :=
              Binary64Ladder.required_capacity_of monthly_bill in
            ((required_capacity <=? 50)%float = true ->
             Binary64Ladder.smallest_ladder_value_at_least required_capacity
               ladder) /\
            ((50 <? required_capacity)%float = true -> ladder = 50%Z)).
  { cbv zeta. split.
    - intros H50. apply Binary64Facts.ladder_of_smallest. exact H50.
    - apply Binary64Facts.ladder_of_capped. }
  rewrite Binary64Facts.sizing_eq. cbv zeta. fold ladder.
  destruct (roof_area <? Binary64.float_of_int (ladder * 100))%float eqn:Hover.
  - destruct (Binary64Facts.roof_quotient roof_area _ Hroof Hover)
      as (q & Hq & Hint).
    rewrite Hint.
    exists ladder, (Z.max 1 (Qfloor q)).
    split; [reflexivity|]. split; [exact Hladder|].
    split; [intros _; exists q; split; [exact Hq | reflexivity]|].
    split; [intros Hd; rewrite Hover in Hd; discriminate Hd|]. split; [lia | exact Htail].
  - exists ladder, ladder.
    split; [reflexivity|]. split; [exact Hladder|].
    split; [intros Hd; rewrite Hover in Hd; discriminate Hd|]. split; [reflexivity|].
    split; [lia | exact Htail].
Qed.

Lemma C1_recommended_capacity_witness :
  ((0 <? 100000)%float = true /\ (0 <? 250)%float = true) /\
  exists ladder recommended_capacity,
    Binary64.sizing 100000 250
    = Some (ladder, (ladder * 100)%Z, recommended_capacity) /\
    (let required_capacity := Binary64Ladder.required_capacity_of 100000 in
     ((required_capacity <=? 50)%float = true ->
      Binary64Ladder.smallest_ladder_value_at_least required_capacity ladder) /\
     ((50 <? required_capacity)%float = true -> ladder = 50%Z)) /\
    ((250 <? Binary64.float_of_int (ladder * 100))%float = true ->
     exists q,
       Binary64.exact_value (250 / 100)%float = Some q /\
       recommended_capacity = Z.max 1 (Qfloor q)) /\
    ((250 <? Binary64.float_of_int (ladder * 100))%float = false ->
     recommended_capacity = ladder) /\
    (1 <= recommended_capacity)%Z /\
    Binary64.sizing 100000 250 = Some (40, 4000, 2)%Z.
Proof.
  split.
  - split; reflexivity.
  - apply (C1_recommended_capacity 100000 250); reflexivity.
Defined.

(** C4, as the code has it.  With a zero bill or a zero roof area the
    estimator still returns a recommendation, and it is the one of the
    smallest system: capacity 1, monthly savings 3300, annual savings 39600,
    payback 2.0. *)
Theorem C4_zero_input_smallest_system
    (monthly_bill roof_area : Q) (property_type : string) :
  monthly_bill == 0 \/ roof_area == 0 ->
  exists r,
    get_solar_recommendation monthly_bill roof_area property_type = Ok r /\
    recommended_capacity r = 1%Z /\
    monthly_savings r == 3300 /\
    annual_savings r == 39600 /\
    payback_period r == 2.
Proof.
  intros H.
  assert (Hc : final_capacity monthly_bill roof_area = 1%Z).
  { unfold final_capacity.
    pose proof (ladder_capacity_range (required_capacity_of monthly_bill)) as Hl.
    destruct H as [Hb | Hr].
    - assert (Hreq : required_capacity_of monthly_bill == 0).
      { unfold required_capacity_of. rewrite Hb. reflexivity. }
      destruct (ladder_capacity_smallest (required_capacity_of monthly_bill))
        as (_ & _ & Hmin); [rewrite Hreq; discriminate|].
      assert (Hone : (ladder_capacity (required_capacity_of monthly_bill) <= 1)%Z).
      { apply Hmin.
        - unfold standard_capacities. now left.
        - rewrite Hreq. discriminate. }
      replace (ladder_capacity (required_capacity_of monthly_bill)) with 1%Z by lia.
      destruct (Qltb roof_area (inject_Z (1 * 100))) eqn:E; [|reflexivity].
      apply Qltb_lt in E. pose proof (py_int_small roof_area E). lia.
    - assert (E : Qltb roof_area
                    (inject_Z (ladder_capacity (required_capacity_of monthly_bill) * 100))
                  = true).
      { apply Qltb_lt. rewrite Hr. change 0 with (inject_Z 0).
        rewrite <- Zlt_Qlt. lia. }
      rewrite E.
      assert (Hsmall : roof_area < 100) by (rewrite Hr; reflexivity).
      pose proof (py_int_small roof_area Hsmall). lia. }
  rewrite get_solar_recommendation_eq. rewrite Hc.
  eexists. split; [reflexivity|]. cbv zeta.
  repeat split; vm_compute; reflexivity.
Qed.

Lemma C4_zero_input_smallest_system_witness :
  (0 == 0 \/ 0 == 0) /\
  exists r,
    get_solar_recommendation 0 0 "residential" = Ok r /\
    recommended_capacity r = 1%Z /\
    monthly_savings r == 3300 /\
    annual_savings r == 39600 /\
    payback_period r == 2.
Proof.
  split.
  - left. reflexivity.
  - apply (C4_zero_input_smallest_system 0 0 "residential"). left. reflexivity.
Defined.

(** C4 as stated fails: a zero bill with a zero roof area gives capacity 1
    and annual savings 39600, neither of them zero. *)
Lemma C4_counterexample :
  exists r,
    get_solar_recommendation 0 0 "residential" = Ok r /\
    recommended_capacity r = 1%Z /\
    recommended_capacity r <> 0%Z /\
    monthly_savings r == 3300 /\
    annual_savings r == 39600 /\
    ~ monthly_savings r == 0 /\
    ~ annual_savings r == 0.
Proof.
  eexists. split; [vm_compute; reflexivity|].
  cbn [recommended_capacity monthly_savings annual_savings].
  repeat split; try discriminate; try reflexivity.
Qed.

(** C5.  For every input the estimator returns a recommendation whose
    [net_metering_eligible] is true exactly when its final
    [recommended_capacity] is at least 5.  A capacity of exactly 5 is
    eligible (bill 15000, roof 1000); a roof override to 4 is not (bill
    100000, roof 450, where [floor(450 / 100) = 4]). *)
Theorem C5_net_metering_eligible
    (monthly_bill roof_area : Q) (property_type : string) :
  exists r,
    get_solar_recommendation monthly_bill roof_area property_type = Ok r /\
    (net_metering_eligible r = true <-> (5 <= recommended_capacity r)%Z) /\
    (exists r5, get_solar_recommendation 15000 1000 property_type = Ok r5 /\
                recommended_capacity r5 = 5%Z /\
                net_metering_eligible r5 = true) /\
    (exists r4, get_solar_recommendation 100000 450 property_type = Ok r4 /\
                required_area r4 = 4000%Z /\
                recommended_capacity r4 = Qfloor (450 / 100) /\
                recommended_capacity r4 = 4%Z /\
                net_metering_eligible r4 = false).
Proof.
  rewrite !get_solar_recommendation_eq.
  eexists. split; [reflexivity|]. cbv zeta.
  cbn [net_metering_eligible recommended_capacity].
  split; [apply Z.leb_le|].
  split; eexists; (split; [reflexivity|]); vm_compute; repeat split; reflexivity.
Qed.

(** C6.  For every input the estimator returns a recommendation: no
    division raises.  Its [payback_period] is the guarded quotient of line
    215 rounded to one decimal: [total_cost / annual_savings] when
    [annual_savings > 0], and 0 when [annual_savings] is 0; the payback is 0
    exactly when the annual savings are 0.  The guard itself never lets a
    zero divisor through, whatever the cost and the savings. *)
Theorem C6_payback_period
    (monthly_bill roof_area : Q) (property_type : string) :
  exists r annual p,
    get_solar_recommendation monthly_bill roof_area property_type = Ok r /\
    annual =
      inject_Z (recommended_capacity r) * (55 # 10) * 30 * (8 # 10)
      * inject_Z 25 * 12 /\
    annual_savings r = py_round annual 2 /\
    payback_years (estimated_cost r) annual = Ok p /\
    payback_period r = py_round p 1 /\
    (0 < annual -> p == inject_Z (estimated_cost r) / annual) /\
    (p == 0 <-> annual == 0) /\
    (payback_period r == 0 <-> annual_savings r == 0) /\
    (forall (total_cost : Z) (savings : Q),
        exists p',
          payback_years total_cost savings = Ok p' /\
          (0 < savings -> p' == inject_Z total_cost / savings) /\
          (savings == 0 -> p' == 0)).
Proof.
  rewrite get_solar_recommendation_eq.
  pose proof (final_capacity_range monthly_bill roof_area) as [Hc _].
  set (c := final_capacity monthly_bill roof_area) in *.
  pose proof (savings_positive c Hc) as Hpos.
  pose proof (payback_value c Hc) as Hval.
  pose proof (savings_value c) as Hsav.
  assert (Hguard : Qltb 0 (inject_Z c * (55 # 10) * 30 * (8 # 10) * inject_Z 25 * 12) = true)
    by now apply Qltb_lt.
  eexists. eexists. eexists.
  split; [reflexivity|]. cbv zeta.
  cbn [recommended_capacity annual_savings estimated_cost payback_period].
  split; [reflexivity|]. split; [reflexivity|].
  split; [apply payback_years_total|].
  split; [reflexivity|].
  rewrite Hguard.
  split; [intros _; reflexivity|].
  split; [|split].
  - rewrite Hval. split; intros H; [discriminate H | lra].
  - rewrite (py_round_payback _ Hval).
    rewrite (py_round_exact _ 2 (c * 3960000)).
    + split; intros H; [discriminate H | lra].
    + rewrite Hsav. rewrite !inject_Z_mult.
      change (inject_Z (10 ^ Z.of_nat 2)) with 100.
      change (inject_Z 39600) with 39600.
      change (inject_Z 3960000) with 3960000. ring.
  - intros total_cost savings. eexists.
    split; [apply payback_years_total|].
    split; intros H.
    + apply Qltb_lt in H. rewrite H. reflexivity.
    + assert (E : Qltb 0 savings = false) by (apply Qltb_ge; rewrite H; discriminate).
      rewrite E. reflexivity.
Qed.

(** C9.  For every input the estimator returns a recommendation whose
    [payback_period] is 2.0: the capacity [c] is at least 1, the cost is
    [c * 80000], the annual savings are [c * 39600], and [80000 / 39600]
    rounds to 2.0 at one decimal.  The bill, the roof area and the property
    type play no part. *)
Theorem C9_payback_constant
    (monthly_bill roof_area : Q) (property_type : string) :
  exists r,
    get_solar_recommendation monthly_bill roof_area property_type = Ok r /\
    (1 <= recommended_capacity r)%Z /\
    estimated_cost r = (recommended_capacity r * 80000)%Z /\
    annual_savings r == inject_Z (recommended_capacity r * 39600) /\
    payback_period r == py_round ((80000 # 1) / (39600 # 1)) 1 /\
    payback_period r == 2.
Proof.
  rewrite get_solar_recommendation_eq.
  pose proof (final_capacity_range monthly_bill roof_area) as [Hc _].
  set (c := final_capacity monthly_bill roof_area) in *.
  pose proof (savings_positive c Hc) as Hpos.
  pose proof (payback_value c Hc) as Hval.
  pose proof (savings_value c) as Hsav.
  assert (Hguard : Qltb 0 (inject_Z c * (55 # 10) * 30 * (8 # 10) * inject_Z 25 * 12) = true)
    by now apply Qltb_lt.
  eexists. split; [reflexivity|]. cbv zeta.
  cbn [recommended_capacity annual_savings estimated_cost payback_period].
  rewrite Hguard.
  split; [exact Hc|]. split; [reflexivity|].
  split; [|split].
  - rewrite (py_round_exact _ 2 (c * 3960000)); [exact Hsav|].
    rewrite Hsav. rewrite !inject_Z_mult.
    change (inject_Z (10 ^ Z.of_nat 2)) with 100.
    change (inject_Z 39600) with 39600.
    change (inject_Z 3960000) with 3960000. ring.
  - rewrite (py_round_payback _ Hval). vm_compute. reflexivity.
  - exact (py_round_payback _ Hval).
Qed.




End EstimatorSpec.

(** * Facts about the workflow *)

Module IntakeFacts.

Import PyNum PyNumFacts Intake.
Local Open Scope Z_scope.
Local Open Scope string_scope.

(** ** White space

    [strip] removes the white space of Unicode: here a no-break space
    (U+00A0), an em space (U+2003), a tab and an ideographic space (U+3000)
    around two words, and a message made of a no-break space alone. *)
Lemma py_strip_unicode :
  py_strip (String (ascii_of_nat 194) (String (ascii_of_nat 160)
             (String (ascii_of_nat 226) (String (ascii_of_nat 128)
             (String (ascii_of_nat 131)
             (String (ascii_of_nat 9)
             ("no objection"
              ++ String (ascii_of_nat 227) (String (ascii_of_nat 128)
                 (String (ascii_of_nat 128) " ")))))))))
  = "no objection" /\
  py_strip (String (ascii_of_nat 194) (String (ascii_of_nat 160) "")) = "".
Proof. split; vm_compute; reflexivity. Qed.

(** ** Dictionaries *)

Lemma dict_mem_set {V : Type} (d : list (string * V)) (k k' : string) (v : V) :
  dict_mem k' (dict_set d k v) = (k =? k') || dict_mem k' d.
Proof.
  unfold dict_mem. induction d as [|[k0 v0] d IH]; simpl.
  - destruct (k =? k'); reflexivity.
  - destruct (k0 =? k) eqn:E0; simpl.
    + apply String.eqb_eq in E0. subst k0.
      destruct (k =? k'); reflexivity.
    + destruct (k0 =? k') eqn:E1.
      * now rewrite orb_true_r.
      * exact IH.
Qed.

(** ** The upload loop *)

Lemma save_upload_mem (env : Env) (req : Request)
    (docs : list (string * string)) (draws : nat) (field d : string) :
  dict_mem d (fst (save_upload env req (docs, draws) field))
  = ((field =? d) && has_upload req field) || dict_mem d docs.
Proof.
  unfold save_upload, has_upload.
  destruct (dict_get (files req) field) as [fn|].
  - destruct (negb (fn =? "")); simpl.
    + rewrite dict_mem_set. now rewrite andb_true_r.
    + now rewrite andb_false_r.
  - simpl. now rewrite andb_false_r.
Qed.

(** After the loop a document is stored exactly when it was stored before
    or is one of the fields visited and the request carries it. *)
Lemma uploads_mem (env : Env) (req : Request) (fields : list string)
    (docs : list (string * string)) (draws : nat) (d : string) :
  dict_mem d (fst (fold_left (save_upload env req) fields (docs, draws)))
  = (existsb (fun f => f =? d) fields && has_upload req d) || dict_mem d docs.
Proof.
  revert docs draws. induction fields as [|f fields IH]; intros docs draws.
  - reflexivity.
  - cbn [fold_left existsb].
    destruct (save_upload env req (docs, draws) f) as [docs' draws'] eqn:E.
    rewrite IH.
    assert (H := save_upload_mem env req docs draws f d).
    rewrite E in H. cbn [fst] in H. rewrite H.
    destruct (f =? d) eqn:Efd.
    + apply String.eqb_eq in Efd. subst f.
      destruct (has_upload req d), (existsb (fun f => f =? d) fields),
        (dict_mem d docs); reflexivity.
    + destruct (has_upload req d), (existsb (fun f => f =? d) fields),
        (dict_mem d docs); reflexivity.
Qed.

Lemma missing_documents_eq (env : Env) (req : Request)
    (fields required : list string) :
  (forall d, In d required -> existsb (fun f => f =? d) fields = true) ->
  missing_documents required
    (fst (fold_left (save_upload env req) fields ([], O)))
  = map display_name (not_uploaded req required).
Proof.
  intros Hcover. unfold missing_documents, not_uploaded. f_equal.
  apply filter_ext_in. intros d Hd.
  rewrite uploads_mem, (Hcover d Hd). cbn [andb].
  unfold dict_mem at 1. cbn [dict_get]. now rewrite orb_false_r.
Qed.

(** ** The metering form, past its field checks *)

Lemma metering_required_docs_eq (ownership_type : string) :
  (base_documents
   ++ (if ownership_type =? "owner" then ["land_ownership"] else []))%list
  = metering_required_documents ownership_type.
Proof.
  unfold metering_required_documents, base_documents.
  destruct (ownership_type =? "owner"); reflexivity.
Qed.

Lemma metering_fields_cover (ownership_type d : string) :
  In d (metering_required_documents ownership_type) ->
  existsb (fun f => f =? d)
    (base_documents
     ++ [if ownership_type =? "owner" then "land_ownership" else "noc_document"])%list
  = true.
Proof.
  unfold metering_required_documents, base_documents.
  destruct (ownership_type =? "owner"); simpl;
    intros H; repeat (destruct H as [<- | H]; [reflexivity|]); contradiction.
Qed.

Lemma tenant_not_owner (ownership_type : string) :
  (ownership_type =? "tenant") = true -> (ownership_type =? "owner") = false.
Proof. intros H. apply String.eqb_eq in H. now subst. Qed.

Lemma apply_metering_after_checks
    (env : Env) (req : Request) (db : Database) (cap : Q) (units : Z) :
  method req = POST ->
  py_float env (form_get req "system_capacity") = Ok cap ->
  form_int_default env req "consumption_units" 0 = Ok units ->
  truthy (form_get req "application_type") && negb (Qeq_bool cap 0)
    && truthy (form_get req "property_address") = true ->
  Qltb cap 1 || Qltb 50 cap = false ->
  is_str (form_get req "application_type") "net" && Qltb cap 5 = false ->
  apply_metering env req db =
  let ownership_type := form_get_default req "ownership_type" "owner" in
  let state :=
    fold_left (save_upload env req)
      (base_documents
       ++ [if ownership_type =? "owner" then "land_ownership" else "noc_document"])%list
      ([], O) in
  let reference_number :=
    generate_reference env (snd state) (form_get req "application_type") in
  if (ownership_type =? "tenant") && negb (noc_supplied req)
  then
    Ok (flash_and_redirect
          "Tenants must provide either a NOC document (stamp paper) or a NOC message"
          "danger" "apply_metering", db)
  else
    let missing :=
      map display_name
          (not_uploaded req (metering_required_documents ownership_type)) in
    match missing with
    | _ :: _ =>
        Ok (flash_and_redirect
              ("Please upload required documents: " ++ String.concat ", " missing)
              "danger" "apply_metering", db)
    | [] =>
        bind (db_add_commit
                (new_application env req (form_get req "application_type") cap
                   units (form_get req "property_type")
                   (form_get req "property_address") ownership_type (fst state)
                   (if ownership_type =? "tenant"
                    then Some (form_get_default req "noc_message" "") else None)
                   reference_number) db)
             (fun db' =>
                Ok (flash_and_redirect
                      ("Application submitted successfully! Reference: "
                       ++ reference_number)
                      "success" "client_dashboard", db'))
    end.
Proof.
  intros Hm Hcap Hunits H1 H2 H3.
  unfold apply_metering. rewrite Hm, Hcap. cbn [bind].
  rewrite Hunits. cbn [bind]. rewrite H1, H2, H3. cbn [negb].
  cbv zeta.
  set (own := form_get_default req "ownership_type" "owner").
  rewrite metering_required_docs_eq.
  pose proof (missing_documents_eq env req
                (base_documents
                 ++ [if own =? "owner" then "land_ownership" else "noc_document"])%list
                (metering_required_documents own)
                (metering_fields_cover own)) as Hmiss.
  pose proof (uploads_mem env req
                (base_documents
                 ++ [if own =? "owner" then "land_ownership" else "noc_document"])%list
                [] O "noc_document") as Hnoc.
  destruct (fold_left (save_upload env req) _ ([], O)) as [docs draws].
  cbn [fst snd] in *. rewrite Hmiss.
  assert (Hcond :
    negb (own =? "owner") && (own =? "tenant")
      && negb (dict_mem "noc_document" docs)
      && negb (truthy (Some (py_strip (form_get_default req "noc_message" ""))))
    = (own =? "tenant") && negb (noc_supplied req)).
  { destruct (own =? "tenant") eqn:Et.
    - rewrite (tenant_not_owner own Et) in *. rewrite Hnoc.
      unfold noc_supplied, truthy, base_documents. cbn.
      destruct (has_upload req "noc_document"); cbn; [reflexivity|].
      now rewrite negb_involutive.
    - now rewrite andb_false_r. }
  rewrite Hcond. reflexivity.
Qed.

(** ** The simple-solar form, past its field checks *)

Lemma solar_fields_cover (d : string) :
  In d solar_required_documents ->
  existsb (fun f => f =? d) base_documents = true.
Proof.
  unfold solar_required_documents, base_documents. simpl.
  intros H; repeat (destruct H as [<- | H]; [reflexivity|]); contradiction.
Qed.

Lemma apply_solar_setup_after_checks
    (env : Env) (req : Request) (db : Database) (cap : Q) (units : Z) :
  method req = POST ->
  form_float_default env req "system_capacity" 0 = Ok cap ->
  form_int_default env req "consumption_units" 0 = Ok units ->
  negb (Qeq_bool cap 0)
    && truthy (Some (form_get_default req "property_address" "")) = true ->
  Qltb cap 1 || Qltb 50 cap = false ->
  apply_solar_setup env req db =
  let state := fold_left (save_upload env req) base_documents ([], O) in
  let reference_number :=
    generate_reference env (snd state) (Some "simple_solar") in
  let missing := map display_name (not_uploaded req solar_required_documents) in
  match missing with
  | _ :: _ =>
      Ok (flash_and_redirect
            ("Please upload required documents: " ++ String.concat ", " missing)
            "danger" "apply_solar_setup", db)
  | [] =>
      bind (db_add_commit
              (new_application env req (Some "simple_solar") cap units
                 (Some (form_get_default req "property_type" "residential"))
                 (Some (form_get_default req "property_address" ""))
                 "owner" (fst state) None reference_number) db)
           (fun db' =>
              Ok (flash_and_redirect
                    ("Solar setup application submitted! Reference: "
                     ++ reference_number)
                    "success" "client_dashboard", db'))
  end.
Proof.
  intros Hm Hcap Hunits H1 H2.
  unfold apply_solar_setup. rewrite Hm, Hcap. cbn [bind].
  rewrite Hunits. cbn [bind]. rewrite H1, H2. cbn [negb].
  cbv zeta.
  pose proof (missing_documents_eq env req base_documents
                solar_required_documents solar_fields_cover) as Hmiss.
  destruct (fold_left (save_upload env req) _ ([], O)) as [docs draws].
  cbn [fst snd] in *.
  change (missing_documents base_documents docs)
    with (missing_documents solar_required_documents docs).
  rewrite Hmiss. reflexivity.
Qed.

(** ** The table *)

Lemma db_add_commit_ok (application : MeteringApplication) (db db' : Database) :
  db_add_commit application db = Ok db' ->
  db' = (db ++ [with_id application (next_id db)])%list /\
  forall a r, In a db -> reference_number application = Some r ->
              is_str (reference_number a) r = false.
Proof.
  unfold db_add_commit.
  destruct (application_type application); [|discriminate].
  destruct (property_address application); [|discriminate].
  destruct (existsb _ db) eqn:E; [discriminate|].
  intros H. injection H as <-.
  split; [reflexivity|].
  intros a r Ha Hr.
  unfold is_str. destruct (reference_number a) as [r'|] eqn:Ea; [|reflexivity].
  destruct (r' =? r) eqn:Er; [|reflexivity].
  assert (Hex : existsb (fun a =>
                  match reference_number a, reference_number application with
                  | Some r, Some r' => r =? r'
                  | _, _ => false
                  end) db = true).
  { apply existsb_exists. exists a. split; [exact Ha|]. now rewrite Ea, Hr. }
  congruence.
Qed.

Lemma query_by_reference_last (db : Database) (row : MeteringApplication) (r : string) :
  reference_number row = Some r ->
  (forall a, In a db -> is_str (reference_number a) r = false) ->
  query_by_reference (db ++ [row])%list r = Some row.
Proof.
  intros Hrow Hdb. unfold query_by_reference.
  induction db as [|a db IH]; simpl.
  - rewrite Hrow. simpl. now rewrite String.eqb_refl.
  - rewrite (Hdb a) by now left. apply IH.
    intros a' Ha'. apply Hdb. now right.
Qed.

Lemma query_by_reference_none (db : Database) (r : string) :
  (forall a, In a db -> reference_number a <> Some r) ->
  query_by_reference db r = None.
Proof.
  intros H. unfold query_by_reference.
  destruct (find _ db) as [a|] eqn:E; [|reflexivity].
  apply find_some in E. destruct E as [Ha Hr].
  exfalso. apply (H a Ha). unfold is_str in Hr.
  destruct (reference_number a); [|discriminate].
  apply String.eqb_eq in Hr. now subst.
Qed.

(** ** When an application is created *)

Ltac not_created H Hs :=
  injection H as <- <-; cbn in Hs; discriminate Hs.

Lemma apply_metering_created
    (env : Env) (req : Request) (db db' : Database) (out : Outcome) :
  apply_metering env req db = Ok (out, db') ->
  succeeded out = true ->
  exists cap units docs draws,
    py_float env (form_get req "system_capacity") = Ok cap /\
    db_add_commit
      (new_application env req (form_get req "application_type") cap units
         (form_get req "property_type") (form_get req "property_address")
         (form_get_default req "ownership_type" "owner") docs
         (if form_get_default req "ownership_type" "owner" =? "tenant"
          then Some (form_get_default req "noc_message" "") else None)
         (generate_reference env draws (form_get req "application_type")))
      db = Ok db' /\
    out = flash_and_redirect
            ("Application submitted successfully! Reference: "
             ++ generate_reference env draws (form_get req "application_type"))
            "success" "client_dashboard".
Proof.
  intros H Hs.
  destruct (method req) eqn:Hm.
  { unfold apply_metering in H. rewrite Hm in H. not_created H Hs. }
  destruct (py_float env (form_get req "system_capacity")) as [cap|e] eqn:Hcap.
  2:{ unfold apply_metering in H. rewrite Hm, Hcap in H. discriminate H. }
  destruct (form_int_default env req "consumption_units" 0) as [units|e] eqn:Hu.
  2:{ unfold apply_metering in H. rewrite Hm, Hcap in H. cbn [bind] in H.
      rewrite Hu in H. discriminate H. }
  destruct (truthy (form_get req "application_type") && negb (Qeq_bool cap 0)
            && truthy (form_get req "property_address")) eqn:H1.
  2:{ unfold apply_metering in H. rewrite Hm, Hcap in H. cbn [bind] in H.
      rewrite Hu in H. cbn [bind] in H. rewrite H1 in H. cbn [negb] in H.
      not_created H Hs. }
  destruct (Qltb cap 1 || Qltb 50 cap) eqn:H2.
  { unfold apply_metering in H. rewrite Hm, Hcap in H. cbn [bind] in H.
    rewrite Hu in H. cbn [bind] in H. rewrite H1, H2 in H. cbn [negb] in H.
    not_created H Hs. }
  destruct (is_str (form_get req "application_type") "net" && Qltb cap 5) eqn:H3.
  { unfold apply_metering in H. rewrite Hm, Hcap in H. cbn [bind] in H.
    rewrite Hu in H. cbn [bind] in H. rewrite H1, H2, H3 in H. cbn [negb] in H.
    not_created H Hs. }
  rewrite (apply_metering_after_checks env req db cap units Hm Hcap Hu H1 H2 H3) in H.
  cbv zeta in H.
  destruct (_ && negb (noc_supplied req)); [not_created H Hs|].
  destruct (map display_name _); [|not_created H Hs].
  destruct (db_add_commit _ db) as [db''|e] eqn:Hc; [|discriminate H].
  cbn [bind] in H. injection H as <- <-.
  exists cap, units. eexists. eexists.
  split; [reflexivity|]. split; [exact Hc|]. reflexivity.
Qed.

Lemma apply_solar_setup_created
    (env : Env) (req : Request) (db db' : Database) (out : Outcome) :
  apply_solar_setup env req db = Ok (out, db') ->
  succeeded out = true ->
  exists cap units docs draws,
    form_float_default env req "system_capacity" 0 = Ok cap /\
    db_add_commit
      (new_application env req (Some "simple_solar") cap units
         (Some (form_get_default req "property_type" "residential"))
         (Some (form_get_default req "property_address" ""))
         "owner" docs None
         (generate_reference env draws (Some "simple_solar")))
      db = Ok db' /\
    out = flash_and_redirect
            ("Solar setup application submitted! Reference: "
             ++ generate_reference env draws (Some "simple_solar"))
            "success" "client_dashboard".
Proof.
  intros H Hs.
  destruct (method req) eqn:Hm.
  { unfold apply_solar_setup in H. rewrite Hm in H. not_created H Hs. }
  destruct (form_float_default env req "system_capacity" 0) as [cap|e] eqn:Hcap.
  2:{ unfold apply_solar_setup in H. rewrite Hm, Hcap in H. discriminate H. }
  destruct (form_int_default env req "consumption_units" 0) as [units|e] eqn:Hu.
  2:{ unfold apply_solar_setup in H. rewrite Hm, Hcap in H. cbn [bind] in H.
      rewrite Hu in H. discriminate H. }
  destruct (negb (Qeq_bool cap 0)
            && truthy (Some (form_get_default req "property_address" ""))) eqn:H1.
  2:{ unfold apply_solar_setup in H. rewrite Hm, Hcap in H. cbn [bind] in H.
      rewrite Hu in H. cbn [bind] in H. rewrite H1 in H. cbn [negb] in H.
      not_created H Hs. }
  destruct (Qltb cap 1 || Qltb 50 cap) eqn:H2.
  { unfold apply_solar_setup in H. rewrite Hm, Hcap in H. cbn [bind] in H.
    rewrite Hu in H. cbn [bind] in H. rewrite H1, H2 in H. cbn [negb] in H.
    not_created H Hs. }
  rewrite (apply_solar_setup_after_checks env req db cap units Hm Hcap Hu H1 H2) in H.
  cbv zeta in H.
  destruct (map display_name _); [|not_created H Hs].
  destruct (db_add_commit _ db) as [db''|e] eqn:Hc; [|discriminate H].
  cbn [bind] in H. injection H as <- <-.
  exists cap, units. eexists. eexists.
  split; [reflexivity|]. split; [exact Hc|]. reflexivity.
Qed.

(** A created row, looked up by its reference. *)
Lemma lookup_created
    (application : MeteringApplication) (db db' : Database) (r : string) :
  db_add_commit application db = Ok db' ->
  reference_number application = Some r ->
  db' = (db ++ [with_id application (next_id db)])%list /\
  api_application_status r db' =
  jsonify
    [("reference_number", JString r);
     ("type", json_of_column (application_type application));
     ("capacity", JNumber (system_capacity application));
     ("status", json_of_column (status application));
     ("submitted_at", JString (strftime_Y_m_d (submitted_at application)));
     ("updated_at", JString (strftime_Y_m_d (updated_at application)))]
    200.
Proof.
  intros Hc Hr. apply db_add_commit_ok in Hc. destruct Hc as [-> Huniq].
  split; [reflexivity|].
  unfold api_application_status.
  rewrite (query_by_reference_last db (with_id application (next_id db)) r).
  - cbn. now rewrite Hr.
  - exact Hr.
  - intros a Ha. now apply (Huniq a r).
Qed.

(** ** The admin update *)

Lemma query_get_id (db : Database) (app_id : Z) (a : MeteringApplication) :
  query_get db app_id = Some a -> id a = app_id.
Proof.
  unfold query_get. intros H. apply find_some in H.
  destruct H as [_ H]. now apply Z.eqb_eq in H.
Qed.

Lemma query_get_update (db : Database) (app_id : Z) (a b : MeteringApplication) :
  query_get db app_id = Some a -> id b = app_id ->
  query_get (db_update db app_id b) app_id = Some b.
Proof.
  unfold query_get. intros H Hb.
  induction db as [|x db IH]; simpl in *; [discriminate|].
  destruct (id x =? app_id)%Z eqn:E; simpl.
  - now rewrite Hb, Z.eqb_refl.
  - rewrite E. auto.
Qed.

Lemma db_update_twice (db : Database) (app_id : Z) (b c : MeteringApplication) :
  id b = app_id ->
  db_update (db_update db app_id b) app_id c = db_update db app_id c.
Proof.
  intros Hb. induction db as [|x db IH]; simpl; [reflexivity|].
  destruct (id x =? app_id)%Z eqn:E; simpl.
  - now rewrite Hb, Z.eqb_refl.
  - rewrite E. now rewrite IH.
Qed.

Lemma db_update_related
    (R : MeteringApplication -> MeteringApplication -> Prop)
    (db : Database) (app_id : Z) (a b : MeteringApplication) :
  (forall x, R x x) ->
  query_get db app_id = Some a -> R a b ->
  Forall2 R db (db_update db app_id b).
Proof.
  intros Hrefl H Hab. unfold query_get in H.
  induction db as [|x db IH]; simpl in *; [constructor|].
  destruct (id x =? app_id)%Z eqn:E.
  - injection H as ->. constructor; [exact Hab|].
    clear - Hrefl. induction db; constructor; auto.
  - constructor; auto.
Qed.

Lemma Forall2_same (R : MeteringApplication -> MeteringApplication -> Prop)
    (db : Database) :
  (forall x, R x x) -> Forall2 R db db.
Proof. intros H. induction db; constructor; auto. Qed.

Lemma admin_update_found
    (env : Env) (req : Request) (app_id : Z) (db : Database)
    (a : MeteringApplication) :
  method req = POST -> query_get db app_id = Some a ->
  snd (admin_application_detail env req app_id db)
  = db_update db app_id
      (with_admin_update a (form_get req "status") (form_get req "admin_notes")
         (utcnow env)).
Proof.
  intros Hm Hq. unfold admin_application_detail. now rewrite Hq, Hm.
Qed.

Lemma admin_update_missing
    (env : Env) (req : Request) (app_id : Z) (db : Database) :
  query_get db app_id = None ->
  snd (admin_application_detail env req app_id db) = db.
Proof.
  intros Hq. unfold admin_application_detail. now rewrite Hq.
Qed.

(** ** The field checks, from their statement *)

Lemma is_str_true (v : option string) (s : string) :
  is_str v s = true -> v = Some s.
Proof.
  destruct v as [s'|]; simpl; [|discriminate].
  intros H. apply String.eqb_eq in H. now subst.
Qed.

Lemma capacity_in_range (cap : Q) :
  (1 <= cap)%Q -> (cap <= 50)%Q ->
  Qeq_bool cap 0 = false /\ Qltb cap 1 || Qltb 50 cap = false.
Proof.
  intros Hlo Hhi. split.
  - destruct (Qeq_bool cap 0) eqn:E; [|reflexivity].
    apply Qeq_bool_iff in E. rewrite E in Hlo.
    exfalso. exact (Qlt_not_le 0 1 eq_refl Hlo).
  - apply orb_false_iff. split; now apply Qltb_ge.
Qed.

Lemma net_check_passes (application_type : option string) (cap : Q) :
  (application_type = Some "net" -> (5 <= cap)%Q) ->
  is_str application_type "net" && Qltb cap 5 = false.
Proof.
  intros H. destruct (is_str application_type "net") eqn:E; [|reflexivity].
  apply is_str_true in E. simpl. apply Qltb_ge. auto.
Qed.

Lemma not_uploaded_complete (req : Request) (required : list string) :
  not_uploaded req required = [] ->
  forall d, In d required -> has_upload req d = true.
Proof.
  unfold not_uploaded. intros H d Hd.
  destruct (has_upload req d) eqn:E; [reflexivity|].
  assert (Hin : In d (filter (fun d => negb (has_upload req d)) required)).
  { apply filter_In. split; [exact Hd | now rewrite E]. }
  rewrite H in Hin. contradiction.
Qed.

End IntakeFacts.

(** * The estimator in binary64

    The rational model and the binary64 run of the same lines agree on the
    inputs the statements above evaluate, and the payback of every capacity
    the estimator can return rounds to 2.0 in binary64 too. *)

Module Binary64Checks.

Import PyNum PyNumFacts Estimator EstimatorFacts Binary64.
#[local] Set Warnings "-inexact-float".

Lemma binary64_sizing_examples :
  sizing 0 0 = Some (1, 100, 1)%Z /\
  sizing 100 50 = Some (1, 100, 1)%Z /\
  sizing 100000 250 = Some (40, 4000, 2)%Z /\
  sizing 100000 450 = Some (40, 4000, 4)%Z /\
  sizing 15000 1000 = Some (5, 500, 5)%Z.
Proof. repeat split; vm_compute; reflexivity. Qed.

Lemma binary64_agrees_on_examples :
  agrees 0 0 0 0 /\
  agrees 100 50 100 50 /\
  agrees 100000 250 100000 250 /\
  agrees 100000 450 100000 450 /\
  agrees 15000 1000 15000 1000.
Proof. repeat split; vm_compute; reflexivity. Qed.

Lemma binary64_payback_constant (c : Z) :
  (1 <= c <= 50)%Z -> payback_rounds_to_2 c = true.
Proof.
  intros Hc.
  assert (Hall : forallb payback_rounds_to_2 (map Z.of_nat (seq 1 50)) = true)
    by (vm_compute; reflexivity).
  rewrite forallb_forall in Hall. apply Hall.
  rewrite <- (Z2Nat.id c) by lia. apply in_map. apply in_seq. lia.
Qed.

End Binary64Checks.

(** * The workflow against its specification *)

Module IntakeSpec.

Import PyNum PyNumFacts Intake IntakeFacts Sample.
Local Open Scope Z_scope.
Local Open Scope string_scope.

(** C2.  On the metering form a request without its [system_capacity] field
    is not rejected as a missing field: [float(None)] raises a [TypeError]
    before the field checks are reached, and no row is created.  The
    simple-solar form, which reads the field with a default, rejects the
    same absence with "All required fields must be filled".  When the field
    is there and parses, the metering form does check in order and rejects,
    leaving the table as it was: an empty [application_type] or
    [property_address] or a zero capacity as a missing field, then a
    capacity outside [1, 50], then a net application below 5 kW. *)
Theorem C2_absent_capacity_raises (env : Env) (req : Request) (db : Database) :
  method req = POST ->
  (form_get req "system_capacity" = None ->
   apply_metering env req db = Raise TypeError /\
   (forall units,
       form_int_default env req "consumption_units" 0 = Ok units ->
       rejected (apply_solar_setup env req db)
                "All required fields must be filled" "apply_solar_setup" db)) /\
  (forall cap units,
      py_float env (form_get req "system_capacity") = Ok cap ->
      form_int_default env req "consumption_units" 0 = Ok units ->
      (truthy (form_get req "application_type") = false \/ (cap == 0)%Q \/
       truthy (form_get req "property_address") = false ->
       rejected (apply_metering env req db)
                "All required fields must be filled" "apply_metering" db) /\
      (truthy (form_get req "application_type") = true ->
       truthy (form_get req "property_address") = true ->
       ~ (cap == 0)%Q ->
       (cap < 1)%Q \/ (50 < cap)%Q ->
       rejected (apply_metering env req db)
                "System capacity must be between 1kW and 50kW"
                "apply_metering" db) /\
      (form_get req "application_type" = Some "net" ->
       truthy (form_get req "property_address") = true ->
       (1 <= cap)%Q -> (cap < 5)%Q ->
       rejected (apply_metering env req db)
                "Net metering requires system capacity of 5kW or greater"
                "apply_metering" db)).
Proof.
  intros Hm. split.
  - intros Hcap. split.
    + unfold apply_metering. rewrite Hm, Hcap. reflexivity.
    + intros units Hu. unfold rejected, apply_solar_setup, form_float_default.
      rewrite Hm, Hcap. cbn [bind]. rewrite Hu. reflexivity.
  - intros cap units Hcap Hu.
    split; [|split].
    + intros Hmissing. unfold rejected, apply_metering.
      rewrite Hm, Hcap. cbn [bind]. rewrite Hu. cbn [bind].
      assert (E : truthy (form_get req "application_type")
                  && negb (Qeq_bool cap 0)
                  && truthy (form_get req "property_address") = false).
      { destruct Hmissing as [H | [H | H]].
        - now rewrite H.
        - apply Qeq_bool_iff in H. rewrite H. now rewrite andb_false_r.
        - rewrite H. now rewrite andb_false_r. }
      rewrite E. reflexivity.
    + intros Htype Haddr Hnz Hout. unfold rejected, apply_metering.
      rewrite Hm, Hcap. cbn [bind]. rewrite Hu. cbn [bind].
      rewrite Htype, Haddr.
      assert (E0 : Qeq_bool cap 0 = false).
      { destruct (Qeq_bool cap 0) eqn:E; [|reflexivity].
        apply Qeq_bool_iff in E. contradiction. }
      rewrite E0. cbn [negb andb].
      assert (E1 : Qltb cap 1 || Qltb 50 cap = true).
      { apply orb_true_iff. destruct Hout as [H | H]; [left | right];
          now apply Qltb_lt. }
      rewrite E1. reflexivity.
    + intros Htype Haddr Hlo Hlt. unfold rejected, apply_metering.
      rewrite Hm, Hcap. cbn [bind]. rewrite Hu. cbn [bind].
      rewrite Htype, Haddr.
      assert (E0 : Qeq_bool cap 0 = false).
      { destruct (Qeq_bool cap 0) eqn:E; [|reflexivity].
        apply Qeq_bool_iff in E. rewrite E in Hlo.
        exfalso. exact (Qlt_not_le 0 1 eq_refl Hlo). }
      rewrite E0.
      assert (E1 : Qltb cap 1 = false) by now apply Qltb_ge.
      assert (E2 : Qltb 50 cap = false) by (apply Qltb_ge; lra).
      assert (E3 : Qltb cap 5 = true) by now apply Qltb_lt.
      rewrite E1, E2, E3. reflexivity.
Qed.

Lemma C2_absent_capacity_raises_witness :
  (method net_request_without_capacity = POST /\
   form_get net_request_without_capacity "system_capacity" = None) /\
  apply_metering sample_env net_request_without_capacity [] = Raise TypeError /\
  (forall units,
      form_int_default sample_env net_request_without_capacity
        "consumption_units" 0 = Ok units ->
      rejected (apply_solar_setup sample_env net_request_without_capacity [])
               "All required fields must be filled" "apply_solar_setup" []).
Proof.
  split.
  - split; reflexivity.
  - exact (proj1 (C2_absent_capacity_raises sample_env
                    net_request_without_capacity [] eq_refl) eq_refl).
Defined.

(** C3, as the code has it.  Past the field checks, the metering form
    requires exactly [electricity_bill], [cnic_front] and [cnic_back], plus
    [land_ownership] when [ownership_type] is [owner], whatever the
    [application_type]; a tenant who supplies neither an uploaded
    [noc_document] nor a [noc_message] that is not blank is rejected; a
    request that lacks a required document is rejected with the list of the
    missing names; any other request goes on to the insert, with every
    required document stored.  The simple-solar form requires the three base
    documents only, never reads [ownership_type] or a NOC, and records
    [simple_solar] as the type.  A rejection leaves the table as it was. *)
Theorem C3_required_documents
    (env : Env) (req : Request) (db : Database) (cap : Q) (units : Z) :
  method req = POST ->
  form_int_default env req "consumption_units" 0 = Ok units ->
  (1 <= cap)%Q -> (cap <= 50)%Q ->
  (forall ownership_type d,
      In d (metering_required_documents ownership_type) <->
      d = "electricity_bill" \/ d = "cnic_front" \/ d = "cnic_back" \/
      (ownership_type = "owner" /\ d = "land_ownership")) /\
  (py_float env (form_get req "system_capacity") = Ok cap ->
   truthy (form_get req "application_type") = true ->
   truthy (form_get req "property_address") = true ->
   (form_get req "application_type" = Some "net" -> (5 <= cap)%Q) ->
   let ownership_type := form_get_default req "ownership_type" "owner" in
   let missing := not_uploaded req (metering_required_documents ownership_type) in
   (ownership_type = "tenant" -> noc_supplied req = false ->
    rejected (apply_metering env req db)
      "Tenants must provide either a NOC document (stamp paper) or a NOC message"
      "apply_metering" db) /\
   ((ownership_type = "tenant" -> noc_supplied req = true) ->
    missing <> [] ->
    rejected (apply_metering env req db)
      ("Please upload required documents: "
       ++ String.concat ", " (map display_name missing))
      "apply_metering" db) /\
   ((ownership_type = "tenant" -> noc_supplied req = true) ->
    missing = [] ->
    exists application reference,
      apply_metering env req db =
      bind (db_add_commit application db)
           (fun db' =>
              Ok (flash_and_redirect
                    ("Application submitted successfully! Reference: " ++ reference)
                    "success" "client_dashboard", db')) /\
      application_type application = form_get req "application_type" /\
      forall d, In d (metering_required_documents ownership_type) ->
                dict_mem d (documents application) = true)) /\
  (form_float_default env req "system_capacity" 0 = Ok cap ->
   form_get_default req "property_address" "" <> "" ->
   let missing := not_uploaded req solar_required_documents in
   (missing <> [] ->
    rejected (apply_solar_setup env req db)
      ("Please upload required documents: "
       ++ String.concat ", " (map display_name missing))
      "apply_solar_setup" db) /\
   (missing = [] ->
    exists application reference,
      apply_solar_setup env req db =
      bind (db_add_commit application db)
           (fun db' =>
              Ok (flash_and_redirect
                    ("Solar setup application submitted! Reference: " ++ reference)
                    "success" "client_dashboard", db')) /\
      application_type application = Some "simple_solar" /\
      forall d, In d solar_required_documents ->
                dict_mem d (documents application) = true)).
Proof.
  intros Hm Hu Hlo Hhi.
  destruct (capacity_in_range cap Hlo Hhi) as [Hnz Hrange].
  split; [|split].
  - intros own d. unfold metering_required_documents.
    destruct (own =? "owner") eqn:E.
    + apply String.eqb_eq in E. subst own. simpl. intuition congruence.
    + apply String.eqb_neq in E. simpl. intuition congruence.
  - intros Hcap Htype Haddr Hnet. cbv zeta.
    assert (H1 : truthy (form_get req "application_type") && negb (Qeq_bool cap 0)
                 && truthy (form_get req "property_address") = true)
      by now rewrite Htype, Haddr, Hnz.
    pose proof (net_check_passes _ cap Hnet) as H3.
    pose proof (apply_metering_after_checks env req db cap units
                  Hm Hcap Hu H1 Hrange H3) as Heq.
    cbv zeta in Heq.
    set (own := form_get_default req "ownership_type" "owner") in *.
    split; [|split].
    + intros Hten Hnoc. unfold rejected. rewrite Heq.
      rewrite Hten, Hnoc. reflexivity.
    + intros Hnoc Hmiss. unfold rejected. rewrite Heq.
      assert (Hc : (own =? "tenant") && negb (noc_supplied req) = false).
      { destruct (own =? "tenant") eqn:E; [|reflexivity].
        apply String.eqb_eq in E. now rewrite (Hnoc E). }
      rewrite Hc.
      destruct (not_uploaded req (metering_required_documents own));
        [congruence | reflexivity].
    + intros Hnoc Hmiss.
      assert (Hc : (own =? "tenant") && negb (noc_supplied req) = false).
      { destruct (own =? "tenant") eqn:E; [|reflexivity].
        apply String.eqb_eq in E. now rewrite (Hnoc E). }
      rewrite Hc, Hmiss in Heq. cbn [map] in Heq.
      eexists. eexists. split; [exact Heq|].
      split; [reflexivity|].
      intros d Hd. cbn [documents new_application].
      rewrite uploads_mem, (metering_fields_cover own d Hd).
      now rewrite (not_uploaded_complete req _ Hmiss d Hd).
  - intros Hcap Haddr. cbv zeta.
    assert (H1 : negb (Qeq_bool cap 0)
                 && truthy (Some (form_get_default req "property_address" "")) = true).
    { rewrite Hnz. simpl. apply negb_true_iff. now apply String.eqb_neq. }
    pose proof (apply_solar_setup_after_checks env req db cap units
                  Hm Hcap Hu H1 Hrange) as Heq.
    cbv zeta in Heq.
    split.
    + intros Hmiss. unfold rejected. rewrite Heq.
      destruct (not_uploaded req solar_required_documents);
        [congruence | reflexivity].
    + intros Hmiss. rewrite Hmiss in Heq. cbn [map] in Heq.
      eexists. eexists. split; [exact Heq|].
      split; [reflexivity|].
      intros d Hd. cbn [documents new_application].
      rewrite uploads_mem, (solar_fields_cover d Hd).
      now rewrite (not_uploaded_complete req _ Hmiss d Hd).
Qed.

Lemma C3_required_documents_witness :
  (method solar_on_metering_form_owner = POST /\
   form_int_default sample_env solar_on_metering_form_owner
     "consumption_units" 0 = Ok 0 /\
   (1 <= 3)%Q /\ (3 <= 50)%Q) /\
  rejected (apply_metering sample_env solar_on_metering_form_owner [])
    "Please upload required documents: Land Ownership" "apply_metering" [] /\
  exists application reference,
    apply_solar_setup sample_env solar_request_tenant [] =
    bind (db_add_commit application [])
         (fun db' =>
            Ok (flash_and_redirect
                  ("Solar setup application submitted! Reference: " ++ reference)
                  "success" "client_dashboard", db')) /\
    application_type application = Some "simple_solar" /\
    forall d, In d solar_required_documents ->
              dict_mem d (documents application) = true.
Proof.
  assert (Hlo : (1 <= 3)%Q) by discriminate.
  assert (Hhi : (3 <= 50)%Q) by discriminate.
  split; [repeat split; assumption|].
  split.
  - destruct (C3_required_documents sample_env solar_on_metering_form_owner [] 3 0
                eq_refl eq_refl Hlo Hhi) as (_ & Hmetering & _).
    destruct (Hmetering eq_refl eq_refl eq_refl) as (_ & Hmissing & _).
    { intros H. discriminate H. }
    apply Hmissing.
    + intros H. discriminate H.
    + intros H. discriminate H.
  - destruct (C3_required_documents sample_env solar_request_tenant [] 3 0
                eq_refl eq_refl Hlo Hhi) as (_ & _ & Hsolar).
    destruct (Hsolar eq_refl) as (_ & Hcomplete).
    { intros H. discriminate H. }
    apply Hcomplete. reflexivity.
Defined.

(** C3 as stated fails: a request of type [simple_solar] that carries the
    three base documents is rejected by the metering form, for want of
    [land_ownership] when it comes from an owner and for want of a NOC when
    it comes from a tenant. *)
Lemma C3_counterexample :
  form_get solar_on_metering_form_owner "application_type" = Some "simple_solar" /\
  not_uploaded solar_on_metering_form_owner
    ["electricity_bill"; "cnic_front"; "cnic_back"] = [] /\
  rejected (apply_metering sample_env solar_on_metering_form_owner [])
    "Please upload required documents: Land Ownership" "apply_metering" [] /\
  form_get solar_on_metering_form_tenant "application_type" = Some "simple_solar" /\
  form_get solar_on_metering_form_tenant "ownership_type" = Some "tenant" /\
  rejected (apply_metering sample_env solar_on_metering_form_tenant [])
    "Tenants must provide either a NOC document (stamp paper) or a NOC message"
    "apply_metering" [].
Proof. repeat split; vm_compute; reflexivity. Qed.

(** C7.  When either form creates an application, the table gains one row,
    stored with status [pending] under the reference the success message
    shows; the status lookup of that reference answers 200 with the
    projection [reference_number], [type], [capacity], [status],
    [submitted_at], [updated_at] of that very row, whose type and capacity
    are the ones of the request.  The lookup of a reference that no row
    bears answers 404 with an error object. *)
Theorem C7_status_lookup_round_trip :
  (forall (env : Env) (req : Request) (db db' : Database) (out : Outcome)
          (metering : bool),
      (if metering then apply_metering env req db
       else apply_solar_setup env req db) = Ok (out, db') ->
      succeeded out = true ->
      exists row reference message,
        db' = (db ++ [row])%list /\
        reference_number row = Some reference /\
        flashed out = [(message ++ reference, "success")] /\
        status row = Some "pending" /\
        (if metering
         then application_type row = form_get req "application_type" /\
              py_float env (form_get req "system_capacity")
              = Ok (system_capacity row)
         else application_type row = Some "simple_solar" /\
              form_float_default env req "system_capacity" 0
              = Ok (system_capacity row)) /\
        api_application_status reference db' =
        jsonify
          [("reference_number", JString reference);
           ("type", json_of_column (application_type row));
           ("capacity", JNumber (system_capacity row));
           ("status", JString "pending");
           ("submitted_at", JString (strftime_Y_m_d (submitted_at row)));
           ("updated_at", JString (strftime_Y_m_d (updated_at row)))]
          200) /\
  (forall (db : Database) (reference : string),
      (forall a, In a db -> reference_number a <> Some reference) ->
      api_application_status reference db =
      jsonify [("error", JString "Application not found")] 404).
Proof.
  split.
  - intros env req db db' out [|] H Hs.
    + destruct (apply_metering_created env req db db' out H Hs)
        as (cap & units & docs & draws & Hcap & Hc & ->).
      destruct (lookup_created _ db db' _ Hc eq_refl) as [-> Hlook].
      eexists. eexists. eexists.
      split; [reflexivity|]. split; [reflexivity|]. split; [reflexivity|].
      split; [reflexivity|]. split; [split; [reflexivity | exact Hcap]|].
      exact Hlook.
    + destruct (apply_solar_setup_created env req db db' out H Hs)
        as (cap & units & docs & draws & Hcap & Hc & ->).
      destruct (lookup_created _ db db' _ Hc eq_refl) as [-> Hlook].
      eexists. eexists. eexists.
      split; [reflexivity|]. split; [reflexivity|]. split; [reflexivity|].
      split; [reflexivity|]. split; [split; [reflexivity | exact Hcap]|].
      exact Hlook.
  - intros db reference H. unfold api_application_status.
    now rewrite (query_by_reference_none db reference H).
Qed.

Lemma C7_status_lookup_round_trip_witness :
  exists out db',
    apply_metering sample_env net_request [] = Ok (out, db') /\
    succeeded out = true /\
    exists row reference message,
      db' = ([] ++ [row])%list /\
      reference_number row = Some reference /\
      flashed out = [(message ++ reference, "success")] /\
      status row = Some "pending" /\
      (application_type row = form_get net_request "application_type" /\
       py_float sample_env (form_get net_request "system_capacity")
       = Ok (system_capacity row)) /\
      api_application_status reference db' =
      jsonify
        [("reference_number", JString reference);
         ("type", json_of_column (application_type row));
         ("capacity", JNumber (system_capacity row));
         ("status", JString "pending");
         ("submitted_at", JString (strftime_Y_m_d (submitted_at row)));
         ("updated_at", JString (strftime_Y_m_d (updated_at row)))]
        200.
Proof.
  destruct C7_status_lookup_round_trip as [Hcreated _].
  assert (Hrun : exists out db',
             apply_metering sample_env net_request [] = Ok (out, db') /\
             succeeded out = true).
  { vm_compute. eexists. eexists. split; reflexivity. }
  destruct Hrun as (out & db' & Hrun & Hs).
  exists out, db'. split; [exact Hrun|]. split; [exact Hs|].
  exact (Hcreated sample_env net_request [] db' out true Hrun Hs).
Defined.

(** C8.  An admin update leaves every row but the one it names untouched
    and, on that row, every column but [status], [admin_notes] and
    [updated_at]: these take the two values of the form and the time of the
    request.  It is idempotent: after a second update with the same form the
    table agrees with the table after the first on every column but
    [updated_at], which holds the time of the second request; two updates
    leave what one update at the second time leaves. *)
Theorem C8_admin_update_idempotent
    (env1 env2 : Env) (req : Request) (app_id : Z) (db : Database) :
  method req = POST ->
  let db1 := snd (admin_application_detail env1 req app_id db) in
  let db2 := snd (admin_application_detail env2 req app_id db1) in
  Forall2 (fun a a1 => same_but_admin_columns a a1 /\ (id a <> app_id -> a1 = a))
          db db1 /\
  (forall a, query_get db app_id = Some a ->
     exists a1 a2,
       query_get db1 app_id = Some a1 /\
       status a1 = form_get req "status" /\
       admin_notes a1 = form_get req "admin_notes" /\
       updated_at a1 = utcnow env1 /\
       query_get db2 app_id = Some a2 /\
       same_but_updated_at a1 a2 /\
       updated_at a2 = utcnow env2) /\
  Forall2 same_but_updated_at db1 db2 /\
  db2 = snd (admin_application_detail env2 req app_id db).
Proof.
  intros Hm. cbv zeta.
  assert (Hrefl1 : forall x, same_but_admin_columns x x /\ (id x <> app_id -> x = x))
    by (intros x; unfold same_but_admin_columns; tauto).
  assert (Hrefl2 : forall x, same_but_updated_at x x)
    by (intros x; unfold same_but_updated_at; tauto).
  destruct (query_get db app_id) as [a|] eqn:Hq.
  - pose proof (query_get_id db app_id a Hq) as Hid.
    rewrite (admin_update_found env1 req app_id db a Hm Hq).
    rewrite (admin_update_found env2 req app_id db a Hm Hq).
    set (a1 := with_admin_update a (form_get req "status")
                 (form_get req "admin_notes") (utcnow env1)).
    assert (Hq1 : query_get (db_update db app_id a1) app_id = Some a1)
      by (apply (query_get_update db app_id a a1 Hq); exact Hid).
    rewrite (admin_update_found env2 req app_id _ a1 Hm Hq1).
    set (a2 := with_admin_update a1 (form_get req "status")
                 (form_get req "admin_notes") (utcnow env2)).
    assert (H12 : same_but_updated_at a1 a2)
      by (unfold same_but_updated_at; cbn; tauto).
    split; [|split; [|split]].
    + apply (db_update_related _ db app_id a a1 Hrefl1 Hq).
      split; [unfold same_but_admin_columns; cbn; tauto|].
      intros Hne. contradiction.
    + intros a' Ha'. injection Ha' as <-.
      exists a1, a2.
      split; [exact Hq1|]. split; [reflexivity|]. split; [reflexivity|].
      split; [reflexivity|].
      split; [apply (query_get_update _ app_id a1 a2 Hq1); exact Hid|].
      split; [exact H12 | reflexivity].
    + apply (db_update_related _ _ app_id a1 a2 Hrefl2 Hq1 H12).
    + apply db_update_twice. exact Hid.
  - rewrite !(admin_update_missing env1 req app_id db Hq).
    rewrite !(admin_update_missing env2 req app_id db Hq).
    split; [|split; [|split]].
    + now apply Forall2_same.
    + intros a Ha. discriminate Ha.
    + now apply Forall2_same.
    + reflexivity.
Qed.

Lemma C8_admin_update_idempotent_witness :
  method approve_request = POST /\
  let db1 := snd (admin_application_detail sample_env approve_request 1 sample_table) in
  let db2 := snd (admin_application_detail later_env approve_request 1 db1) in
  Forall2 (fun a a1 => same_but_admin_columns a a1 /\ (id a <> 1 -> a1 = a))
          sample_table db1 /\
  (forall a, query_get sample_table 1 = Some a ->
     exists a1 a2,
       query_get db1 1 = Some a1 /\
       status a1 = form_get approve_request "status" /\
       admin_notes a1 = form_get approve_request "admin_notes" /\
       updated_at a1 = utcnow sample_env /\
       query_get db2 1 = Some a2 /\
       same_but_updated_at a1 a2 /\
       updated_at a2 = utcnow later_env) /\
  Forall2 same_but_updated_at db1 db2 /\
  db2 = snd (admin_application_detail later_env approve_request 1 sample_table).
Proof.
  split.
  - reflexivity.
  - exact (C8_admin_update_idempotent sample_env later_env approve_request 1
             sample_table eq_refl).
Defined.

End IntakeSpec.

(** * More on the estimator *)

Module EstimatorMore.

Import PyNum PyNumFacts Estimator EstimatorFacts Intake Failure Calculator.
Local Open Scope Q_scope.

Lemma py_int_neg (x : Q) : x <= 0 -> py_int x = Qceiling x.
Proof.
  destruct x as [n d]. unfold Qle, py_int, Qceiling, Qfloor. simpl. intros H.
  rewrite <- (Z.opp_involutive n) at 1. rewrite Z.quot_opp_l by lia.
  rewrite Z.quot_div_nonneg by lia. reflexivity.
Qed.

Lemma py_int_mono (x y : Q) : x <= y -> (py_int x <= py_int y)%Z.
Proof.
  intros H.
  destruct (Qlt_le_dec x 0) as [Hx | Hx]; destruct (Qlt_le_dec y 0) as [Hy | Hy].
  - rewrite !py_int_neg by lra. now apply Qceiling_resp_le.
  - pose proof (py_int_nonpos x (Qlt_le_weak _ _ Hx)).
    rewrite (py_int_nonneg y Hy).
    assert (0 <= Qfloor y)%Z by (apply Qfloor_ge_Z; exact Hy). lia.
  - lra.
  - rewrite !py_int_nonneg by lra. now apply Qfloor_resp_le.
Qed.

Lemma div100 (x : Q) : x / 100 == x * (1 # 100).
Proof. field. Qed.

Lemma required_capacity_value (monthly_bill : Q) :
  required_capacity_of monthly_bill == monthly_bill * (1 # 3300).
Proof. unfold required_capacity_of. field. Qed.

Lemma ladder_capacity_mono (req1 req2 : Q) :
  req1 <= req2 -> (ladder_capacity req1 <= ladder_capacity req2)%Z.
Proof.
  intros H. destruct (Qlt_le_dec 50 req2) as [Hbig | Hsmall].
  - rewrite (ladder_capacity_capped req2 Hbig).
    apply ladder_capacity_range.
  - destruct (ladder_capacity_smallest req2 Hsmall) as (Hmem & Hge & _).
    destruct (ladder_capacity_smallest req1) as (_ & _ & Hmin); [lra|].
    apply Hmin; [exact Hmem | lra].
Qed.

(** The roof constraint never raises the capacity. *)
Lemma final_capacity_le_ladder (monthly_bill roof_area : Q) :
  (final_capacity monthly_bill roof_area
   <= ladder_capacity (required_capacity_of monthly_bill))%Z.
Proof.
  unfold final_capacity.
  pose proof (ladder_capacity_range (required_capacity_of monthly_bill)) as Hl.
  set (ladder := ladder_capacity (required_capacity_of monthly_bill)) in *.
  pose proof (div100 roof_area) as E100.
  destruct (Qltb roof_area (inject_Z (ladder * 100))) eqn:E; [|lia].
  apply Qltb_lt in E. apply Z.max_lub; [lia|].
  destruct (Qlt_le_dec roof_area 100) as [Hs | Hb].
  - pose proof (py_int_small roof_area Hs). lia.
  - rewrite py_int_nonneg by lra.
    apply Z.lt_le_incl. apply Qfloor_lt_Z.
    rewrite inject_Z_mult in E. change (inject_Z 100) with 100 in E. lra.
Qed.

(** From capacity 2 on, a capacity is reached exactly when both the ladder
    and the roof allow it. *)
Lemma final_capacity_reaches (monthly_bill roof_area : Q) (k : Z) :
  (2 <= k)%Z ->
  (k <= final_capacity monthly_bill roof_area)%Z <->
  (k <= ladder_capacity (required_capacity_of monthly_bill))%Z /\
  inject_Z (k * 100) <= roof_area.
Proof.
  intros Hk.
  pose proof (final_capacity_le_ladder monthly_bill roof_area) as Hle.
  unfold final_capacity in *.
  set (ladder := ladder_capacity (required_capacity_of monthly_bill)) in *.
  pose proof (div100 roof_area) as E100.
  assert (H2k : 2 <= inject_Z k)
    by (change 2 with (inject_Z 2); rewrite <- Zle_Qle; lia).
  destruct (Qltb roof_area (inject_Z (ladder * 100))) eqn:E.
  - apply Qltb_lt in E. split.
    + intros H. split; [lia|].
      assert (Hint : (k <= py_int (roof_area / 100))%Z) by lia.
      destruct (Qlt_le_dec roof_area 100) as [Hs | Hb].
      * pose proof (py_int_small roof_area Hs). lia.
      * rewrite py_int_nonneg in Hint by lra.
        pose proof (Qfloor_le (roof_area / 100)) as Hf.
        rewrite Zle_Qle in Hint.
        rewrite inject_Z_mult. change (inject_Z 100) with 100. lra.
    + intros [Hl Hr].
      rewrite inject_Z_mult in Hr. change (inject_Z 100) with 100 in Hr.
      rewrite py_int_nonneg by lra.
      assert (k <= Qfloor (roof_area / 100))%Z; [|lia].
      apply Qfloor_ge_Z. lra.
  - apply Qltb_ge in E. split.
    + intros H. split; [exact H|].
      eapply Qle_trans; [|exact E]. rewrite <- Zle_Qle. lia.
    + intros [Hl _]. exact Hl.
Qed.

Lemma ladder_at_least_5 (req : Q) : (5 <= ladder_capacity req)%Z <-> 3 < req.
Proof.
  split.
  - intros H. apply Qnot_le_lt. intros Hle.
    destruct (ladder_capacity_smallest req) as (_ & _ & Hmin); [lra|].
    assert (ladder_capacity req <= 3)%Z; [|lia].
    apply Hmin; [|exact Hle].
    unfold standard_capacities. simpl. tauto.
  - intros H. destruct (Qlt_le_dec 50 req) as [Hbig | Hsmall].
    + rewrite (ladder_capacity_capped req Hbig). lia.
    + destruct (ladder_capacity_smallest req Hsmall) as (Hmem & Hge & _).
      assert (Hgt : (3 < ladder_capacity req)%Z).
      { rewrite Zlt_Qlt. change (inject_Z 3) with 3. lra. }
      revert Hmem Hgt. generalize (ladder_capacity req). intros c.
      unfold standard_capacities. simpl. intuition lia.
Qed.

Lemma final_capacity_mono (bill1 bill2 roof1 roof2 : Q) :
  bill1 <= bill2 -> roof1 <= roof2 ->
  (final_capacity bill1 roof1 <= final_capacity bill2 roof2)%Z.
Proof.
  intros Hb Hr.
  destruct (Z_lt_le_dec (final_capacity bill1 roof1) 2) as [Hsmall | Hbig].
  - pose proof (final_capacity_range bill1 roof1).
    pose proof (final_capacity_range bill2 roof2). lia.
  - destruct (proj1 (final_capacity_reaches bill1 roof1 _ Hbig) (Z.le_refl _))
      as [Hl Hroof].
    apply (final_capacity_reaches bill2 roof2 _ Hbig). split.
    + eapply Z.le_trans; [exact Hl|]. apply ladder_capacity_mono.
      rewrite !required_capacity_value. lra.
    + lra.
Qed.

Lemma ladder_at_least_2 (req : Q) : (2 <= ladder_capacity req)%Z <-> 1 < req.
Proof.
  split.
  - intros H. apply Qnot_le_lt. intros Hle.
    destruct (ladder_capacity_smallest req) as (_ & _ & Hmin); [lra|].
    assert (ladder_capacity req <= 1)%Z; [|lia].
    apply Hmin; [|exact Hle].
    unfold standard_capacities. simpl. tauto.
  - intros H. destruct (Qlt_le_dec 50 req) as [Hbig | Hsmall].
    + rewrite (ladder_capacity_capped req Hbig). lia.
    + destruct (ladder_capacity_smallest req Hsmall) as (Hmem & Hge & _).
      assert (Hgt : (1 < ladder_capacity req)%Z).
      { rewrite Zlt_Qlt. change (inject_Z 1) with 1. lra. }
      lia.
Qed.

Lemma capacity_is_1 (monthly_bill roof_area : Q) :
  final_capacity monthly_bill roof_area = 1%Z <->
  monthly_bill <= 3300 \/ roof_area < 200.
Proof.
  pose proof (final_capacity_range monthly_bill roof_area) as Hr.
  pose proof (final_capacity_reaches monthly_bill roof_area 2 (Z.le_refl 2)) as H2.
  rewrite ladder_at_least_2, required_capacity_value in H2.
  change (inject_Z (2 * 100)) with 200 in H2.
  split.
  - intros H1.
    destruct (Qlt_le_dec 3300 monthly_bill) as [Hb | Hb]; [|now left].
    destruct (Qlt_le_dec roof_area 200) as [Hf | Hf]; [now right|].
    assert (2 <= final_capacity monthly_bill roof_area)%Z
      by (apply H2; split; lra).
    lia.
  - intros Hsmall.
    destruct (Z.eq_dec (final_capacity monthly_bill roof_area) 1) as [E | E];
      [exact E|].
    assert (Hge : (2 <= final_capacity monthly_bill roof_area)%Z) by lia.
    apply H2 in Hge. destruct Hge as [Hb Hf]. lra.
Qed.

(** X1.  For every input the recommended capacity lies between 1 and 50 and
    never exceeds the ladder capacity the bill alone gives: the roof
    constraint only lowers it.  The estimated cost lies between 80000 and
    4000000.  From 2 kW on, the recommended system fits the roof at 100 sq
    ft per kW. *)
Theorem X1_capacity_within_ladder_and_roof
    (monthly_bill roof_area : Q) (property_type : string) :
  exists r,
    get_solar_recommendation monthly_bill roof_area property_type = Ok r /\
    (1 <= recommended_capacity r <= 50)%Z /\
    (recommended_capacity r
     <= ladder_capacity (required_capacity_of monthly_bill))%Z /\
    (recommended_capacity r * 100 <= required_area r)%Z /\
    (80000 <= Estimator.estimated_cost r <= 4000000)%Z /\
    ((2 <= recommended_capacity r)%Z ->
     inject_Z (recommended_capacity r * 100) <= roof_area).
Proof.
  rewrite get_solar_recommendation_eq.
  eexists. split; [reflexivity|]. cbv zeta.
  cbn [recommended_capacity required_area Estimator.estimated_cost].
  pose proof (final_capacity_range monthly_bill roof_area) as Hr.
  pose proof (final_capacity_le_ladder monthly_bill roof_area) as Hl.
  split; [exact Hr|]. split; [exact Hl|]. split; [lia|]. split; [lia|].
  intros H2.
  apply (proj1 (final_capacity_reaches monthly_bill roof_area _ H2) (Z.le_refl _)).
Qed.

(** X2.  The recommendation is monotone: a bill at least as high and a roof
    at least as large never give a smaller capacity or a lower cost, and
    never lose the net-metering eligibility. *)
Theorem X2_recommendation_monotone
    (bill1 bill2 roof1 roof2 : Q) (property_type : string) :
  bill1 <= bill2 -> roof1 <= roof2 ->
  exists r1 r2,
    get_solar_recommendation bill1 roof1 property_type = Ok r1 /\
    get_solar_recommendation bill2 roof2 property_type = Ok r2 /\
    (recommended_capacity r1 <= recommended_capacity r2)%Z /\
    (Estimator.estimated_cost r1 <= Estimator.estimated_cost r2)%Z /\
    (net_metering_eligible r1 = true -> net_metering_eligible r2 = true).
Proof.
  intros Hb Hr. rewrite !get_solar_recommendation_eq.
  eexists. eexists. split; [reflexivity|]. split; [reflexivity|]. cbv zeta.
  cbn [recommended_capacity Estimator.estimated_cost net_metering_eligible].
  pose proof (final_capacity_mono bill1 bill2 roof1 roof2 Hb Hr) as Hm.
  split; [exact Hm|]. split; [lia|].
  rewrite !Z.leb_le. lia.
Qed.

Lemma X2_recommendation_monotone_witness :
  (3000 <= 30000 /\ 250 <= 1200) /\
  exists r1 r2,
    get_solar_recommendation 3000 250 "residential" = Ok r1 /\
    get_solar_recommendation 30000 1200 "residential" = Ok r2 /\
    (recommended_capacity r1 <= recommended_capacity r2)%Z /\
    (Estimator.estimated_cost r1 <= Estimator.estimated_cost r2)%Z /\
    (net_metering_eligible r1 = true -> net_metering_eligible r2 = true).
Proof.
  assert (Hb : 3000 <= 30000) by discriminate.
  assert (Hr : 250 <= 1200) by discriminate.
  split; [split; assumption|].
  exact (X2_recommendation_monotone 3000 30000 250 1200 "residential" Hb Hr).
Defined.

(** X4.  The returned money and energy fields agree with each other after
    rounding: for the returned capacity [c], the monthly generation is 132 c,
    the monthly savings are 25 times that, 3300 c, and the annual savings are
    12 times the monthly savings. *)
Theorem X4_savings_fields_consistent
    (monthly_bill roof_area : Q) (property_type : string) :
  exists r,
    get_solar_recommendation monthly_bill roof_area property_type = Ok r /\
    monthly_generation r == inject_Z (132 * recommended_capacity r) /\
    monthly_savings r == inject_Z (3300 * recommended_capacity r) /\
    monthly_savings r == 25 * monthly_generation r /\
    annual_savings r == 12 * monthly_savings r.
Proof.
  rewrite get_solar_recommendation_eq.
  set (c := final_capacity monthly_bill roof_area).
  assert (Hg : py_round (inject_Z c * (55 # 10) * 30 * (8 # 10)) 2
               == inject_Z (132 * c)).
  { rewrite (py_round_exact _ 2 (13200 * c)).
    - rewrite inject_Z_mult. change (inject_Z 132) with 132. ring.
    - rewrite inject_Z_mult. change (inject_Z (10 ^ Z.of_nat 2)) with 100.
      change (inject_Z 13200) with 13200. ring. }
  assert (Hm : py_round (inject_Z c * (55 # 10) * 30 * (8 # 10) * inject_Z 25) 2
               == inject_Z (3300 * c)).
  { rewrite (py_round_exact _ 2 (330000 * c)).
    - rewrite inject_Z_mult. change (inject_Z 3300) with 3300.
      change (inject_Z 25) with 25. ring.
    - rewrite inject_Z_mult. change (inject_Z (10 ^ Z.of_nat 2)) with 100.
      change (inject_Z 330000) with 330000. change (inject_Z 25) with 25. ring. }
  assert (Ha : py_round (inject_Z c * (55 # 10) * 30 * (8 # 10) * inject_Z 25 * 12) 2
               == inject_Z (39600 * c)).
  { rewrite (py_round_exact _ 2 (3960000 * c)).
    - rewrite inject_Z_mult. change (inject_Z 39600) with 39600.
      change (inject_Z 25) with 25. ring.
    - rewrite inject_Z_mult. change (inject_Z (10 ^ Z.of_nat 2)) with 100.
      change (inject_Z 3960000) with 3960000. change (inject_Z 25) with 25. ring. }
  eexists. split; [reflexivity|]. cbv zeta.
  cbn [recommended_capacity monthly_generation monthly_savings annual_savings].
  fold c. rewrite Hg, Hm, Ha. rewrite !inject_Z_mult.
  change (inject_Z 132) with 132. change (inject_Z 3300) with 3300.
  change (inject_Z 39600) with 39600.
  repeat split; try reflexivity; ring.
Qed.

(** X5.  The two callers of the estimator, on finite numbers.  The form
    route shows a recommendation exactly when the bill and the roof area it
    parsed are both positive, and then shows what the estimator returns; a
    missing field counts as 0.  The JSON route has no such guard: given the
    same two numbers as JSON floats it answers what the form route shows,
    and when the bill or the roof area is not positive it still answers,
    with the 1 kW system.  A JSON integer too large for a float makes it
    raise [OverflowError]. *)
Theorem X5_calculator_routes
    (env : Env) (req : Request) (monthly_bill roof_area : Q) :
  method req = POST ->
  form_float_default env req "monthly_bill" 0 = Ok monthly_bill ->
  form_float_default env req "roof_area" 0 = Ok roof_area ->
  let data := [("monthly_bill"%string, JFloat monthly_bill);
               ("roof_area"%string, JFloat roof_area)] in
  (exists r,
      api_solar_calculator env data = Done r /\
      (0 < monthly_bill /\ 0 < roof_area ->
       solar_calculator env req = Ok (Some r)) /\
      (monthly_bill <= 0 \/ roof_area <= 0 ->
       solar_calculator env req = Ok None /\ recommended_capacity r = 1%Z)) /\
  (forall n rest,
      (2 ^ 1024 - 2 ^ 970 <= Z.abs n)%Z ->
      api_solar_calculator env (("monthly_bill"%string, JInteger n) :: rest)
      = Fail OverflowError).
Proof.
  intros Hm Hb Hr. cbv zeta. split.
  - unfold api_solar_calculator, solar_calculator, json_float_default.
    cbn [dict_get String.eqb Ascii.eqb Bool.eqb and_then].
    rewrite Hm, Hb, Hr. cbn [bind].
    rewrite !get_solar_recommendation_eq.
    eexists. split; [reflexivity|]. split.
    + intros [Hpb Hpr]. apply Qltb_lt in Hpb, Hpr. rewrite Hpb, Hpr.
      reflexivity.
    + intros Hnon. split.
      * assert (E : Qltb 0 monthly_bill && Qltb 0 roof_area = false).
        { apply andb_false_iff. destruct Hnon as [H | H]; [left | right];
            now apply Qltb_ge. }
        now rewrite E.
      * cbv zeta. cbn [recommended_capacity]. apply capacity_is_1.
        destruct Hnon as [H | H]; [left | right]; lra.
  - intros n rest Hn.
    unfold api_solar_calculator, json_float_default.
    cbn [dict_get String.eqb Ascii.eqb Bool.eqb].
    unfold float_of_integer.
    assert (E : (Z.abs n <? 2 ^ 1024 - 2 ^ 970)%Z = false)
      by (apply Z.ltb_ge; exact Hn).
    rewrite E. reflexivity.
Qed.

(** A bill of 100000 with a roof of 250 is shown by both routes; a bill of
    0 is answered by the JSON route alone, with 1 kW. *)
Lemma X5_calculator_routes_witness :
  (exists r,
      api_solar_calculator Sample.sample_env
        [("monthly_bill"%string, JFloat 100000); ("roof_area"%string, JFloat 250)]
      = Done r /\
      solar_calculator Sample.sample_env
        (Sample.post [("monthly_bill", "100000"); ("roof_area", "250")]%string [])
      = Ok (Some r)) /\
  (exists r,
      api_solar_calculator Sample.sample_env
        [("monthly_bill"%string, JFloat 0); ("roof_area"%string, JFloat 250)]
      = Done r /\
      solar_calculator Sample.sample_env
        (Sample.post [("monthly_bill", "0"); ("roof_area", "250")]%string [])
      = Ok None /\
      recommended_capacity r = 1%Z).
Proof.
  split.
  - destruct (X5_calculator_routes Sample.sample_env
                (Sample.post [("monthly_bill", "100000"); ("roof_area", "250")]%string [])
                100000 250 eq_refl
                ltac:(vm_compute; reflexivity) ltac:(vm_compute; reflexivity))
      as [(r & Hapi & Hshown & _) _].
    exists r. split; [exact Hapi|]. apply Hshown. split; reflexivity.
  - destruct (X5_calculator_routes Sample.sample_env
                (Sample.post [("monthly_bill", "0"); ("roof_area", "250")]%string [])
                0 250 eq_refl
                ltac:(vm_compute; reflexivity) ltac:(vm_compute; reflexivity))
      as [(r & Hapi & _ & Hnone) _].
    exists r. split; [exact Hapi|].
    apply Hnone. left. discriminate.
Defined.

End EstimatorMore.

(** * More on the workflow *)

Module IntakeMore.

Import PyNum PyNumFacts Intake IntakeFacts IntakeKeys Sample.
Local Open Scope Z_scope.
Local Open Scope string_scope.

(** ** What a form can do *)

Lemma map_display_name_nil (l : list string) :
  map display_name l = [] -> l = [].
Proof. destruct l; [reflexivity | discriminate]. Qed.

Lemma field_checks_passed (application_type property_address : option string)
    (cap : Q) :
  truthy application_type && negb (Qeq_bool cap 0) && truthy property_address
  = true ->
  Qltb cap 1 || Qltb 50 cap = false ->
  is_str application_type "net" && Qltb cap 5 = false ->
  truthy application_type = true /\
  truthy property_address = true /\
  (1 <= cap)%Q /\ (cap <= 50)%Q /\
  (application_type = Some "net" -> (5 <= cap)%Q).
Proof.
  intros H1 H2 H3.
  apply andb_true_iff in H1. destruct H1 as [H1 Haddr].
  apply andb_true_iff in H1. destruct H1 as [Htype _].
  apply orb_false_iff in H2. destruct H2 as [Hlo Hhi].
  apply Qltb_ge in Hlo, Hhi.
  repeat split; try assumption.
  intros Hnet. rewrite Hnet in H3. simpl in H3. now apply Qltb_ge.
Qed.

(** An [apply_metering] request ends in one of three ways: it raises; it
    returns without a success message and with the table as it was; or it
    passed every check and appended one row. *)
Lemma apply_metering_cases (env : Env) (req : Request) (db : Database) :
  (exists e, apply_metering env req db = Raise e) \/
  (exists out, apply_metering env req db = Ok (out, db) /\ succeeded out = false) \/
  (exists cap units,
      method req = POST /\
      py_float env (form_get req "system_capacity") = Ok cap /\
      form_int_default env req "consumption_units" 0 = Ok units /\
      (truthy (form_get req "application_type") = true /\
       truthy (form_get req "property_address") = true /\
       (1 <= cap)%Q /\ (cap <= 50)%Q /\
       (form_get req "application_type" = Some "net" -> (5 <= cap)%Q)) /\
      let ownership_type := form_get_default req "ownership_type" "owner" in
      let state :=
        fold_left (save_upload env req)
          (base_documents
           ++ [if ownership_type =? "owner"
               then "land_ownership" else "noc_document"])%list
          ([], O) in
      let reference := generate_reference env (snd state)
                         (form_get req "application_type") in
      let application :=
        new_application env req (form_get req "application_type") cap units
          (form_get req "property_type") (form_get req "property_address")
          ownership_type (fst state)
          (if ownership_type =? "tenant"
           then Some (form_get_default req "noc_message" "") else None)
          reference in
      (ownership_type = "tenant" -> noc_supplied req = true) /\
      not_uploaded req (metering_required_documents ownership_type) = [] /\
      (forall a, In a db -> is_str (reference_number a) reference = false) /\
      apply_metering env req db =
      Ok (flash_and_redirect
            ("Application submitted successfully! Reference: " ++ reference)
            "success" "client_dashboard",
          (db ++ [with_id application (next_id db)])%list)).
Proof.
  destruct (method req) eqn:Hm.
  { right. left. eexists. unfold apply_metering. rewrite Hm.
    split; reflexivity. }
  destruct (py_float env (form_get req "system_capacity")) as [cap|e] eqn:Hcap.
  2:{ left. exists e. unfold apply_metering. now rewrite Hm, Hcap. }
  destruct (form_int_default env req "consumption_units" 0) as [units|e] eqn:Hu.
  2:{ left. exists e. unfold apply_metering. rewrite Hm, Hcap. cbn [bind].
      now rewrite Hu. }
  destruct (truthy (form_get req "application_type") && negb (Qeq_bool cap 0)
            && truthy (form_get req "property_address")) eqn:H1.
  2:{ right. left. eexists. unfold apply_metering. rewrite Hm, Hcap.
      cbn [bind]. rewrite Hu. cbn [bind]. rewrite H1. cbn [negb].
      split; reflexivity. }
  destruct (Qltb cap 1 || Qltb 50 cap) eqn:H2.
  { right. left. eexists. unfold apply_metering. rewrite Hm, Hcap.
    cbn [bind]. rewrite Hu. cbn [bind]. rewrite H1, H2. cbn [negb].
    split; reflexivity. }
  destruct (is_str (form_get req "application_type") "net" && Qltb cap 5) eqn:H3.
  { right. left. eexists. unfold apply_metering. rewrite Hm, Hcap.
    cbn [bind]. rewrite Hu. cbn [bind]. rewrite H1, H2, H3. cbn [negb].
    split; reflexivity. }
  rewrite (apply_metering_after_checks env req db cap units Hm Hcap Hu H1 H2 H3).
  cbv zeta.
  set (own := form_get_default req "ownership_type" "owner").
  destruct ((own =? "tenant") && negb (noc_supplied req)) eqn:Hnoc.
  { right. left. eexists. split; reflexivity. }
  destruct (map display_name (not_uploaded req (metering_required_documents own)))
    eqn:Hmiss.
  2:{ right. left. eexists. split; reflexivity. }
  apply map_display_name_nil in Hmiss.
  destruct (db_add_commit _ db) as [db'|e] eqn:Hc.
  2:{ left. exists e. reflexivity. }
  right. right. exists cap, units.
  apply db_add_commit_ok in Hc. destruct Hc as [-> Huniq].
  split; [reflexivity|]. split; [reflexivity|]. split; [reflexivity|].
  split; [exact (field_checks_passed _ _ cap H1 H2 H3)|].
  split.
  { intros Ht. fold own in Ht. rewrite Ht in Hnoc. simpl in Hnoc.
    now apply negb_false_iff in Hnoc. }
  split; [exact Hmiss|].
  split; [intros a Ha; now apply (Huniq a _ Ha)|].
  reflexivity.
Qed.

Lemma apply_solar_setup_cases (env : Env) (req : Request) (db : Database) :
  (exists e, apply_solar_setup env req db = Raise e) \/
  (exists out, apply_solar_setup env req db = Ok (out, db) /\ succeeded out = false) \/
  (exists cap units,
      method req = POST /\
      form_float_default env req "system_capacity" 0 = Ok cap /\
      form_int_default env req "consumption_units" 0 = Ok units /\
      (form_get_default req "property_address" "" <> "" /\
       (1 <= cap)%Q /\ (cap <= 50)%Q) /\
      let state := fold_left (save_upload env req) base_documents ([], O) in
      let reference := generate_reference env (snd state) (Some "simple_solar") in
      let application :=
        new_application env req (Some "simple_solar") cap units
          (Some (form_get_default req "property_type" "residential"))
          (Some (form_get_default req "property_address" ""))
          "owner" (fst state) None reference in
      not_uploaded req solar_required_documents = [] /\
      (forall a, In a db -> is_str (reference_number a) reference = false) /\
      apply_solar_setup env req db =
      Ok (flash_and_redirect
            ("Solar setup application submitted! Reference: " ++ reference)
            "success" "client_dashboard",
          (db ++ [with_id application (next_id db)])%list)).
Proof.
  destruct (method req) eqn:Hm.
  { right. left. eexists. unfold apply_solar_setup. rewrite Hm.
    split; reflexivity. }
  destruct (form_float_default env req "system_capacity" 0) as [cap|e] eqn:Hcap.
  2:{ left. exists e. unfold apply_solar_setup. now rewrite Hm, Hcap. }
  destruct (form_int_default env req "consumption_units" 0) as [units|e] eqn:Hu.
  2:{ left. exists e. unfold apply_solar_setup. rewrite Hm, Hcap. cbn [bind].
      now rewrite Hu. }
  destruct (negb (Qeq_bool cap 0)
            && truthy (Some (form_get_default req "property_address" ""))) eqn:H1.
  2:{ right. left. eexists. unfold apply_solar_setup. rewrite Hm, Hcap.
      cbn [bind]. rewrite Hu. cbn [bind]. rewrite H1. cbn [negb].
      split; reflexivity. }
  destruct (Qltb cap 1 || Qltb 50 cap) eqn:H2.
  { right. left. eexists. unfold apply_solar_setup. rewrite Hm, Hcap.
    cbn [bind]. rewrite Hu. cbn [bind]. rewrite H1, H2. cbn [negb].
    split; reflexivity. }
  rewrite (apply_solar_setup_after_checks env req db cap units Hm Hcap Hu H1 H2).
  cbv zeta.
  destruct (map display_name (not_uploaded req solar_required_documents))
    eqn:Hmiss.
  2:{ right. left. eexists. split; reflexivity. }
  apply map_display_name_nil in Hmiss.
  destruct (db_add_commit _ db) as [db'|e] eqn:Hc.
  2:{ left. exists e. reflexivity. }
  right. right. exists cap, units.
  apply db_add_commit_ok in Hc. destruct Hc as [-> Huniq].
  split; [reflexivity|]. split; [reflexivity|]. split; [reflexivity|].
  split.
  { apply andb_true_iff in H1. destruct H1 as [_ Haddr].
    apply orb_false_iff in H2. destruct H2 as [Hlo Hhi].
    apply Qltb_ge in Hlo, Hhi. simpl in Haddr.
    apply negb_true_iff, String.eqb_neq in Haddr. repeat split; assumption. }
  split; [exact Hmiss|].
  split; [intros a Ha; now apply (Huniq a _ Ha)|].
  reflexivity.
Qed.

(** ** Stored paths *)

Lemma prefix_app_cancel (a b c : string) :
  prefix (a ++ b) (a ++ c) = prefix b c.
Proof.
  induction a as [|x a IH]; simpl; [reflexivity|].
  destruct (ascii_dec x x); [exact IH | congruence].
Qed.

Lemma dict_set_mem {V : Type} (d : list (string * V)) (k : string) (v : V)
    (k' : string) (v' : V) :
  In (k', v') (dict_set d k v) -> (k' = k /\ v' = v) \/ In (k', v') d.
Proof.
  induction d as [|[k0 v0] d IH]; simpl.
  - intros [E | []]. left. now inversion E.
  - destruct (k0 =? k); simpl.
    + intros [E | H]; [left; now inversion E | right; now right].
    + intros [E | H]; [right; now left|].
      destruct (IH H) as [? | ?]; [now left | right; now right].
Qed.

(** Every path the upload loop stores starts with [uploads/] and the name
    of its field. *)
Lemma stored_paths (env : Env) (req : Request) (fields : list string)
    (docs : list (string * string)) (draws : nat) :
  (forall d path, In (d, path) docs -> prefix ("uploads/" ++ d ++ "_") path = true) ->
  forall d path,
    In (d, path) (fst (fold_left (save_upload env req) fields (docs, draws))) ->
    prefix ("uploads/" ++ d ++ "_") path = true.
Proof.
  revert docs draws. induction fields as [|f fields IH]; intros docs draws Hdocs.
  - exact Hdocs.
  - cbn [fold_left].
    destruct (save_upload env req (docs, draws) f) as [docs' draws'] eqn:E.
    apply IH. intros d path Hin.
    unfold save_upload in E.
    destruct (dict_get (files req) f) as [fn|].
    + destruct (negb (fn =? "")).
      * apply pair_equal_spec in E; destruct E as [<- <-]. apply dict_set_mem in Hin.
        destruct Hin as [[-> ->] | Hin]; [|now apply Hdocs].
        rewrite !prefix_app_cancel.
        match goal with
        | |- prefix "_" ("_" ++ ?rest) = true =>
            change (prefix "_" (String "_" rest) = true); destruct rest
        end; reflexivity.
      * apply pair_equal_spec in E; destruct E as [<- <-]. now apply Hdocs.
    + apply pair_equal_spec in E; destruct E as [<- <-]. now apply Hdocs.
Qed.

(** ** Keys *)

Lemma fold_left_max_upper (l : list Z) (a : Z) :
  a <= fold_left Z.max l a /\ forall x, In x l -> x <= fold_left Z.max l a.
Proof.
  revert a. induction l as [|y l IH]; intros a; simpl.
  - split; [lia | tauto].
  - destruct (IH (Z.max a y)) as [H1 H2]. split; [lia|].
    intros x [<- | Hx]; [lia | auto].
Qed.

Lemma next_id_fresh (db : Database) : ~ In (next_id db) (ids db).
Proof.
  unfold next_id, ids. intros H.
  apply (proj2 (fold_left_max_upper (map id db) 0)) in H. lia.
Qed.

Lemma next_id_positive (db : Database) : 0 < next_id db.
Proof.
  unfold next_id. pose proof (proj1 (fold_left_max_upper (map id db) 0)). lia.
Qed.

Lemma references_app (db : Database) (row : MeteringApplication) :
  references (db ++ [row])%list
  = (references db
     ++ match reference_number row with Some r => [r] | None => [] end)%list.
Proof.
  induction db as [|a db IH]; simpl.
  - destruct (reference_number row); reflexivity.
  - rewrite IH. destruct (reference_number a); reflexivity.
Qed.

Lemma references_mem (db : Database) (r : string) :
  In r (references db) <-> exists a, In a db /\ reference_number a = Some r.
Proof.
  induction db as [|a db IH]; simpl.
  - split; [tauto | intros (a & [] & _)].
  - destruct (reference_number a) as [r'|] eqn:E; simpl; rewrite IH; split.
    + intros [<- | (b & Hb & Hr)]; [exists a; auto | exists b; auto].
    + intros (b & [<- | Hb] & Hr); [left; congruence | right; exists b; auto].
    + intros (b & Hb & Hr). exists b; auto.
    + intros (b & [<- | Hb] & Hr); [congruence | exists b; auto].
Qed.

Lemma is_str_false (v : option string) (r : string) :
  is_str v r = false <-> v <> Some r.
Proof.
  destruct v as [s|]; simpl.
  - rewrite String.eqb_neq. split; congruence.
  - split; [discriminate | reflexivity].
Qed.

Lemma well_keyed_append (db : Database) (row : MeteringApplication) (r : string) :
  well_keyed db ->
  id row = next_id db ->
  reference_number row = Some r ->
  (forall a, In a db -> is_str (reference_number a) r = false) ->
  well_keyed (db ++ [row])%list.
Proof.
  intros [Hids Hrefs] Hid Href Huniq. split.
  - unfold ids. rewrite map_app. apply NoDup_app; [exact Hids | |].
    + simpl. constructor; [tauto | constructor].
    + intros x Hx [<- | []]. rewrite Hid in Hx. now apply (next_id_fresh db).
  - rewrite references_app, Href. apply NoDup_app; [exact Hrefs | |].
    + constructor; [simpl; tauto | constructor].
    + intros x Hx [<- | []]. apply references_mem in Hx.
      destruct Hx as (a & Ha & Hr). specialize (Huniq a Ha).
      apply is_str_false in Huniq. contradiction.
Qed.

Lemma db_update_keys (db : Database) (app_id : Z) (a b : MeteringApplication) :
  query_get db app_id = Some a ->
  id b = id a -> reference_number b = reference_number a ->
  ids (db_update db app_id b) = ids db /\
  references (db_update db app_id b) = references db.
Proof.
  unfold query_get. intros Hq Hid Href.
  induction db as [|x db IH]; simpl in *; [discriminate|].
  destruct (id x =? app_id)%Z eqn:E.
  - injection Hq as ->. simpl. now rewrite Hid, Href.
  - destruct (IH Hq) as [H1 H2]. simpl. now rewrite H1, H2.
Qed.

(** In a table without repeated references, the row an update rewrites is
    the row its reference finds, before and after. *)
Lemma lookup_after_update
    (db : Database) (app_id : Z) (a b : MeteringApplication) (r : string) :
  NoDup (references db) ->
  query_get db app_id = Some a ->
  reference_number a = Some r -> reference_number b = Some r ->
  query_by_reference db r = Some a /\
  query_by_reference (db_update db app_id b) r = Some b.
Proof.
  unfold query_get, query_by_reference. intros Hnd Hq Ha Hb.
  induction db as [|x db IH]; simpl in *; [discriminate|].
  destruct (id x =? app_id)%Z eqn:E.
  - injection Hq as ->. simpl. rewrite Ha, Hb. simpl.
    now rewrite String.eqb_refl.
  - assert (Hin : In a db) by (apply find_some in Hq; tauto).
    assert (Hx : is_str (reference_number x) r = false).
    { apply is_str_false. intros Hxr. rewrite Hxr in Hnd.
      apply NoDup_cons_iff in Hnd. destruct Hnd as [Hnot _]. apply Hnot.
      apply references_mem. exists a. auto. }
    simpl. rewrite Hx. apply IH; [|exact Hq].
    destruct (reference_number x); [|exact Hnd].
    now apply NoDup_cons_iff in Hnd.
Qed.

(** ** Text of a reference *)

Lemma length_append (s1 s2 : string) :
  String.length (s1 ++ s2) = (String.length s1 + String.length s2)%nat.
Proof. induction s1 as [|c s1 IH]; simpl; [reflexivity | now rewrite IH]. Qed.

Lemma length_zero_pad (width : nat) (n : Z) : String.length (zero_pad width n) = width.
Proof.
  revert n. induction width as [|w IH]; intros n; simpl; [reflexivity|].
  rewrite length_append, IH. simpl. lia.
Qed.

Lemma metering_document_fields_mem (ownership_type d : string) :
  existsb (fun f => f =? d)
    (base_documents
     ++ [if ownership_type =? "owner" then "land_ownership" else "noc_document"])%list
  = true <->
  In d (metering_document_fields ownership_type).
Proof.
  rewrite existsb_exists. unfold metering_document_fields, base_documents.
  destruct (ownership_type =? "owner"); simpl; split.
  - intros (f & Hf & E). apply String.eqb_eq in E. subst f. tauto.
  - intros H. exists d. rewrite String.eqb_refl. tauto.
  - intros (f & Hf & E). apply String.eqb_eq in E. subst f. tauto.
  - intros H. exists d. rewrite String.eqb_refl. tauto.
Qed.

Lemma Ok_pair_inj {A B : Type} (a c : A) (b d : B) :
  Ok (a, b) = Ok (c, d) -> a = c /\ b = d.
Proof. intros H. injection H as -> ->. now split. Qed.

Lemma created_row_columns
    (env : Env) (req : Request) (t : option string) (cap : Q) (units : Z)
    (pt addr : option string) (own : string) (docs : list (string * string))
    (noc : option string) (ref : string) (n : Z) :
  let row :=
    with_id (new_application env req t cap units pt addr own docs noc ref) n in
  application_type row = t /\ property_address row = addr /\
  system_capacity row = cap /\ estimated_cost row = (cap * 80000)%Q /\
  documents row = docs /\ ownership_type row = own /\ noc_message row = noc.
Proof. repeat split. Qed.

Ltac other_outcome H Hs :=
  match goal with
  | Hr : ?f = Raise _ |- _ => rewrite Hr in H; discriminate H
  | Hr : ?f = Ok (_, _), Hf : succeeded _ = false |- _ =>
      rewrite Hr in H; injection H as <- <-; rewrite Hf in Hs; discriminate Hs
  end.

(** X6.  Whatever the request, neither form rewrites or removes a row: a
    request that returns either leaves the table exactly as it was, and then
    shows no success message, or appends one row, and then shows one.  The
    appended row carries the next primary key, the user of the session, the
    status [pending] and no admin notes. *)
Theorem X6_forms_only_append
    (env : Env) (req : Request) (db db' : Database) (out : Outcome)
    (metering : bool) :
  (if metering then apply_metering env req db
   else apply_solar_setup env req db) = Ok (out, db') ->
  (succeeded out = false /\ db' = db) \/
  (succeeded out = true /\
   exists row,
     db' = (db ++ [row])%list /\
     id row = next_id db /\
     user_id row = session_user_id req /\
     status row = Some "pending" /\
     admin_notes row = None).
Proof.
  destruct metering; intros H.
  - destruct (apply_metering_cases env req db)
      as [(e & Hr) | [(out0 & Hr & Hf) | (cap & units & Hsucc)]].
    + rewrite Hr in H. discriminate H.
    + rewrite Hr in H. injection H as <- <-. now left.
    + cbv zeta in Hsucc. destruct Hsucc as (_ & _ & _ & _ & _ & _ & _ & Hr).
      rewrite Hr in H. injection H as <- <-. right.
      split; [reflexivity|]. eexists. split; [reflexivity|].
      repeat split.
  - destruct (apply_solar_setup_cases env req db)
      as [(e & Hr) | [(out0 & Hr & Hf) | (cap & units & Hsucc)]].
    + rewrite Hr in H. discriminate H.
    + rewrite Hr in H. injection H as <- <-. now left.
    + cbv zeta in Hsucc. destruct Hsucc as (_ & _ & _ & _ & _ & _ & Hr).
      rewrite Hr in H. injection H as <- <-. right.
      split; [reflexivity|]. eexists. split; [reflexivity|].
      repeat split.
Qed.

Lemma X6_forms_only_append_witness :
  exists out db',
    apply_solar_setup sample_env solar_request_tenant sample_table = Ok (out, db') /\
    ((succeeded out = false /\ db' = sample_table) \/
     (succeeded out = true /\
      exists row,
        db' = (sample_table ++ [row])%list /\
        id row = next_id sample_table /\
        user_id row = session_user_id solar_request_tenant /\
        status row = Some "pending" /\
        admin_notes row = None)).
Proof.
  assert (Hrun : exists out db',
             apply_solar_setup sample_env solar_request_tenant sample_table
             = Ok (out, db')).
  { vm_compute. eexists. eexists. reflexivity. }
  destruct Hrun as (out & db' & Hrun).
  exists out, db'. split; [exact Hrun|].
  exact (X6_forms_only_append sample_env solar_request_tenant sample_table db'
           out false Hrun).
Defined.

(** X7.  Every row the metering form creates satisfies the checks of the
    form: its type and address are not empty, its capacity lies in [1, 50]
    and is at least 5 for type [net], its estimated cost is 80000 times its
    capacity, every document required for its ownership is stored, and its
    [noc_message] is the form's for a tenant, who supplied a NOC, and NULL
    for anyone else. *)
Theorem X7_metering_row_invariants
    (env : Env) (req : Request) (db db' : Database) (out : Outcome) :
  apply_metering env req db = Ok (out, db') ->
  succeeded out = true ->
  exists row,
    db' = (db ++ [row])%list /\
    truthy (application_type row) = true /\
    truthy (property_address row) = true /\
    (1 <= system_capacity row)%Q /\ (system_capacity row <= 50)%Q /\
    (application_type row = Some "net" -> (5 <= system_capacity row)%Q) /\
    estimated_cost row = (system_capacity row * 80000)%Q /\
    (forall d, In d (metering_required_documents (ownership_type row)) ->
               dict_mem d (documents row) = true) /\
    (ownership_type row = "tenant" ->
     noc_supplied req = true /\
     noc_message row = Some (form_get_default req "noc_message" "")) /\
    (ownership_type row <> "tenant" -> noc_message row = None).
Proof.
  intros H Hs.
  destruct (apply_metering_cases env req db)
    as [(e & Hr) | [(out0 & Hr & Hf) | (cap & units & Hsucc)]];
    try other_outcome H Hs.
  cbv zeta in Hsucc.
  destruct Hsucc as (_ & _ & _ & (Htype & Haddr & Hlo & Hhi & Hnet)
                     & Hnoc & Hmiss & _ & Hr).
  rewrite Hr in H. apply Ok_pair_inj in H. destruct H as [<- <-].
  eexists. split; [reflexivity|].
  match goal with
  | |- context [with_id (new_application ?e ?r ?t ?c ?u ?pt ?ad ?ow ?dc ?nc ?rf) ?n] =>
      destruct (created_row_columns e r t c u pt ad ow dc nc rf n)
        as (-> & -> & -> & -> & -> & -> & ->)
  end.
  set (own := form_get_default req "ownership_type" "owner") in *.
  split; [exact Htype|]. split; [exact Haddr|]. split; [exact Hlo|].
  split; [exact Hhi|]. split; [exact Hnet|]. split; [reflexivity|].
  split; [|split].
  - intros d Hd. rewrite uploads_mem, (metering_fields_cover own d Hd).
    now rewrite (not_uploaded_complete req _ Hmiss d Hd).
  - intros Ht. split; [now apply Hnoc|]. now rewrite Ht.
  - intros Hnt. apply String.eqb_neq in Hnt. now rewrite Hnt.
Qed.

Lemma X7_metering_row_invariants_witness :
  exists out db',
    apply_metering sample_env net_request [] = Ok (out, db') /\
    succeeded out = true /\
    exists row,
      db' = ([] ++ [row])%list /\
      truthy (application_type row) = true /\
      truthy (property_address row) = true /\
      (1 <= system_capacity row)%Q /\ (system_capacity row <= 50)%Q /\
      (application_type row = Some "net" -> (5 <= system_capacity row)%Q) /\
      estimated_cost row = (system_capacity row * 80000)%Q /\
      (forall d, In d (metering_required_documents (ownership_type row)) ->
                 dict_mem d (documents row) = true) /\
      (ownership_type row = "tenant" ->
       noc_supplied net_request = true /\
       noc_message row = Some (form_get_default net_request "noc_message" "")) /\
      (ownership_type row <> "tenant" -> noc_message row = None).
Proof.
  assert (Hrun : exists out db',
             apply_metering sample_env net_request [] = Ok (out, db') /\
             succeeded out = true).
  { vm_compute. eexists. eexists. split; reflexivity. }
  destruct Hrun as (out & db' & Hrun & Hs).
  exists out, db'. split; [exact Hrun|]. split; [exact Hs|].
  exact (X7_metering_row_invariants sample_env net_request [] db' out Hrun Hs).
Defined.

(** X8.  Every row the simple-solar form creates has type [simple_solar],
    ownership [owner] and no [noc_message], whatever the form says about
    ownership; its capacity lies in [1, 50], its address is not empty, its
    estimated cost is 80000 times its capacity, and the documents it stores
    are exactly the three base documents, whatever else was uploaded. *)
Theorem X8_solar_row_invariants
    (env : Env) (req : Request) (db db' : Database) (out : Outcome) :
  apply_solar_setup env req db = Ok (out, db') ->
  succeeded out = true ->
  exists row,
    db' = (db ++ [row])%list /\
    application_type row = Some "simple_solar" /\
    ownership_type row = "owner" /\
    noc_message row = None /\
    truthy (property_address row) = true /\
    (1 <= system_capacity row)%Q /\ (system_capacity row <= 50)%Q /\
    estimated_cost row = (system_capacity row * 80000)%Q /\
    (forall d, dict_mem d (documents row) = true <->
               d = "electricity_bill" \/ d = "cnic_front" \/ d = "cnic_back").
Proof.
  intros H Hs.
  destruct (apply_solar_setup_cases env req db)
    as [(e & Hr) | [(out0 & Hr & Hf) | (cap & units & Hsucc)]];
    try other_outcome H Hs.
  cbv zeta in Hsucc.
  destruct Hsucc as (_ & _ & _ & (Haddr & Hlo & Hhi) & Hmiss & _ & Hr).
  rewrite Hr in H. apply Ok_pair_inj in H. destruct H as [<- <-].
  eexists. split; [reflexivity|].
  match goal with
  | |- context [with_id (new_application ?e ?r ?t ?c ?u ?pt ?ad ?ow ?dc ?nc ?rf) ?n] =>
      destruct (created_row_columns e r t c u pt ad ow dc nc rf n)
        as (-> & -> & -> & -> & -> & -> & ->)
  end.
  split; [reflexivity|]. split; [reflexivity|]. split; [reflexivity|].
  split; [simpl; now apply negb_true_iff, String.eqb_neq|].
  split; [exact Hlo|]. split; [exact Hhi|]. split; [reflexivity|].
  intros d. rewrite uploads_mem.
  unfold dict_mem at 1. cbn [dict_get]. rewrite orb_false_r.
  split.
  - intros Hd. apply andb_true_iff in Hd. destruct Hd as [Hd _].
    apply existsb_exists in Hd. destruct Hd as (f & Hf & E).
    apply String.eqb_eq in E. subst f.
    unfold base_documents in Hf. simpl in Hf. intuition.
  - intros Hd.
    assert (Hin : In d solar_required_documents).
    { unfold solar_required_documents. simpl. intuition. }
    rewrite (solar_fields_cover d Hin).
    now rewrite (not_uploaded_complete req _ Hmiss d Hin).
Qed.

Lemma X8_solar_row_invariants_witness :
  exists out db',
    apply_solar_setup sample_env solar_request_tenant [] = Ok (out, db') /\
    succeeded out = true /\
    exists row,
      db' = ([] ++ [row])%list /\
      application_type row = Some "simple_solar" /\
      ownership_type row = "owner" /\
      noc_message row = None /\
      truthy (property_address row) = true /\
      (1 <= system_capacity row)%Q /\ (system_capacity row <= 50)%Q /\
      estimated_cost row = (system_capacity row * 80000)%Q /\
      (forall d, dict_mem d (documents row) = true <->
                 d = "electricity_bill" \/ d = "cnic_front" \/ d = "cnic_back").
Proof.
  assert (Hrun : exists out db',
             apply_solar_setup sample_env solar_request_tenant [] = Ok (out, db') /\
             succeeded out = true).
  { vm_compute. eexists. eexists. split; reflexivity. }
  destruct Hrun as (out & db' & Hrun & Hs).
  exists out, db'. split; [exact Hrun|]. split; [exact Hs|].
  exact (X8_solar_row_invariants sample_env solar_request_tenant [] db' out
           Hrun Hs).
Defined.

(** X9.  No handler breaks the keys of the table: when no primary key and
    no reference number occurs twice, the same holds after either form and
    after an admin update, which moreover keeps the list of keys and the
    list of references as they were. *)
Theorem X9_keys_stay_unique
    (env : Env) (req : Request) (db : Database) :
  well_keyed db ->
  (forall out db', apply_metering env req db = Ok (out, db') -> well_keyed db') /\
  (forall out db', apply_solar_setup env req db = Ok (out, db') -> well_keyed db') /\
  (forall app_id,
      let db' := snd (admin_application_detail env req app_id db) in
      ids db' = ids db /\ references db' = references db /\ well_keyed db').
Proof.
  intros Hk. split; [|split].
  - intros out db' H.
    destruct (apply_metering_cases env req db)
      as [(e & Hr) | [(out0 & Hr & Hf) | (cap & units & Hsucc)]].
    + rewrite Hr in H. discriminate H.
    + rewrite Hr in H. apply Ok_pair_inj in H. destruct H as [_ <-]. exact Hk.
    + cbv zeta in Hsucc. destruct Hsucc as (_ & _ & _ & _ & _ & _ & Huniq & Hr).
      rewrite Hr in H. apply Ok_pair_inj in H. destruct H as [_ <-].
      eapply well_keyed_append; [exact Hk | reflexivity | reflexivity | exact Huniq].
  - intros out db' H.
    destruct (apply_solar_setup_cases env req db)
      as [(e & Hr) | [(out0 & Hr & Hf) | (cap & units & Hsucc)]].
    + rewrite Hr in H. discriminate H.
    + rewrite Hr in H. apply Ok_pair_inj in H. destruct H as [_ <-]. exact Hk.
    + cbv zeta in Hsucc. destruct Hsucc as (_ & _ & _ & _ & _ & Huniq & Hr).
      rewrite Hr in H. apply Ok_pair_inj in H. destruct H as [_ <-].
      eapply well_keyed_append; [exact Hk | reflexivity | reflexivity | exact Huniq].
  - intros app_id. cbv zeta. unfold admin_application_detail.
    destruct (query_get db app_id) as [a|] eqn:Hq;
      [|cbn [snd]; split; [reflexivity | split; [reflexivity | exact Hk]]].
    destruct (method req); cbn [snd];
      [split; [reflexivity | split; [reflexivity | exact Hk]]|].
    destruct (db_update_keys db app_id a
                (with_admin_update a (form_get req "status")
                   (form_get req "admin_notes") (utcnow env)) Hq eq_refl eq_refl)
      as [Hi Hr].
    split; [exact Hi|]. split; [exact Hr|].
    unfold well_keyed. now rewrite Hi, Hr.
Qed.

Lemma sample_table_well_keyed : well_keyed sample_table.
Proof.
  split; repeat constructor; simpl; tauto.
Qed.

Lemma X9_keys_stay_unique_witness :
  well_keyed sample_table /\
  (forall out db',
      apply_metering sample_env net_request sample_table = Ok (out, db') ->
      well_keyed db') /\
  (forall out db',
      apply_solar_setup sample_env net_request sample_table = Ok (out, db') ->
      well_keyed db') /\
  (forall app_id,
      let db' := snd (admin_application_detail sample_env net_request app_id
                        sample_table) in
      ids db' = ids sample_table /\
      references db' = references sample_table /\ well_keyed db').
Proof.
  split; [exact sample_table_well_keyed|].
  exact (X9_keys_stay_unique sample_env net_request sample_table
           sample_table_well_keyed).
Defined.

(** X10.  An admin update shows in the status lookup.  In a table without
    repeated references, after the admin posted a status for the row of
    primary key [app_id], the lookup of that row's reference answers 200 with
    the new status and the time of the update, and with the type, the
    capacity and the submission date the row had before. *)
Theorem X10_update_then_lookup
    (env : Env) (req : Request) (app_id : Z) (db : Database)
    (a : MeteringApplication) (reference : string) :
  method req = POST ->
  NoDup (references db) ->
  query_get db app_id = Some a ->
  reference_number a = Some reference ->
  api_application_status reference
    (snd (admin_application_detail env req app_id db)) =
  jsonify
    [("reference_number", JString reference);
     ("type", json_of_column (application_type a));
     ("capacity", JNumber (system_capacity a));
     ("status", json_of_column (form_get req "status"));
     ("submitted_at", JString (strftime_Y_m_d (submitted_at a)));
     ("updated_at", JString (strftime_Y_m_d (utcnow env)))]
    200.
Proof.
  intros Hm Hnd Hq Hr.
  rewrite (admin_update_found env req app_id db a Hm Hq).
  unfold api_application_status.
  destruct (lookup_after_update db app_id a
              (with_admin_update a (form_get req "status")
                 (form_get req "admin_notes") (utcnow env))
              reference Hnd Hq Hr Hr) as [_ ->].
  unfold with_admin_update. cbn [reference_number application_type
    system_capacity status submitted_at updated_at]. now rewrite Hr.
Qed.

Lemma X10_update_then_lookup_witness :
  (method approve_request = POST /\
   NoDup (references sample_table)) /\
  exists a,
    query_get sample_table 1 = Some a /\
    reference_number a = Some "NET-20240309-5325" /\
    api_application_status "NET-20240309-5325"
      (snd (admin_application_detail later_env approve_request 1 sample_table)) =
    jsonify
      [("reference_number", JString "NET-20240309-5325");
       ("type", json_of_column (application_type a));
       ("capacity", JNumber (system_capacity a));
       ("status", json_of_column (form_get approve_request "status"));
       ("submitted_at", JString (strftime_Y_m_d (submitted_at a)));
       ("updated_at", JString (strftime_Y_m_d (utcnow later_env)))]
      200.
Proof.
  split; [split; [reflexivity | exact (proj2 sample_table_well_keyed)]|].
  eexists. split; [reflexivity|]. split; [reflexivity|].
  exact (X10_update_then_lookup later_env approve_request 1 sample_table _
           "NET-20240309-5325" eq_refl (proj2 sample_table_well_keyed)
           eq_refl eq_refl).
Defined.

(** X11.  A generated reference is its prefix, a dash, the eight digits of
    the date, a dash and four digits: [NET] for type [net], [GROSS] for
    [gross], [SOL] for [simple_solar] and [APP] for anything else.  It is at
    most 19 characters long, so it fits the 20 characters of its column. *)
Theorem X11_reference_text (env : Env) (k : nat) (application_type : option string) :
  exists prefix,
    generate_reference env k application_type
    = prefix ++ "-" ++ strftime_Ymd (now env) ++ "-"
      ++ zero_pad 4 (randint env k 1000 9999) /\
    (application_type = Some "net" -> prefix = "NET") /\
    (application_type = Some "gross" -> prefix = "GROSS") /\
    (application_type = Some "simple_solar" -> prefix = "SOL") /\
    (application_type <> Some "net" -> application_type <> Some "gross" ->
     application_type <> Some "simple_solar" -> prefix = "APP") /\
    String.length (generate_reference env k application_type)
    = (String.length prefix + 14)%nat /\
    (String.length (generate_reference env k application_type) <= 19)%nat.
Proof.
  unfold generate_reference. cbv zeta.
  set (prefix := match application_type with
                 | Some t =>
                     match dict_get [("net", "NET"); ("gross", "GROSS");
                                     ("simple_solar", "SOL")] t with
                     | Some p => p
                     | None => "APP"
                     end
                 | None => "APP"
                 end).
  assert (Hcases : (application_type = Some "net" /\ prefix = "NET") \/
                   (application_type = Some "gross" /\ prefix = "GROSS") \/
                   (application_type = Some "simple_solar" /\ prefix = "SOL") \/
                   (application_type <> Some "net" /\
                    application_type <> Some "gross" /\
                    application_type <> Some "simple_solar" /\ prefix = "APP")).
  { subst prefix. destruct application_type as [t|].
    - cbn [dict_get].
      destruct (String.eqb_spec "net" t) as [<- | Hn]; [now left|].
      destruct (String.eqb_spec "gross" t) as [<- | Hg]; [right; now left|].
      destruct (String.eqb_spec "simple_solar" t) as [<- | Hs];
        [right; right; now left|].
      right. right. right. repeat split; congruence.
    - right. right. right. repeat split; congruence. }
  exists prefix. split; [reflexivity|].
  assert (Hlen : String.length
                   (prefix ++ "-" ++ strftime_Ymd (now env) ++ "-"
                    ++ zero_pad 4 (randint env k 1000 9999))
                 = (String.length prefix + 14)%nat).
  { unfold strftime_Ymd. rewrite !length_append, !length_zero_pad. simpl. lia. }
  split; [|split; [|split; [|split; [|split]]]].
  - intros E. destruct Hcases as [[_ H] | [[H _] | [[H _] | (H & _)]]];
      congruence.
  - intros E. destruct Hcases as [[H _] | [[_ H] | [[H _] | (_ & H & _)]]];
      congruence.
  - intros E. destruct Hcases as [[H _] | [[H _] | [[_ H] | (_ & _ & H & _)]]];
      congruence.
  - intros E1 E2 E3.
    destruct Hcases as [[H _] | [[H _] | [[H _] | (_ & _ & _ & H)]]];
      congruence.
  - exact Hlen.
  - rewrite Hlen.
    destruct Hcases as [[_ ->] | [[_ ->] | [[_ ->] | (_ & _ & _ & ->)]]];
      simpl; lia.
Qed.

(** X12.  The documents a metering row stores are exactly the uploads the
    request carries among the fields the form offers for its ownership: the
    three base documents, and [land_ownership] for an owner or
    [noc_document] for anyone else.  An upload under any other field, an
    owner's [noc_document] included, is dropped; every stored path starts
    with [uploads/] and the name of its field. *)
Theorem X12_metering_stored_documents
    (env : Env) (req : Request) (db db' : Database) (out : Outcome) :
  apply_metering env req db = Ok (out, db') ->
  succeeded out = true ->
  exists row,
    db' = (db ++ [row])%list /\
    ownership_type row = form_get_default req "ownership_type" "owner" /\
    (forall d, dict_mem d (documents row) = true <->
               In d (metering_document_fields (ownership_type row)) /\
               has_upload req d = true) /\
    (forall d path, In (d, path) (documents row) ->
                    prefix ("uploads/" ++ d ++ "_") path = true).
Proof.
  intros H Hs.
  destruct (apply_metering_cases env req db)
    as [(e & Hr) | [(out0 & Hr & Hf) | (cap & units & Hsucc)]];
    try other_outcome H Hs.
  cbv zeta in Hsucc.
  destruct Hsucc as (_ & _ & _ & _ & _ & _ & _ & Hr).
  rewrite Hr in H. apply Ok_pair_inj in H. destruct H as [<- <-].
  eexists. split; [reflexivity|].
  match goal with
  | |- context [with_id (new_application ?e ?r ?t ?c ?u ?pt ?ad ?ow ?dc ?nc ?rf) ?n] =>
      destruct (created_row_columns e r t c u pt ad ow dc nc rf n)
        as (_ & _ & _ & _ & -> & -> & _)
  end.
  set (own := form_get_default req "ownership_type" "owner") in *.
  split; [reflexivity|]. split.
  - intros d. rewrite uploads_mem.
    unfold dict_mem at 1. cbn [dict_get]. rewrite orb_false_r.
    rewrite andb_true_iff, metering_document_fields_mem. reflexivity.
  - apply stored_paths. intros d path [].
Qed.

Lemma X12_metering_stored_documents_witness :
  exists out db',
    apply_metering sample_env net_request [] = Ok (out, db') /\
    succeeded out = true /\
    exists row,
      db' = ([] ++ [row])%list /\
      ownership_type row = form_get_default net_request "ownership_type" "owner" /\
      (forall d, dict_mem d (documents row) = true <->
                 In d (metering_document_fields (ownership_type row)) /\
                 has_upload net_request d = true) /\
      (forall d path, In (d, path) (documents row) ->
                      prefix ("uploads/" ++ d ++ "_") path = true).
Proof.
  assert (Hrun : exists out db',
             apply_metering sample_env net_request [] = Ok (out, db') /\
             succeeded out = true).
  { vm_compute. eexists. eexists. split; reflexivity. }
  destruct Hrun as (out & db' & Hrun & Hs).
  exists out, db'. split; [exact Hrun|]. split; [exact Hs|].
  exact (X12_metering_stored_documents sample_env net_request [] db' out Hrun Hs).
Defined.

End IntakeMore.

(** * Facts about the shop *)

Module ShopFacts.

Import PyNum PyNumFacts Intake IntakeMore Shop.
Local Open Scope string_scope.
Local Open Scope Z_scope.

(** ** Keys *)

Lemma next_key_fresh (keys : list Z) : ~ In (next_key keys) keys.
Proof.
  unfold next_key. intros H.
  apply (proj2 (fold_left_max_upper keys 0)) in H. lia.
Qed.

(** ** Rows of the cart table *)

Lemma find_cart_mem (f : Cart.t -> bool) (rows : list Cart.t) (c : Cart.t) :
  find f rows = Some c -> In c rows /\ f c = true.
Proof. apply find_some. Qed.

(** With distinct primary keys, rewriting the row of key [Cart.id c] rewrites
    [c] and nothing else. *)
Lemma update_cart_row_split (rows : list Cart.t) (c c' : Cart.t) :
  NoDup (map Cart.id rows) -> In c rows ->
  exists before after,
    rows = (before ++ c :: after)%list /\
    update_cart_row rows (Cart.id c) c' = (before ++ c' :: after)%list.
Proof.
  induction rows as [|x rows IH]; intros Hnd Hin; [contradiction|].
  simpl in Hnd. apply NoDup_cons_iff in Hnd. destruct Hnd as [Hx Hnd].
  simpl. destruct (Cart.id x =? Cart.id c) eqn:E.
  - apply Z.eqb_eq in E. destruct Hin as [-> | Hin].
    + exists [], rows. split; reflexivity.
    + exfalso. apply Hx. rewrite E. now apply in_map.
  - destruct Hin as [-> | Hin]; [rewrite Z.eqb_refl in E; discriminate|].
    destruct (IH Hnd Hin) as (before & after & -> & ->).
    exists (x :: before), after. split; reflexivity.
Qed.

Lemma delete_cart_row_split (rows : list Cart.t) (c : Cart.t) :
  NoDup (map Cart.id rows) -> In c rows ->
  exists before after,
    rows = (before ++ c :: after)%list /\
    delete_cart_row rows (Cart.id c) = (before ++ after)%list.
Proof.
  induction rows as [|x rows IH]; intros Hnd Hin; [contradiction|].
  simpl in Hnd. apply NoDup_cons_iff in Hnd. destruct Hnd as [Hx Hnd].
  unfold delete_cart_row in *. simpl.
  destruct (Cart.id x =? Cart.id c) eqn:E; simpl.
  - apply Z.eqb_eq in E. destruct Hin as [-> | Hin].
    + exists [], rows. split; [reflexivity|]. simpl.
      apply forallb_filter_id. apply forallb_forall. intros y Hy.
      apply negb_true_iff, Z.eqb_neq. intros Ey. apply Hx.
      rewrite <- Ey. now apply in_map.
    + exfalso. apply Hx. rewrite E. now apply in_map.
  - destruct Hin as [-> | Hin]; [rewrite Z.eqb_refl in E; discriminate|].
    destruct (IH Hnd Hin) as (before & after & -> & Hdel).
    exists (x :: before), after. split; [reflexivity|]. simpl. now rewrite Hdel.
Qed.

Lemma cart_quantity_app (rows1 rows2 : list Cart.t) (user product_id : Z) :
  cart_quantity (rows1 ++ rows2) user product_id
  = cart_quantity rows1 user product_id + cart_quantity rows2 user product_id.
Proof.
  unfold cart_quantity. rewrite filter_app, map_app.
  induction (map Cart.quantity (filter _ rows1)) as [|q l IH]; simpl; lia.
Qed.

Lemma cart_quantity_cons (c : Cart.t) (rows : list Cart.t) (user product_id : Z) :
  cart_quantity (c :: rows) user product_id
  = (if (Cart.user_id c =? user) && (Cart.product_id c =? product_id)
     then Cart.quantity c else 0)
    + cart_quantity rows user product_id.
Proof.
  unfold cart_quantity. simpl.
  destruct ((Cart.user_id c =? user) && (Cart.product_id c =? product_id));
    reflexivity.
Qed.

Lemma cart_items_of_app (st : Store) (rows1 rows2 : list Cart.t) (user : Z) :
  filter (fun c => Cart.user_id c =? user) (rows1 ++ rows2)
  = (filter (fun c => Cart.user_id c =? user) rows1
     ++ filter (fun c => Cart.user_id c =? user) rows2)%list.
Proof. apply filter_app. Qed.

(** ** Products *)

Lemma find_product_update (rows : list Product.t) (pid q : Z) (product' : Product.t) :
  Product.id product' = pid ->
  find (fun p => Product.id p =? q) (update_product_row rows pid product')
  = if q =? pid
    then match find (fun p => Product.id p =? pid) rows with
         | Some _ => Some product'
         | None => None
         end
    else find (fun p => Product.id p =? q) rows.
Proof.
  intros Hid. induction rows as [|x rows IH]; simpl.
  - now destruct (q =? pid).
  - destruct (Product.id x =? pid) eqn:Ex; simpl.
    + apply Z.eqb_eq in Ex. rewrite Hid.
      destruct (q =? pid) eqn:Eq.
      * apply Z.eqb_eq in Eq. subst q. now rewrite Z.eqb_refl.
      * rewrite Ex. rewrite (Z.eqb_sym pid q), Eq. reflexivity.
    + destruct (Product.id x =? q) eqn:Exq.
      * apply Z.eqb_eq in Exq. subst q. rewrite Ex. reflexivity.
      * exact IH.
Qed.

(** ** The price of a cart row *)

Lemma add_lines_cons (st : Store) (item : Cart.t) (rest : list Cart.t) (total : Q) :
  add_lines st (item :: rest) total = Fail AttributeError.
Proof. reflexivity. Qed.

(** ** The 64 bits of an INTEGER *)

Lemma bind_integer_ok (n : Z) : sqlite_integer n = true -> bind_integer n = Done n.
Proof. intros H. unfold bind_integer. now rewrite H. Qed.

Lemma bind_integer_fail (n : Z) :
  sqlite_integer n = false -> bind_integer n = Fail OverflowError.
Proof. intros H. unfold bind_integer. now rewrite H. Qed.

(** ** Lookups after a write *)

Lemma find_cart_update (rows : list Cart.t) (cid k : Z) (item : Cart.t) :
  Cart.id item = cid ->
  find (fun c => Cart.id c =? k) (update_cart_row rows cid item)
  = if k =? cid
    then match find (fun c => Cart.id c =? cid) rows with
         | Some _ => Some item
         | None => None
         end
    else find (fun c => Cart.id c =? k) rows.
Proof.
  intros Hid. induction rows as [|x rows IH]; simpl.
  - now destruct (k =? cid).
  - destruct (Cart.id x =? cid) eqn:Ex; simpl.
    + apply Z.eqb_eq in Ex. rewrite Hid.
      destruct (k =? cid) eqn:Ek.
      * apply Z.eqb_eq in Ek. subst k. now rewrite Z.eqb_refl.
      * rewrite Ex. rewrite (Z.eqb_sym cid k), Ek. reflexivity.
    + destruct (Cart.id x =? k) eqn:Exk.
      * apply Z.eqb_eq in Exk. subst k. rewrite Ex. reflexivity.
      * exact IH.
Qed.

Lemma find_cart_delete (rows : list Cart.t) (cid k : Z) :
  find (fun c => Cart.id c =? k) (delete_cart_row rows cid)
  = if k =? cid then None else find (fun c => Cart.id c =? k) rows.
Proof.
  unfold delete_cart_row. induction rows as [|x rows IH]; simpl.
  - now destruct (k =? cid).
  - destruct (Cart.id x =? cid) eqn:Ex; simpl.
    + rewrite IH. destruct (k =? cid) eqn:Ek; [reflexivity|].
      apply Z.eqb_eq in Ex. rewrite Ex, (Z.eqb_sym cid k), Ek. reflexivity.
    + destruct (Cart.id x =? k) eqn:Exk.
      * apply Z.eqb_eq in Exk. subst k. now rewrite Ex.
      * exact IH.
Qed.

End ShopFacts.

(** * More on the shop *)

Module ShopMore.

Import PyNum Intake Sample Shop ShopFacts ShopSample.
Local Open Scope string_scope.
Local Open Scope Z_scope.

Lemma map_id_update_cart_row (rows : list Cart.t) (cid : Z) (item : Cart.t) :
  Cart.id item = cid ->
  map Cart.id (update_cart_row rows cid item) = map Cart.id rows.
Proof.
  intros Hid. induction rows as [|x rows IH]; simpl; [reflexivity|].
  destruct (Cart.id x =? cid) eqn:E; simpl.
  - apply Z.eqb_eq in E. now rewrite Hid, E.
  - now rewrite IH.
Qed.

Lemma update_cart_row_mem (rows : list Cart.t) (c item : Cart.t) :
  In c rows -> In item (update_cart_row rows (Cart.id c) item).
Proof.
  induction rows as [|x rows IH]; intros Hin; [contradiction|]. simpl.
  destruct (Cart.id x =? Cart.id c) eqn:E; [now left|].
  destruct Hin as [-> | Hin]; [rewrite Z.eqb_refl in E; discriminate|].
  right. now apply IH.
Qed.

Lemma find_none_filter {A : Type} (f : A -> bool) (l : list A) :
  find f l = None -> filter f l = [].
Proof.
  induction l as [|x l IH]; simpl; [reflexivity|].
  destruct (f x); [discriminate | exact IH].
Qed.

Lemma sample_cart_keys : NoDup (map Cart.id (carts shop)).
Proof. simpl. repeat constructor; simpl; intuition discriminate. Qed.

(** What [add_to_cart] does to the cart table when the integers it binds
    fit, whatever the product. *)
Lemma add_to_cart_rows (env : Env) (req : Request) (product_id : Z) (st : Store)
    (q : Z) :
  NoDup (map Cart.id (carts st)) ->
  form_int_default env req "quantity" 1 = Ok q ->
  sqlite_integer product_id = true ->
  sqlite_integer (written_quantity st (session_user_id req) product_id q) = true ->
  exists rows,
    add_to_cart env req product_id st
    = Done (flash_then "Product added to cart" "success" (redirect_to "cart" None),
            with_carts st rows) /\
    NoDup (map Cart.id rows) /\
    ((exists before c after,
         carts st = (before ++ c :: after)%list /\
         rows = (before ++ set_quantity c (Cart.quantity c + q) :: after)%list /\
         Cart.user_id c = session_user_id req /\
         Cart.product_id c = product_id)
     \/
     (exists c,
         rows = (carts st ++ [c])%list /\
         Cart.user_id c = session_user_id req /\
         Cart.product_id c = product_id /\
         Cart.quantity c = q /\
         cart_quantity (carts st) (session_user_id req) product_id = 0)).
Proof.
  intros Hnd Hq Hp Hw. unfold add_to_cart. rewrite Hq. cbn [python and_then].
  rewrite (bind_integer_ok _ Hp). cbn [and_then].
  unfold written_quantity in Hw.
  destruct (find _ (carts st)) as [c|] eqn:Ef.
  - rewrite (bind_integer_ok _ Hw). cbn [and_then].
    eexists. split; [reflexivity|].
    apply find_some in Ef. destruct Ef as [Hin Hc].
    apply andb_true_iff in Hc. destruct Hc as [Hu Hpc].
    apply Z.eqb_eq in Hu, Hpc.
    split; [now rewrite map_id_update_cart_row|].
    left.
    destruct (update_cart_row_split (carts st) c
                (set_quantity c (Cart.quantity c + q)) Hnd Hin)
      as (before & after & Hrows & Hupd).
    exists before, c, after. repeat split; assumption.
  - rewrite (bind_integer_ok _ Hw). cbn [and_then].
    eexists. split; [reflexivity|]. split.
    + rewrite map_app. apply NoDup_app; [exact Hnd | |].
      * simpl. constructor; [tauto | constructor].
      * intros x Hx [<- | []]. now apply (next_key_fresh (map Cart.id (carts st))).
    + right. eexists. split; [reflexivity|].
      cbn [Cart.user_id Cart.product_id Cart.quantity].
      repeat split. unfold cart_quantity.
      now rewrite (find_none_filter _ _ Ef).
Qed.

Lemma add_to_cart_overflow (env : Env) (req : Request) (product_id : Z)
    (st : Store) (q : Z) :
  form_int_default env req "quantity" 1 = Ok q ->
  sqlite_integer product_id
  && sqlite_integer (written_quantity st (session_user_id req) product_id q)
  = false ->
  add_to_cart env req product_id st = Fail OverflowError.
Proof.
  intros Hq Hc. unfold add_to_cart. rewrite Hq. cbn [python and_then].
  destruct (sqlite_integer product_id) eqn:Hp.
  - rewrite (bind_integer_ok _ Hp). cbn [and_then].
    cbn [andb] in Hc. unfold written_quantity in Hc.
    destruct (find _ (carts st)); now rewrite (bind_integer_fail _ Hc).
  - now rewrite (bind_integer_fail _ Hp).
Qed.

(** X13 (add_to_cart, lines 599-616).  With distinct cart keys and a
    quantity field that parses to [q], [add_to_cart] looks at nothing but
    the 64 bits of the integers it binds, the product id and the quantity
    it writes: when one of them does not fit it raises [OverflowError];
    otherwise it succeeds, for any product id (known or not) and any [q]
    (zero and negative included), the quantity the user holds of that
    product grows by exactly [q], every other (user, product) quantity is
    unchanged, the other tables are untouched and the cart keys stay
    distinct. *)
Theorem X13_add_to_cart_accumulates (env : Env) (req : Request) (product_id : Z)
    (st : Store) (q : Z) :
  NoDup (map Cart.id (carts st)) ->
  form_int_default env req "quantity" 1 = Ok q ->
  if sqlite_integer product_id
     && sqlite_integer (written_quantity st (session_user_id req) product_id q)
  then
    exists st',
      add_to_cart env req product_id st
      = Done (flash_then "Product added to cart" "success" (redirect_to "cart" None),
              st') /\
      products st' = products st /\
      orders st' = orders st /\
      order_items st' = order_items st /\
      NoDup (map Cart.id (carts st')) /\
      cart_quantity (carts st') (session_user_id req) product_id
      = cart_quantity (carts st) (session_user_id req) product_id + q /\
      (forall user p,
          user <> session_user_id req \/ p <> product_id ->
          cart_quantity (carts st') user p = cart_quantity (carts st) user p)
  else add_to_cart env req product_id st = Fail OverflowError.
Proof.
  intros Hnd Hq.
  destruct (sqlite_integer product_id && sqlite_integer _) eqn:Hfit;
    [|now apply (add_to_cart_overflow env req product_id st q)].
  apply andb_true_iff in Hfit. destruct Hfit as [Hp Hw].
  destruct (add_to_cart_rows env req product_id st q Hnd Hq Hp Hw)
    as (rows & Hrun & Hnd' & Hrows).
  exists (with_carts st rows). split; [exact Hrun|].
  split; [reflexivity|]. split; [reflexivity|]. split; [reflexivity|].
  split; [exact Hnd'|]. cbn [with_carts carts].
  destruct Hrows as [(before & c & after & Hst & -> & Hu & Hpc)
                    | (c & -> & Hu & Hpc & Hqc & Hzero)].
  - rewrite Hst. split.
    + rewrite !cart_quantity_app, !cart_quantity_cons.
      cbn [set_quantity Cart.user_id Cart.product_id Cart.quantity].
      rewrite Hu, Hpc, !Z.eqb_refl. simpl. lia.
    + intros user p Hne.
      rewrite !cart_quantity_app, !cart_quantity_cons.
      cbn [set_quantity Cart.user_id Cart.product_id Cart.quantity].
      rewrite Hu, Hpc.
      assert (E : (session_user_id req =? user) && (product_id =? p) = false).
      { apply andb_false_iff. destruct Hne as [Hne | Hne]; [left | right];
          apply Z.eqb_neq; congruence. }
      now rewrite E.
  - split.
    + rewrite cart_quantity_app, cart_quantity_cons.
      rewrite Hu, Hpc, !Z.eqb_refl, Hqc. simpl.
      change (cart_quantity [] (session_user_id req) product_id) with 0. lia.
    + intros user p Hne.
      rewrite cart_quantity_app, cart_quantity_cons. rewrite Hu, Hpc.
      assert (E : (session_user_id req =? user) && (product_id =? p) = false).
      { apply andb_false_iff. destruct Hne as [Hne | Hne]; [left | right];
          apply Z.eqb_neq; congruence. }
      rewrite E. change (cart_quantity [] user p) with 0. lia.
Qed.

(** In the sample shop user 7, who holds four panels, adds three. *)
Lemma X13_add_to_cart_accumulates_witness :
  exists st',
    add_to_cart sample_env add_three 1 shop
    = Done (flash_then "Product added to cart" "success" (redirect_to "cart" None),
            st') /\
    cart_quantity (carts st') 7 1 = 7 /\
    cart_quantity (carts st') 8 1 = 1.
Proof.
  assert (Hq3 : form_int_default sample_env add_three "quantity" 1 = Ok 3)
    by (vm_compute; reflexivity).
  pose proof (X13_add_to_cart_accumulates sample_env add_three 1 shop 3
                sample_cart_keys Hq3) as H.
  assert (Hfit : sqlite_integer 1
                 && sqlite_integer
                      (written_quantity shop (session_user_id add_three) 1 3)
                 = true) by (vm_compute; reflexivity).
  rewrite Hfit in H.
  destruct H as (st' & Hrun & _ & _ & _ & _ & Hq & Hother).
  exists st'. split; [exact Hrun|]. split.
  - exact Hq.
  - rewrite (Hother 8 1); [reflexivity|].
    left. intros H. vm_compute in H. discriminate H.
Defined.

Lemma get_cart_id (st : Store) (cart_id : Z) (c : Cart.t) :
  get_cart st cart_id = Some c -> In c (carts st) /\ Cart.id c = cart_id.
Proof.
  unfold get_cart. intros H. apply find_some in H. destruct H as [Hin H].
  split; [exact Hin | now apply Z.eqb_eq].
Qed.

(** X14 (update_cart, lines 630-647; remove_from_cart, lines 649-662).
    With a quantity field that parses to [q]: a cart id beyond 64 bits makes
    both views raise [OverflowError]; an unknown cart id gives the 404 page
    and a row of another user gives "Access denied", both without a write.
    On a row of the session user [remove_from_cart] deletes the row, and so
    does [update_cart] when [q] is zero or less; a positive [q] replaces the
    quantity of the row when it fits 64 bits - there is no other bound and
    no look at the stock - and raises [OverflowError] when it does not.  The
    row under any other key reads as before. *)
Theorem X14_update_cart_lookup (env : Env) (req : Request) (cart_id : Z)
    (st : Store) (q : Z) :
  form_int_default env req "quantity" 1 = Ok q ->
  if sqlite_integer cart_id
  then
    match get_cart st cart_id with
    | None =>
        update_cart env req cart_id st = Done (silently not_found, st) /\
        remove_from_cart req cart_id st = Done (silently not_found, st)
    | Some c =>
        if Cart.user_id c =? session_user_id req
        then
          exists removed,
            remove_from_cart req cart_id st
            = Done (flash_then "Item removed from cart" "info"
                               (redirect_to "cart" None), removed) /\
            products removed = products st /\
            orders removed = orders st /\
            order_items removed = order_items st /\
            get_cart removed cart_id = None /\
            (forall k, k <> cart_id -> get_cart removed k = get_cart st k) /\
            (q <= 0 ->
             update_cart env req cart_id st
             = Done (silently (redirect_to "cart" None), removed)) /\
            (0 < q ->
             if sqlite_integer q
             then
               exists st',
                 update_cart env req cart_id st
                 = Done (silently (redirect_to "cart" None), st') /\
                 products st' = products st /\
                 orders st' = orders st /\
                 order_items st' = order_items st /\
                 get_cart st' cart_id = Some (set_quantity c q) /\
                 (forall k, k <> cart_id -> get_cart st' k = get_cart st k)
             else update_cart env req cart_id st = Fail OverflowError)
        else
          update_cart env req cart_id st
          = Done (flash_then "Access denied" "danger" (redirect_to "cart" None), st) /\
          remove_from_cart req cart_id st
          = Done (flash_then "Access denied" "danger" (redirect_to "cart" None), st)
    end
  else
    update_cart env req cart_id st = Fail OverflowError /\
    remove_from_cart req cart_id st = Fail OverflowError.
Proof.
  intros Hq. unfold update_cart, remove_from_cart. rewrite Hq.
  cbn [python and_then].
  destruct (sqlite_integer cart_id) eqn:Hfit;
    [|rewrite (bind_integer_fail _ Hfit); split; reflexivity].
  rewrite (bind_integer_ok _ Hfit). cbn [and_then].
  destruct (get_cart st cart_id) as [c|] eqn:Eg; [|split; reflexivity].
  destruct (get_cart_id st cart_id c Eg) as [Hin Hid].
  destruct (Cart.user_id c =? session_user_id req) eqn:Eu; cbn [negb];
    [|split; reflexivity].
  eexists. split; [reflexivity|].
  split; [reflexivity|]. split; [reflexivity|]. split; [reflexivity|].
  unfold get_cart in *. cbn [with_carts carts]. rewrite Hid.
  split; [rewrite find_cart_delete, Z.eqb_refl; reflexivity|].
  split.
  { intros k Hk. rewrite find_cart_delete.
    apply Z.eqb_neq in Hk. now rewrite Hk. }
  split.
  - intros Hle. apply Z.leb_le in Hle. rewrite Hle. reflexivity.
  - intros Hpos. assert (Hgt : (q <=? 0) = false) by (apply Z.leb_gt; lia).
    rewrite Hgt.
    destruct (sqlite_integer q) eqn:Hfq;
      [|now rewrite (bind_integer_fail _ Hfq)].
    rewrite (bind_integer_ok _ Hfq). cbn [and_then].
    eexists. split; [reflexivity|].
    split; [reflexivity|]. split; [reflexivity|]. split; [reflexivity|].
    cbn [with_carts carts]. split.
    + rewrite find_cart_update by exact Hid. rewrite Z.eqb_refl, Eg. reflexivity.
    + intros k Hk. rewrite find_cart_update by exact Hid.
      apply Z.eqb_neq in Hk. now rewrite Hk.
Qed.

(** In the sample shop user 7 sets the first cart row to three. *)
Lemma X14_update_cart_lookup_witness :
  exists st',
    update_cart sample_env add_three 1 shop
    = Done (silently (redirect_to "cart" None), st') /\
    option_map Cart.quantity (get_cart st' 1) = Some 3 /\
    get_cart st' 2 = get_cart shop 2.
Proof.
  assert (Hq3 : form_int_default sample_env add_three "quantity" 1 = Ok 3)
    by (vm_compute; reflexivity).
  pose proof (X14_update_cart_lookup sample_env add_three 1 shop 3 Hq3) as H.
  assert (Hfit : sqlite_integer 1 = true) by reflexivity.
  assert (Hg : exists c,
             get_cart shop 1 = Some c /\
             (Cart.user_id c =? session_user_id add_three) = true)
    by (vm_compute; eexists; split; reflexivity).
  destruct Hg as (c & Hg & Hown). rewrite Hfit, Hg, Hown in H.
  destruct H as (removed & _ & _ & _ & _ & _ & _ & _ & Hset).
  assert (Hfq : sqlite_integer 3 = true) by reflexivity.
  rewrite Hfq in Hset.
  destruct (Hset ltac:(lia)) as (st' & Hrun & _ & _ & _ & Hget & Hother).
  exists st'. split; [exact Hrun|]. split.
  - rewrite Hget. reflexivity.
  - apply Hother. discriminate.
Defined.

(** ** One user's writes and another user's cart *)

Lemma other_rows_update (rows : list Cart.t) (c c' : Cart.t) (user : Z) :
  NoDup (map Cart.id rows) -> In c rows ->
  Cart.user_id c <> user -> Cart.user_id c' <> user ->
  filter (fun x => Cart.user_id x =? user) (update_cart_row rows (Cart.id c) c')
  = filter (fun x => Cart.user_id x =? user) rows.
Proof.
  intros Hnd Hin Hc Hc'.
  destruct (update_cart_row_split rows c c' Hnd Hin) as (before & after & -> & ->).
  rewrite !filter_app. simpl.
  apply Z.eqb_neq in Hc, Hc'. now rewrite Hc, Hc'.
Qed.

Lemma other_rows_delete (rows : list Cart.t) (c : Cart.t) (user : Z) :
  NoDup (map Cart.id rows) -> In c rows ->
  Cart.user_id c <> user ->
  filter (fun x => Cart.user_id x =? user) (delete_cart_row rows (Cart.id c))
  = filter (fun x => Cart.user_id x =? user) rows.
Proof.
  intros Hnd Hin Hc.
  destruct (delete_cart_row_split rows c Hnd Hin) as (before & after & -> & ->).
  rewrite !filter_app. simpl.
  apply Z.eqb_neq in Hc. now rewrite Hc.
Qed.

(** X15 (add_to_cart 599-616, update_cart 630-647, remove_from_cart
    649-662).  With distinct cart keys, no write to the cart by one user
    changes the cart rows of another user, whatever ids the request
    names. *)
Theorem X15_other_carts_untouched (env : Env) (req : Request) (st : Store)
    (user : Z) :
  NoDup (map Cart.id (carts st)) ->
  user <> session_user_id req ->
  (forall product_id r st',
      add_to_cart env req product_id st = Done (r, st') ->
      cart_items_of st' user = cart_items_of st user) /\
  (forall cart_id r st',
      update_cart env req cart_id st = Done (r, st') ->
      cart_items_of st' user = cart_items_of st user) /\
  (forall cart_id r st',
      remove_from_cart req cart_id st = Done (r, st') ->
      cart_items_of st' user = cart_items_of st user).
Proof.
  intros Hnd Hu.
  assert (Hown : forall c, Cart.user_id c = session_user_id req ->
                           Cart.user_id c <> user) by (intros c Hc; congruence).
  split; [|split].
  - intros product_id r st' H.
    destruct (form_int_default env req "quantity" 1) as [q|e] eqn:Hq;
      [|unfold add_to_cart in H; rewrite Hq in H; discriminate H].
    destruct (sqlite_integer product_id
              && sqlite_integer
                   (written_quantity st (session_user_id req) product_id q))
      eqn:Hfit;
      [|rewrite (add_to_cart_overflow env req product_id st q Hq Hfit) in H;
        discriminate H].
    apply andb_true_iff in Hfit. destruct Hfit as [Hp Hw].
    destruct (add_to_cart_rows env req product_id st q Hnd Hq Hp Hw)
      as (rows & Hrun & _ & Hrows).
    rewrite Hrun in H. injection H as _ <-.
    unfold cart_items_of. cbn [with_carts carts].
    destruct Hrows as [(before & c & after & Hst & -> & Hcu & _)
                      | (c & -> & Hcu & _)].
    + rewrite Hst, !filter_app. simpl.
      assert (E : (Cart.user_id c =? user) = false)
        by (apply Z.eqb_neq; now apply Hown).
      now rewrite E.
    + rewrite filter_app. simpl.
      assert (E : (Cart.user_id c =? user) = false)
        by (apply Z.eqb_neq; now apply Hown).
      rewrite E. apply app_nil_r.
  - intros cart_id r st'. unfold update_cart.
    destruct (form_int_default env req "quantity" 1) as [q|e];
      [|discriminate]. cbn [python and_then].
    destruct (sqlite_integer cart_id) eqn:Hfit;
      [|rewrite (bind_integer_fail _ Hfit); discriminate].
    rewrite (bind_integer_ok _ Hfit). cbn [and_then].
    destruct (get_cart st cart_id) as [c|] eqn:Eg;
      [|intros H; injection H as _ <-; reflexivity].
    destruct (get_cart_id st cart_id c Eg) as [Hin _].
    destruct (Cart.user_id c =? session_user_id req) eqn:Ec; cbn [negb];
      [|intros H; injection H as _ <-; reflexivity].
    apply Z.eqb_eq in Ec.
    destruct (q <=? 0).
    + cbn [and_then]. intros H. injection H as _ <-.
      unfold cart_items_of. cbn [with_carts carts].
      apply other_rows_delete; auto.
    + destruct (sqlite_integer q) eqn:Hfq;
        [|rewrite (bind_integer_fail _ Hfq); discriminate].
      rewrite (bind_integer_ok _ Hfq). cbn [and_then].
      intros H. injection H as _ <-.
      unfold cart_items_of. cbn [with_carts carts].
      apply other_rows_update; auto.
  - intros cart_id r st'. unfold remove_from_cart.
    destruct (sqlite_integer cart_id) eqn:Hfit;
      [|rewrite (bind_integer_fail _ Hfit); discriminate].
    rewrite (bind_integer_ok _ Hfit). cbn [and_then].
    destruct (get_cart st cart_id) as [c|] eqn:Eg;
      [|intros H; injection H as _ <-; reflexivity].
    destruct (get_cart_id st cart_id c Eg) as [Hin _].
    destruct (Cart.user_id c =? session_user_id req) eqn:Ec; cbn [negb];
      [|intros H; injection H as _ <-; reflexivity].
    apply Z.eqb_eq in Ec. intros H. injection H as _ <-.
    unfold cart_items_of. cbn [with_carts carts].
    apply other_rows_delete; auto.
Qed.

(** In the sample shop user 7 removes a cart row; the row of user 8 stays. *)
Lemma X15_other_carts_untouched_witness :
  exists r st',
    remove_from_cart add_three 1 shop = Done (r, st') /\
    cart_items_of st' 7 <> cart_items_of shop 7 /\
    cart_items_of st' 8 = cart_items_of shop 8.
Proof.
  assert (Hrun : exists r st',
             remove_from_cart add_three 1 shop = Done (r, st') /\
             cart_items_of st' 7 <> cart_items_of shop 7).
  { vm_compute. eexists. eexists. split; [reflexivity | discriminate]. }
  destruct Hrun as (r & st' & Hrun & Hmine).
  exists r, st'. split; [exact Hrun|]. split; [exact Hmine|].
  assert (Hu : 8 <> session_user_id add_three)
    by (intros H; vm_compute in H; discriminate H).
  exact (proj2 (proj2
           (X15_other_carts_untouched sample_env add_three shop 8
              sample_cart_keys Hu)) 1 r st' Hrun).
Defined.

(** ** The cart page and the checkout *)

(** X16 (cart, lines 618-628; checkout, lines 664-717).  Class [Cart] has no
    [product] attribute, so pricing a cart row raises [AttributeError]:
    the cart page renders for an empty cart only, with a total of 0, and
    [checkout], GET or POST, answers "Your cart is empty" for an empty cart
    and raises for every other.  No run of [checkout] places an order,
    writes an order item, lowers a stock or empties a cart. *)
Theorem X16_checkout_never_places_an_order (env : Env) (req : Request)
    (st : Store) :
  (cart_items_of st (session_user_id req) = [] ->
   cart req st = Done (silently (cart_page [] 0)) /\
   checkout env req st
   = Done (flash_then "Your cart is empty" "warning" (redirect_to "products" None),
           st)) /\
  (cart_items_of st (session_user_id req) <> [] ->
   cart req st = Fail AttributeError /\
   checkout env req st = Fail AttributeError) /\
  (forall r st', checkout env req st = Done (r, st') -> st' = st).
Proof.
  unfold cart, checkout.
  destruct (cart_items_of st (session_user_id req)) as [|c rest].
  - split; [intros _; split; reflexivity|].
    split; [intros H; now elim H|].
    intros r st' H. now injection H as _ <-.
  - rewrite add_lines_cons. cbn [and_then].
    split; [discriminate|]. split; [intros _; split; reflexivity|].
    discriminate.
Qed.

(** In the sample shop user 7, with two cart rows, posts an address. *)
Lemma X16_checkout_never_places_an_order_witness :
  cart place_order shop = Fail AttributeError /\
  checkout sample_env place_order shop = Fail AttributeError.
Proof.
  apply (proj1 (proj2 (X16_checkout_never_places_an_order sample_env
                         place_order shop))).
  vm_compute. discriminate.
Defined.

Lemma add_to_cart_row (env : Env) (req : Request) (product_id : Z) (st : Store)
    (r : Reply) (st' : Store) :
  add_to_cart env req product_id st = Done (r, st') ->
  products st' = products st /\
  exists c,
    In c (carts st') /\
    Cart.user_id c = session_user_id req /\
    Cart.product_id c = product_id.
Proof.
  unfold add_to_cart.
  destruct (form_int_default env req "quantity" 1) as [q|e]; [|discriminate].
  cbn [python and_then]. unfold bind_integer.
  destruct (sqlite_integer product_id); [|discriminate]. cbn [and_then].
  destruct (find _ (carts st)) as [c|] eqn:Ef.
  - destruct (sqlite_integer (Cart.quantity c + q)); [|discriminate].
    cbn [and_then]. intros H. injection H as _ <-.
    split; [reflexivity|].
    apply find_some in Ef. destruct Ef as [Hin Hc].
    apply andb_true_iff in Hc. destruct Hc as [Hu Hp].
    apply Z.eqb_eq in Hu, Hp.
    eexists. split; [cbn [with_carts carts]; now apply update_cart_row_mem|].
    split; assumption.
  - destruct (sqlite_integer q); [|discriminate].
    cbn [and_then]. intros H. injection H as _ <-.
    split; [reflexivity|].
    eexists. split; [cbn [with_carts carts]; apply in_or_app; right; now left|].
    split; reflexivity.
Qed.

(** X18 (add_to_cart, lines 599-616; cart, lines 618-628; checkout, lines
    664-675).  [add_to_cart] does not look the product up: whenever it
    returns, for a product that exists or not, the cart of the session user
    holds a row for that product id, and from then on the cart page and the
    checkout of that user, GET or POST, raise [AttributeError] at
    [item.product]. *)
Theorem X18_cart_breaks_after_add (env : Env) (req : Request)
    (product_id : Z) (st : Store) (r : Reply) (st' : Store) :
  add_to_cart env req product_id st = Done (r, st') ->
  (exists c,
      In c (cart_items_of st' (session_user_id req)) /\
      Cart.product_id c = product_id) /\
  cart req st' = Fail AttributeError /\
  (forall env' req',
      session_user_id req' = session_user_id req ->
      checkout env' req' st' = Fail AttributeError).
Proof.
  intros H.
  destruct (add_to_cart_row env req product_id st r st' H)
    as (_ & c & Hin & Hu & Hp).
  assert (Hc : In c (cart_items_of st' (session_user_id req))).
  { unfold cart_items_of. apply filter_In. split; [exact Hin|].
    now apply Z.eqb_eq. }
  split; [now exists c|].
  split.
  - unfold cart.
    destruct (cart_items_of st' (session_user_id req)); [contradiction|].
    now rewrite add_lines_cons.
  - intros env' req' Hs. unfold checkout. rewrite Hs.
    destruct (cart_items_of st' (session_user_id req)); [contradiction|].
    now rewrite add_lines_cons.
Qed.

(** In the sample shop user 9, whose cart is empty, adds product 99, which
    does not exist. *)
Lemma X18_cart_breaks_after_add_witness :
  cart first_visit shop = Done (silently (cart_page [] 0)) /\
  exists r st',
    add_to_cart sample_env first_visit 99 shop = Done (r, st') /\
    cart first_visit st' = Fail AttributeError /\
    checkout sample_env first_visit st' = Fail AttributeError.
Proof.
  split; [reflexivity|].
  assert (Hrun : exists r st',
             add_to_cart sample_env first_visit 99 shop = Done (r, st'))
    by (vm_compute; eexists; eexists; reflexivity).
  destruct Hrun as (r & st' & Hrun).
  destruct (X18_cart_breaks_after_add sample_env first_visit 99 shop r st' Hrun)
    as (_ & Hcart & Hcheckout).
  exists r, st'. split; [exact Hrun|]. split; [exact Hcart|].
  now apply Hcheckout.
Defined.

(** ** A product taken off the catalog *)

Lemma inactive_not_listed (rows : list Product.t) (pid : Z) (product' x : Product.t)
    (f : Product.t -> bool) :
  NoDup (map Product.id rows) ->
  Product.id product' = pid ->
  f product' = false ->
  In x (filter f (update_product_row rows pid product')) ->
  Product.id x <> pid /\ In x (filter f rows).
Proof.
  intros Hnd Hid Hf. induction rows as [|y rows IH]; simpl; [contradiction|].
  simpl in Hnd. apply NoDup_cons_iff in Hnd. destruct Hnd as [Hy Hnd].
  destruct (Product.id y =? pid) eqn:Ey.
  - apply Z.eqb_eq in Ey. simpl. rewrite Hf. intros Hx. split.
    + intros Hxid. apply Hy. rewrite Ey, <- Hxid. apply in_map.
      apply filter_In in Hx. tauto.
    + destruct (f y); [now right | exact Hx].
  - simpl. destruct (f y).
    + intros [<- | Hx].
      * split; [now apply Z.eqb_neq | now left].
      * destruct (IH Hnd Hx). split; [assumption | now right].
    + exact (IH Hnd).
Qed.

Lemma others_still_listed (rows : list Product.t) (pid : Z) (product' x : Product.t)
    (f : Product.t -> bool) :
  Product.id x <> pid ->
  In x (filter f rows) ->
  In x (filter f (update_product_row rows pid product')).
Proof.
  intros Hx. induction rows as [|y rows IH]; simpl; [contradiction|].
  destruct (Product.id y =? pid) eqn:Ey.
  - apply Z.eqb_eq in Ey. simpl. destruct (f y).
    + intros [<- | Hin]; [contradiction|].
      destruct (f product'); [now right | exact Hin].
    + intros Hin. destruct (f product'); [now right | exact Hin].
  - simpl. destruct (f y).
    + intros [<- | Hin]; [now left | right; now apply IH].
    + exact IH.
Qed.

(** X19 (admin_delete_product, lines 950-958; products, lines 576-586).
    With distinct product keys, deleting a product that exists is a soft
    delete: it takes exactly that product off every catalog listing and
    changes nothing else.  The other products are listed as before, the
    product row keeps its price and stock, and the cart rows that name it,
    the orders and the order items stay. *)
Theorem X19_delete_hides_product_only (product_id : Z) (st : Store)
    (product : Product.t) :
  NoDup (map Product.id (products st)) ->
  sqlite_integer product_id = true ->
  get_product st product_id = Some product ->
  exists st',
    admin_delete_product product_id st
    = Done (flash_then "Product deleted successfully" "success"
                       (redirect_to "admin_products" None), st') /\
    (forall category, exists listed listed',
        products_page category st = silently (catalog_page listed category) /\
        products_page category st' = silently (catalog_page listed' category) /\
        forall x, In x listed' <-> (In x listed /\ Product.id x <> product_id)) /\
    (forall q, price_of st' q = price_of st q) /\
    (forall q, stock_of st' q = stock_of st q) /\
    carts st' = carts st /\
    orders st' = orders st /\
    order_items st' = order_items st.
Proof.
  intros Hnd Hfit Hg. unfold admin_delete_product.
  rewrite (bind_integer_ok _ Hfit). cbn [and_then]. rewrite Hg.
  eexists. split; [reflexivity|].
  set (gone := {| Product.id := Product.id product;
                  Product.name := Product.name product;
                  Product.description := Product.description product;
                  Product.category := Product.category product;
                  Product.price := Product.price product;
                  Product.stock_quantity := Product.stock_quantity product;
                  Product.image := Product.image product;
                  Product.specifications := Product.specifications product;
                  Product.wattage := Product.wattage product;
                  Product.is_active := false;
                  Product.created_at := Product.created_at product |}).
  assert (Hid : Product.id gone = product_id).
  { unfold get_product in Hg. apply find_some in Hg. destruct Hg as [_ Hg].
    now apply Z.eqb_eq in Hg. }
  assert (Hfind : forall q,
             find (fun p => Product.id p =? q)
                  (update_product_row (products st) product_id gone)
             = if q =? product_id then Some gone else get_product st q).
  { intros q. rewrite find_product_update by exact Hid.
    unfold get_product in *. now rewrite Hg. }
  assert (Hprice : forall q,
             price_of {| products := update_product_row (products st) product_id gone;
                         carts := carts st; orders := orders st;
                         order_items := order_items st |} q
             = price_of st q).
  { intros q. unfold price_of, get_product at 1. cbn [products]. rewrite Hfind.
    destruct (q =? product_id) eqn:E; [|reflexivity].
    apply Z.eqb_eq in E. subst q. now rewrite Hg. }
  split; [|split; [exact Hprice|split; [|repeat split]]].
  - intros category. unfold products_page. cbn [products].
    destruct (category =? "all")%string.
    + eexists. eexists. split; [reflexivity|]. split; [reflexivity|].
      intros x. split.
      * intros Hx.
        destruct (inactive_not_listed _ _ gone x Product.is_active Hnd Hid
                    eq_refl Hx). tauto.
      * intros [Hx Hne]. now apply others_still_listed.
    + eexists. eexists. split; [reflexivity|]. split; [reflexivity|].
      intros x. split.
      * intros Hx.
        destruct (inactive_not_listed _ _ gone x
                    (fun p => is_str (Product.category p) category
                              && Product.is_active p) Hnd Hid
                    (andb_false_r _) Hx). tauto.
      * intros [Hx Hne]. now apply others_still_listed.
  - intros q. unfold stock_of, get_product at 1. cbn [products]. rewrite Hfind.
    destruct (q =? product_id) eqn:E; [|reflexivity].
    apply Z.eqb_eq in E. subst q. now rewrite Hg.
Qed.

(** In the sample shop the panel is deleted: the catalog lists the inverter
    only, and the panel keeps its stock of 20. *)
Lemma X19_delete_hides_product_only_witness :
  exists st',
    admin_delete_product 1 shop
    = Done (flash_then "Product deleted successfully" "success"
                       (redirect_to "admin_products" None), st') /\
    products_page "all" st' = silently (catalog_page [inverter] "all") /\
    stock_of st' 1 = Some 20.
Proof.
  assert (Hnd : NoDup (map Product.id (products shop))).
  { simpl. repeat constructor; simpl; intuition discriminate. }
  destruct (X19_delete_hides_product_only 1 shop panel Hnd eq_refl eq_refl)
    as (st' & Hrun & _ & _ & Hstock & _).
  assert (H0 : exists st0,
             admin_delete_product 1 shop
             = Done (flash_then "Product deleted successfully" "success"
                                (redirect_to "admin_products" None), st0) /\
             products_page "all" st0 = silently (catalog_page [inverter] "all"))
    by (vm_compute; eexists; split; reflexivity).
  destruct H0 as (st0 & H0 & Hpage).
  rewrite H0 in Hrun. injection Hrun as Hsame. subst st'.
  exists st0. split; [exact H0|]. split; [exact Hpage|].
  rewrite Hstock. reflexivity.
Defined.

End ShopMore.

(** * Accounts and feedback *)

Module AccountsMore.

Import PyNum Intake Sample Shop ShopFacts ShopSample Accounts Reviews
  AccountsSample.
Local Open Scope string_scope.
Local Open Scope Z_scope.

Lemma truthy_some (s : string) : s <> "" -> truthy (Some s) = true.
Proof.
  intros H. unfold truthy. apply negb_true_iff. now apply String.eqb_neq.
Qed.

Lemma find_fresh_last {A : Type} (key : A -> Z) (rows : list A) (x : A) :
  ~ In (key x) (map key rows) ->
  find (fun r => key r =? key x) (rows ++ [x]) = Some x.
Proof.
  intros H. induction rows as [|r rows IH]; simpl.
  - now rewrite Z.eqb_refl.
  - destruct (key r =? key x) eqn:E.
    + exfalso. apply H. left. now apply Z.eqb_eq.
    + apply IH. intros Hin. apply H. now right.
Qed.

Lemma user_by_email_none (users : list User.t) (email : string) :
  (forall u, In u users -> User.email u <> email) ->
  find (fun u => (User.email u =? email)%string) users = None.
Proof.
  intros H. induction users as [|u users IH]; simpl; [reflexivity|].
  destruct (String.eqb_spec (User.email u) email) as [E | _].
  - exfalso. exact (H u (or_introl eq_refl) E).
  - apply IH. intros v Hv. apply H. now right.
Qed.

Lemma user_by_email_last (users : list User.t) (user : User.t) :
  (forall u, In u users -> User.email u <> User.email user) ->
  find (fun u => (User.email u =? User.email user)%string) (users ++ [user])
  = Some user.
Proof.
  intros H. induction users as [|u users IH]; simpl.
  - now rewrite String.eqb_refl.
  - destruct (String.eqb_spec (User.email u) (User.email user)) as [E | _].
    + exfalso. exact (H u (or_introl eq_refl) E).
    + apply IH. intros v Hv. apply H. now right.
Qed.

(** X20 (signup, lines 301-342; login, lines 344-367; login_required,
    lines 238-247; admin_required, lines 249-262).  A POST signup whose four
    required fields are not empty, whose two passwords agree and whose
    email is not registered appends one client account with a fresh key;
    if the hash of the password checks against the password, a login with
    the same email and password then opens, from any session, the session
    of that account and sends it to the client dashboard; with that session
    [login_required] lets a view run and [admin_required] refuses it. *)
Theorem X20_signup_then_login (h : Hasher) (env : Env) (req req' : Request)
    (users : list User.t) (session : Session)
    (full_name email phone password : string) :
  method req = POST ->
  form_get req "full_name" = Some full_name ->
  form_get req "email" = Some email ->
  form_get req "phone" = Some phone ->
  form_get req "password" = Some password ->
  form_get req "confirm_password" = Some password ->
  full_name <> "" -> email <> "" -> phone <> "" -> password <> "" ->
  (forall u, In u users -> User.email u <> email) ->
  check_password_hash h (generate_password_hash h password) (Some password)
  = Ok true ->
  method req' = POST ->
  form_get req' "email" = Some email ->
  form_get req' "password" = Some password ->
  exists user,
    signup h env req users
    = (flash_and_redirect "Account created successfully! Please login."
                          "success" "login",
       (users ++ [user])%list) /\
    ~ In (User.id user) (map User.id users) /\
    User.email user = email /\
    User.full_name user = full_name /\
    User.user_type user = Some "client" /\
    login h req' (users ++ [user])%list session
    = Ok ({| flashed := [("Welcome back, " ++ full_name ++ "!", "success")];
             response := redirect "client_dashboard" |},
          {| user_id := Some (User.id user);
             user_type := Some (Some "client");
             user_name := Some full_name |}) /\
    (forall (R : Type) (f : R) (session' : Session),
        user_id session' = Some (User.id user) ->
        login_required session' f = Entered f /\
        admin_required (users ++ [user])%list session' f
        = Refused (flash_and_redirect "Admin access required" "danger" "index")).
Proof.
  intros Hm Hn He Hp Hpw Hc Hn0 He0 Hp0 Hpw0 Hnew Hcheck Hm' He' Hpw'.
  eexists. split.
  { unfold signup. rewrite Hm, Hn, He, Hp, Hpw, Hc. cbn [forallb].
    rewrite !truthy_some by assumption. cbn [andb negb differ].
    rewrite String.eqb_refl. cbn [negb user_by_email].
    rewrite (user_by_email_none users email Hnew). reflexivity. }
  split; [cbn [User.id]; apply next_key_fresh|].
  split; [reflexivity|]. split; [reflexivity|]. split; [reflexivity|].
  split.
  { unfold login. rewrite Hm', He', Hpw'. cbn [user_by_email].
    match goal with
    | |- context [find _ (users ++ [?u])%list] =>
        pose proof (user_by_email_last users u Hnew) as Hlast
    end.
    cbn [User.email] in Hlast. rewrite Hlast.
    cbn [User.password_hash bind]. rewrite Hcheck. reflexivity. }
  intros R f session' Hs. unfold login_required, admin_required, get_user.
  rewrite Hs. split; [reflexivity|].
  match goal with
  | |- context [find _ (users ++ [?u])%list] =>
      pose proof (find_fresh_last User.id users u) as Hlast
  end.
  cbn [User.id] in Hlast |- *. rewrite Hlast by apply next_key_fresh.
  reflexivity.
Qed.

(** A first account is created in an empty table and logs in. *)
Lemma X20_signup_then_login_witness :
  exists user,
    signup plain_hasher sample_env register []
    = (flash_and_redirect "Account created successfully! Please login."
                          "success" "login", [user]) /\
    login plain_hasher sign_in [user] cleared
    = Ok ({| flashed := [("Welcome back, Ayesha Khan!", "success")];
             response := redirect "client_dashboard" |},
          {| user_id := Some (User.id user);
             user_type := Some (Some "client");
             user_name := Some "Ayesha Khan" |}).
Proof.
  destruct (X20_signup_then_login plain_hasher sample_env register sign_in []
              cleared "Ayesha Khan" "ayesha@example.com" "0300-1234567" "s3cret"
              eq_refl eq_refl eq_refl eq_refl eq_refl eq_refl
              ltac:(discriminate) ltac:(discriminate) ltac:(discriminate)
              ltac:(discriminate) ltac:(intros u [])
              ltac:(vm_compute; reflexivity) eq_refl eq_refl eq_refl)
    as (user & Hsignup & _ & _ & _ & _ & Hlogin & _).
  exists user. split; [exact Hsignup | exact Hlogin].
Defined.

(** X21 (signup, lines 301-342).  Whatever the request, [signup] leaves the
    rows of the user table as they are and appends at most one: a client,
    active, under the email of the form; distinct keys stay distinct,
    distinct emails stay distinct, and the administrators are the same
    before and after. *)
Theorem X21_signup_keeps_accounts (h : Hasher) (env : Env) (req : Request)
    (users : list User.t) :
  exists added,
    snd (signup h env req users) = (users ++ added)%list /\
    (List.length added <= 1)%nat /\
    Forall (fun u => User.user_type u = Some "client" /\
                     User.is_active u = true /\
                     form_get req "email" = Some (User.email u) /\
                     User.email u <> "") added /\
    (NoDup (map User.id users) -> NoDup (map User.id (users ++ added)%list)) /\
    (NoDup (map User.email users) -> NoDup (map User.email (users ++ added)%list)) /\
    filter is_admin (users ++ added)%list = filter is_admin users.
Proof.
  assert (Hsame : exists added : list User.t,
             users = (users ++ added)%list /\
             (List.length added <= 1)%nat /\
             Forall (fun u => User.user_type u = Some "client" /\
                              User.is_active u = true /\
                              form_get req "email" = Some (User.email u) /\
                              User.email u <> "") added /\
             (NoDup (map User.id users) -> NoDup (map User.id (users ++ added)%list)) /\
             (NoDup (map User.email users) ->
              NoDup (map User.email (users ++ added)%list)) /\
             filter is_admin (users ++ added)%list = filter is_admin users).
  { exists []. rewrite app_nil_r. repeat split; auto. }
  unfold signup. destruct (method req); [exact Hsame|].
  destruct (forallb truthy _) eqn:Eall; cbn [negb]; [|exact Hsame].
  destruct (differ _ _); [exact Hsame|].
  destruct (user_by_email users (form_get req "email")) as [u|] eqn:Eu;
    [exact Hsame|].
  destruct (form_get req "full_name") as [full_name|]; [|exact Hsame].
  destruct (form_get req "email") as [email|] eqn:Ee; [|exact Hsame].
  destruct (form_get req "phone") as [phone|]; [|exact Hsame].
  destruct (form_get req "password") as [password|]; [|exact Hsame].
  cbn [snd]. eexists. split; [reflexivity|].
  cbn [user_by_email] in Eu.
  assert (Hemail : email <> "").
  { cbn [forallb] in Eall. apply andb_true_iff in Eall. destruct Eall as [_ Eall].
    apply andb_true_iff in Eall. destruct Eall as [Eall _].
    unfold truthy in Eall. apply negb_true_iff in Eall.
    now apply String.eqb_neq. }
  split; [simpl; lia|]. split.
  { constructor; [|constructor]. cbn [User.user_type User.is_active User.email].
    repeat split. exact Hemail. }
  split; [|split].
  - intros Hnd. rewrite map_app. apply NoDup_app; [exact Hnd | |].
    + simpl. constructor; [tauto | constructor].
    + intros x Hx [<- | []]. now apply (next_key_fresh (map User.id users)).
  - intros Hnd. rewrite map_app. apply NoDup_app; [exact Hnd | |].
    + simpl. constructor; [tauto | constructor].
    + intros x Hx [<- | []]. cbn [User.email] in Hx.
      apply in_map_iff in Hx. destruct Hx as (v & Hv & Hin).
      pose proof (find_none _ _ Eu v Hin) as Hne. cbn beta in Hne.
      rewrite Hv, String.eqb_refl in Hne. discriminate Hne.
  - rewrite filter_app. simpl. apply app_nil_r.
Qed.

(** ** Feedback *)

Lemma update_feedback_row_last (rows : list Feedback.t) (item item' : Feedback.t) :
  ~ In (Feedback.id item) (map Feedback.id rows) ->
  update_feedback_row (rows ++ [item]) (Feedback.id item) item'
  = (rows ++ [item'])%list.
Proof.
  intros H. induction rows as [|r rows IH]; simpl.
  - now rewrite Z.eqb_refl.
  - destruct (Feedback.id r =? Feedback.id item) eqn:E.
    + exfalso. apply H. left. now apply Z.eqb_eq.
    + f_equal. apply IH. intros Hin. apply H. now right.
Qed.

Lemma firstn_app_keep {A : Type} (n : nat) (l l' : list A) :
  (n <= List.length l)%nat -> firstn n (l ++ l') = firstn n l.
Proof.
  intros H. rewrite firstn_app.
  replace (n - List.length l)%nat with O by lia. simpl. apply app_nil_r.
Qed.

(** X22 (feedback, lines 767-793; admin_approve_feedback, lines 1167-1175;
    index, line 278).  A POST feedback whose comment is not empty and whose
    rating parses to an integer other than zero raises [OverflowError] when
    the rating does not fit the 64 bits of the column; any other such
    rating - the scale of one to five is not enforced - is stored for the
    session user, not approved, under a fresh key, and the landing page
    shows the same feedback as before.  Approving it puts it behind the
    feedback approved so far: the landing page, which takes the first six
    approved rows, shows it when fewer than six were approved and does not
    when six already were. *)
Theorem X22_feedback_needs_approval (env : Env) (req : Request)
    (table : list Feedback.t) (rating : Z) (text : string) :
  method req = POST ->
  py_int_of env (form_get req "rating") = Ok rating ->
  rating <> 0 ->
  form_get req "comment" = Some text ->
  text <> "" ->
  sqlite_integer (next_key (map Feedback.id table)) = true ->
  if sqlite_integer rating
  then
    exists item,
      feedback env req table
      = Done (flash_and_redirect "Thank you for your feedback!" "success" "index",
              (table ++ [item])%list) /\
      ~ In (Feedback.id item) (map Feedback.id table) /\
      Feedback.user_id item = session_user_id req /\
      Feedback.rating item = rating /\
      Feedback.comment item = text /\
      Feedback.is_approved item = false /\
      approved_feedbacks (table ++ [item])%list = approved_feedbacks table /\
      exists approved,
        admin_approve_feedback (Feedback.id item) (table ++ [item])%list
        = Done (flash_and_redirect "Feedback approved" "success" "admin_feedback",
                approved) /\
        approved = (table ++ [set_approved item])%list /\
        ((List.length (filter Feedback.is_approved table) < 6)%nat ->
         In (set_approved item) (approved_feedbacks approved)) /\
        ((6 <= List.length (filter Feedback.is_approved table))%nat ->
         approved_feedbacks approved = approved_feedbacks table)
  else feedback env req table = Fail OverflowError.
Proof.
  intros Hm Hr Hr0 Hc Hc0 Hkey.
  assert (Hrun : feedback env req table
                 = and_then (bind_integer rating) (fun rating =>
                     Done (flash_and_redirect "Thank you for your feedback!"
                                              "success" "index",
                           (table
                            ++ [{| Feedback.id := next_key (map Feedback.id table);
                                   Feedback.user_id := session_user_id req;
                                   Feedback.rating := rating;
                                   Feedback.comment := text;
                                   Feedback.service_type :=
                                     form_get req "service_type";
                                   Feedback.is_approved := false;
                                   Feedback.created_at := utcnow env |}])%list))).
  { unfold feedback. rewrite Hm, Hr. cbn [python and_then]. rewrite Hc.
    apply Z.eqb_neq in Hr0. rewrite Hr0, (truthy_some text Hc0).
    cbn [negb andb]. reflexivity. }
  rewrite Hrun.
  destruct (sqlite_integer rating) eqn:Hfit;
    [|now rewrite (bind_integer_fail _ Hfit)].
  rewrite (bind_integer_ok _ Hfit). cbn [and_then].
  eexists. split; [reflexivity|].
  match goal with
  | |- ~ In (Feedback.id ?i) _ /\ _ => set (item := i)
  end.
  assert (Hfresh : ~ In (Feedback.id item) (map Feedback.id table))
    by (cbn [item Feedback.id]; apply next_key_fresh).
  split; [exact Hfresh|].
  split; [reflexivity|]. split; [reflexivity|]. split; [reflexivity|].
  split; [reflexivity|].
  split.
  { unfold approved_feedbacks. rewrite filter_app. simpl. now rewrite app_nil_r. }
  eexists. split.
  { unfold admin_approve_feedback.
    change (Feedback.id item) with (next_key (map Feedback.id table)) at 1.
    rewrite (bind_integer_ok _ Hkey). cbn [and_then].
    change (next_key (map Feedback.id table)) with (Feedback.id item).
    rewrite (find_fresh_last Feedback.id table item Hfresh).
    rewrite (update_feedback_row_last table item (set_approved item) Hfresh).
    reflexivity. }
  split; [reflexivity|].
  unfold approved_feedbacks. rewrite filter_app.
  change (filter Feedback.is_approved [set_approved item])
    with [set_approved item].
  split.
  - intros Hlt. rewrite firstn_all2 by (rewrite length_app; simpl; lia).
    apply in_or_app. right. now left.
  - intros Hge. now apply firstn_app_keep.
Qed.

(** User 7 leaves five stars in an empty table. *)
Lemma X22_feedback_needs_approval_witness :
  exists item,
    feedback sample_env five_stars []
    = Done (flash_and_redirect "Thank you for your feedback!" "success" "index",
            [item]) /\
    Feedback.rating item = 5 /\
    approved_feedbacks [item] = [].
Proof.
  assert (Hr : py_int_of sample_env (form_get five_stars "rating") = Ok 5)
    by (vm_compute; reflexivity).
  pose proof (X22_feedback_needs_approval sample_env five_stars [] 5
                "Clean installation" eq_refl Hr ltac:(discriminate) eq_refl
                ltac:(discriminate) eq_refl) as H.
  assert (Hfit : sqlite_integer 5 = true) by reflexivity.
  rewrite Hfit in H.
  destruct H as (item & Hrun & _ & _ & Hrating & _ & _ & Hshown & _).
  exists item. split; [exact Hrun|]. split; [exact Hrating | exact Hshown].
Defined.

End AccountsMore.

(** * The status page and the order desk *)

Module ViewsMore.

Import PyNum Intake Sample Shop ShopFacts ShopSample Accounts Views ShopPages
  AccountsSample.
Local Open Scope string_scope.
Local Open Scope Z_scope.

Lemma find_order_update (rows : list Order.t) (order_id k : Z) (order' : Order.t) :
  Order.id order' = order_id ->
  find (fun o => Order.id o =? k) (update_order_row rows order_id order')
  = if k =? order_id
    then match find (fun o => Order.id o =? order_id) rows with
         | Some _ => Some order'
         | None => None
         end
    else find (fun o => Order.id o =? k) rows.
Proof.
  intros Hid. induction rows as [|x rows IH]; simpl.
  - now destruct (k =? order_id).
  - destruct (Order.id x =? order_id) eqn:Ex; simpl.
    + apply Z.eqb_eq in Ex. rewrite Hid.
      destruct (k =? order_id) eqn:Ek.
      * apply Z.eqb_eq in Ek. subst k. now rewrite Z.eqb_refl.
      * rewrite Ex. rewrite (Z.eqb_sym order_id k), Ek. reflexivity.
    + destruct (Order.id x =? k) eqn:Exk.
      * apply Z.eqb_eq in Exk. subst k. rewrite Ex. reflexivity.
      * exact IH.
Qed.

(** X24 (admin_order_detail, lines 1010-1024).  A POST on an order that
    exists replaces its status and its payment status by the two form
    fields as they come - any text, and NULL for a field the form does not
    have - and keeps its user, number, total and address; every other order
    reads as before, and products, stock, carts and order items are
    untouched: cancelling an order returns nothing to the stock. *)
Theorem X24_order_desk_sets_statuses_only (req : Request) (order_id : Z)
    (st : Store) (order : Order.t) :
  method req = POST ->
  get_order st order_id = Some order ->
  exists st' order',
    admin_order_detail req order_id st
    = (flash_and_redirect "Order updated successfully" "success" "admin_orders",
       st') /\
    get_order st' order_id = Some order' /\
    Order.status order' = form_get req "status" /\
    Order.payment_status order' = form_get req "payment_status" /\
    Order.id order' = order_id /\
    Order.user_id order' = Order.user_id order /\
    Order.order_number order' = Order.order_number order /\
    Order.total_amount order' = Order.total_amount order /\
    Order.shipping_address order' = Order.shipping_address order /\
    (forall k, k <> order_id -> get_order st' k = get_order st k) /\
    products st' = products st /\
    (forall q, stock_of st' q = stock_of st q) /\
    carts st' = carts st /\
    order_items st' = order_items st.
Proof.
  intros Hm Hg. unfold admin_order_detail. rewrite Hg, Hm.
  assert (Hid : Order.id order = order_id).
  { unfold get_order in Hg. apply find_some in Hg. destruct Hg as [_ Hg].
    now apply Z.eqb_eq in Hg. }
  eexists. eexists. split; [reflexivity|].
  unfold get_order in *. cbn [orders]. split.
  { rewrite find_order_update by exact Hid. rewrite Z.eqb_refl, Hg. reflexivity. }
  split; [reflexivity|]. split; [reflexivity|]. split; [exact Hid|].
  split; [reflexivity|]. split; [reflexivity|]. split; [reflexivity|].
  split; [reflexivity|]. split.
  { intros k Hk. rewrite find_order_update by exact Hid.
    apply Z.eqb_neq in Hk. now rewrite Hk. }
  repeat split.
Qed.

(** The order of the sample shop is cancelled: its payment status becomes
    NULL and the stock of the inverter stays at -1. *)
Lemma X24_order_desk_sets_statuses_only_witness :
  exists st' order',
    admin_order_detail cancel_order 1 shop_with_order
    = (flash_and_redirect "Order updated successfully" "success" "admin_orders",
       st') /\
    get_order st' 1 = Some order' /\
    Order.status order' = Some "cancelled" /\
    Order.payment_status order' = None /\
    stock_of st' 2 = Some (-1).
Proof.
  assert (Hg : exists order, get_order shop_with_order 1 = Some order)
    by (vm_compute; eexists; reflexivity).
  destruct Hg as [order Hg].
  destruct (X24_order_desk_sets_statuses_only cancel_order 1 shop_with_order order
              eq_refl Hg)
    as (st' & order' & Hrun & Hget & Hs & Hp & _ & _ & _ & _ & _ & _ & _ & Hstock & _).
  exists st', order'. split; [exact Hrun|]. split; [exact Hget|].
  split; [rewrite Hs; reflexivity|]. split; [rewrite Hp; reflexivity|].
  rewrite Hstock. reflexivity.
Defined.

(** X23 (admin_order_detail, lines 1010-1024; order_confirmation, lines
    719-729).  After the order desk has rewritten the statuses of an order,
    the confirmation page of that order shows the order with the new
    statuses to the user it belongs to, and answers "Access denied" to every
    other user. *)
Theorem X23_confirmation_for_owner_only (req : Request) (order_id : Z)
    (st : Store) (order : Order.t) :
  method req = POST ->
  sqlite_integer order_id = true ->
  get_order st order_id = Some order ->
  exists st' order',
    admin_order_detail req order_id st
    = (flash_and_redirect "Order updated successfully" "success" "admin_orders",
       st') /\
    Order.status order' = form_get req "status" /\
    Order.payment_status order' = form_get req "payment_status" /\
    Order.total_amount order' = Order.total_amount order /\
    (forall req',
        order_confirmation req' order_id st'
        = Done (if session_user_id req' =? Order.user_id order
                then order_shown order'
                else order_denied
                       (flash_and_redirect "Access denied" "danger"
                                           "client_dashboard"))).
Proof.
  intros Hm Hfit Hg. unfold admin_order_detail. rewrite Hg, Hm.
  assert (Hid : Order.id order = order_id).
  { unfold get_order in Hg. apply find_some in Hg. destruct Hg as [_ Hg].
    now apply Z.eqb_eq in Hg. }
  eexists.
  exists (with_order_status order (form_get req "status")
            (form_get req "payment_status")).
  split; [reflexivity|].
  split; [reflexivity|]. split; [reflexivity|]. split; [reflexivity|].
  intros req'. unfold order_confirmation.
  rewrite (bind_integer_ok _ Hfit). cbn [and_then orders].
  unfold get_order in Hg.
  rewrite find_order_update by exact Hid. rewrite Z.eqb_refl, Hg.
  cbn [with_order_status Order.user_id].
  rewrite (Z.eqb_sym (Order.user_id order) (session_user_id req')).
  now destruct (session_user_id req' =? Order.user_id order).
Qed.

(** The order of the sample shop is cancelled; user 7, whose order it is,
    reads the new status. *)
Lemma X23_confirmation_for_owner_only_witness :
  exists st' order',
    admin_order_detail cancel_order 1 shop_with_order
    = (flash_and_redirect "Order updated successfully" "success" "admin_orders",
       st') /\
    Order.status order' = Some "cancelled" /\
    order_confirmation place_order 1 st' = Done (order_shown order').
Proof.
  assert (Hg : exists order,
             get_order shop_with_order 1 = Some order /\
             (session_user_id place_order =? Order.user_id order) = true)
    by (vm_compute; eexists; split; reflexivity).
  destruct Hg as (order & Hg & Hown).
  destruct (X23_confirmation_for_owner_only cancel_order 1 shop_with_order order
              eq_refl eq_refl Hg)
    as (st' & order' & Hrun & Hs & _ & _ & Hpage).
  exists st', order'. split; [exact Hrun|].
  split; [rewrite Hs; reflexivity|].
  rewrite (Hpage place_order), Hown. reflexivity.
Defined.

(** X25 (login, lines 344-367; application_status, lines 494-508).  With
    the session a successful login opens for an account, the status page of
    an application that exists is rendered exactly when the application is
    the account's own or the account is an administrator; otherwise the
    answer is "Access denied" and a redirect to the dashboard. *)
Theorem X25_status_page_after_login (h : Hasher) (req req' : Request)
    (users : list User.t) (session : Session) (user : User.t) (app_id : Z)
    (db : Database) (application : MeteringApplication) :
  method req = POST ->
  user_by_email users (form_get req "email") = Some user ->
  check_password_hash h (User.password_hash user) (form_get req "password")
  = Ok true ->
  session_user_id req' = User.id user ->
  query_get db app_id = Some application ->
  exists out session',
    login h req users session = Ok (out, session') /\
    Accounts.user_id session' = Some (session_user_id req') /\
    application_status req' session' app_id db
    = if (Intake.user_id application =? User.id user) || is_admin user
      then {| flashed := [];
              response := render_template "application_status.html" |}
      else flash_and_redirect "Access denied" "danger" "client_dashboard".
Proof.
  intros Hm Hu Hc Hs Hq. unfold login. rewrite Hm, Hu. cbn [bind]. rewrite Hc.
  cbn [bind]. eexists. eexists. split; [reflexivity|].
  cbn [Accounts.user_id]. split; [now rewrite Hs|].
  unfold application_status, session_is_not_admin, is_admin, is_str.
  rewrite Hq, Hs. cbn [Accounts.user_type].
  destruct (Intake.user_id application =? User.id user);
    destruct (User.user_type user) as [t|]; cbn [negb andb orb];
    try reflexivity.
  now destruct (t =? "admin")%string.
Qed.

(** The account of the sample asks for the application of user 7. *)
Lemma X25_status_page_after_login_witness :
  exists out session',
    login plain_hasher sign_in accounts cleared = Ok (out, session') /\
    application_status as_ayesha session' 1 sample_table
    = flash_and_redirect "Access denied" "danger" "client_dashboard".
Proof.
  assert (Hu : exists user,
             user_by_email accounts (form_get sign_in "email") = Some user /\
             check_password_hash plain_hasher (User.password_hash user)
               (form_get sign_in "password") = Ok true /\
             session_user_id as_ayesha = User.id user /\
             is_admin user = false)
    by (vm_compute; eexists; repeat split).
  destruct Hu as (user & Hu & Hc & Hs & Hadmin).
  assert (Hq : exists application,
             query_get sample_table 1 = Some application /\
             Intake.user_id application = 7)
    by (vm_compute; eexists; split; reflexivity).
  destruct Hq as (application & Hq & Howner).
  destruct (X25_status_page_after_login plain_hasher sign_in as_ayesha accounts
              cleared user 1 sample_table application eq_refl Hu Hc Hs Hq)
    as (out & session' & Hrun & _ & Hpage).
  exists out, session'. split; [exact Hrun|].
  rewrite Hpage, Howner, Hadmin, <- Hs. reflexivity.
Defined.

End ViewsMore.
